(** * TCPHandler: framing, dispatch, identity, eviction and outbound send

    A shallow embedding of [server/utils/tcp_handler.py].  The class
    [TCPHandler] keeps its connections, receive buffers and handler
    registrations in Python dictionaries and reports through the module
    logger; here the instance is a record, the methods are computations in
    a small state-and-exception monad over that record, and the logger and
    the registered callbacks are observed through a trace of events.

    Every method body runs under [self.client_lock]; the embedding is the
    sequential semantics of one method at a time, which is what the lock
    provides for the parts it encloses. *)

From Stdlib Require Import ZArith NArith QArith List Strings.Byte Ascii String Lia.
From Stdlib Require Import DecimalString.
From stdpp Require Import base decidable option list gmap.

Open Scope list_scope.

(** ** Python values *)

(** A Python [str] is a sequence of Unicode code points. *)
Definition char := N.
Abbreviation str := (list N).

(** A Python [bytes] object. *)
Abbreviation bytes := (list byte).

(** String literals of the source, written as Rocq strings. *)
Definition py (s : string) : str :=
  map N_of_ascii (list_ascii_of_string s).
Arguments py : simpl never.

(** [str(n)] for a non-negative integer. *)
Definition str_of_int (n : N) : str :=
  py (NilZero.string_of_uint (N.to_uint n)).

(** Truth value of an optional string in a condition ([if x:], [if not x:]):
    [None] and the empty string are false. *)
Definition truthy (x : option str) : bool :=
  match x with
  | Some (_ :: _) => true
  | _ => false
  end.

(** The newline byte [b'\n'] and the newline character ['\n']. *)
Definition NL : byte := x0a.
Definition nl : char := 10%N.

(** ** Python dictionaries

    A [dict] keeps its keys in insertion order and the methods below
    iterate over [self.clients.items()], so a dictionary that is iterated
    is an association list: assignment to a present key keeps its place,
    assignment to a new key appends, and deletion removes the key. *)
Section PyDict.
Context {K V : Type} `{EqDecision K}.

Definition dict := list (K * V).

(** [d.get(k)] *)
Fixpoint dict_get (d : dict) (k : K) : option V :=
  match d with
  | [] => None
  | (k', v) :: d' => if decide (k' = k) then Some v else dict_get d' k
  end.

(** [k in d] *)
Definition dict_in (k : K) (d : dict) : bool :=
  match dict_get d k with Some _ => true | None => false end.

(** [d[k] = v] *)
Fixpoint dict_set (d : dict) (k : K) (v : V) : dict :=
  match d with
  | [] => [(k, v)]
  | (k', v') :: d' =>
      if decide (k' = k) then (k', v) :: d' else (k', v') :: dict_set d' k v
  end.

(** [del d[k]]; every caller checks [k in d] first. *)
Fixpoint dict_del (d : dict) (k : K) : dict :=
  match d with
  | [] => []
  | (k', v) :: d' =>
      if decide (k' = k) then dict_del d' k else (k', v) :: dict_del d' k
  end.

(** [d.keys()] *)
Definition dict_keys (d : dict) : list K := map fst d.

(** Keys are unique in a dictionary. *)
Definition dict_wf (d : dict) : Prop := NoDup (dict_keys d).
End PyDict.

Arguments dict : clear implicits.

(** ** UTF-8

    [bytes.decode('utf-8')] and [str.encode('utf-8')] in strict mode: an
    ill-formed sequence, an overlong form, a surrogate or a code point
    above U+10FFFF raises. *)

Definition is_cont (b : byte) : bool :=
  let n := Byte.to_N b in (128 <=? n)%N && (n <=? 191)%N.

Definition in_range (lo hi : N) (b : byte) : bool :=
  let n := Byte.to_N b in (lo <=? n)%N && (n <=? hi)%N.

Definition cont_bits (b : byte) : N := N.land (Byte.to_N b) 63.

Fixpoint utf8_decode (bs : bytes) : option str :=
  match bs with
  | [] => Some []
  | b0 :: r0 =>
      let n0 := Byte.to_N b0 in
      if (n0 <? 128)%N then
        match utf8_decode r0 with Some s => Some (n0 :: s) | None => None end
      else if in_range 194 223 b0 then
        match r0 with
        | b1 :: r1 =>
            if is_cont b1 then
              match utf8_decode r1 with
              | Some s => Some ((N.land n0 31 * 64 + cont_bits b1)%N :: s)
              | None => None
              end
            else None
        | _ => None
        end
      else if in_range 224 239 b0 then
        match r0 with
        | b1 :: b2 :: r2 =>
            let lo := if (n0 =? 224)%N then 160%N else 128%N in
            let hi := if (n0 =? 237)%N then 159%N else 191%N in
            if in_range lo hi b1 && is_cont b2 then
              match utf8_decode r2 with
              | Some s =>
                  Some (((N.land n0 15 * 64 + cont_bits b1) * 64
                         + cont_bits b2)%N :: s)
              | None => None
              end
            else None
        | _ => None
        end
      else if in_range 240 244 b0 then
        match r0 with
        | b1 :: b2 :: b3 :: r3 =>
            let lo := if (n0 =? 240)%N then 144%N else 128%N in
            let hi := if (n0 =? 244)%N then 143%N else 191%N in
            if in_range lo hi b1 && is_cont b2 && is_cont b3 then
              match utf8_decode r3 with
              | Some s =>
                  Some ((((N.land n0 7 * 64 + cont_bits b1) * 64
                          + cont_bits b2) * 64 + cont_bits b3)%N :: s)
              | None => None
              end
            else None
        | _ => None
        end
      else None
  end.

Definition byte_of (n : N) : byte :=
  match Byte.of_N n with Some b => b | None => x00 end.

Definition encode_char (c : char) : option bytes :=
  if (c <? 128)%N then Some [byte_of c]
  else if (c <? 2048)%N then
    Some [byte_of (192 + c / 64); byte_of (128 + c mod 64)]%N
  else if (c <? 65536)%N then
    if (55296 <=? c)%N && (c <=? 57343)%N then None
    else Some [byte_of (224 + c / 4096); byte_of (128 + (c / 64) mod 64);
               byte_of (128 + c mod 64)]%N
  else if (c <? 1114112)%N then
    Some [byte_of (240 + c / 262144); byte_of (128 + (c / 4096) mod 64);
          byte_of (128 + (c / 64) mod 64); byte_of (128 + c mod 64)]%N
  else None.

Fixpoint utf8_encode (s : str) : option bytes :=
  match s with
  | [] => Some []
  | c :: s' =>
      match encode_char c, utf8_encode s' with
      | Some b, Some bs => Some (b ++ bs)
      | _, _ => None
      end
  end.

(** [s.endswith('\n')] *)
Fixpoint endswith_nl (s : str) : bool :=
  match s with
  | [] => false
  | [c] => (c =? nl)%N
  | _ :: s' => endswith_nl s'
  end.

(** [s.strip()]: the characters for which [str.isspace] holds are removed
    from both ends. *)
Definition isspace (c : char) : bool :=
  ((9 <=? c) && (c <=? 13) || (28 <=? c) && (c <=? 32) || (c =? 133)
   || (c =? 160) || (c =? 5760) || (8192 <=? c) && (c <=? 8202)
   || (c =? 8232) || (c =? 8233) || (c =? 8239) || (c =? 8287)
   || (c =? 12288))%N.

Fixpoint lstrip (s : str) : str :=
  match s with
  | c :: s' => if isspace c then lstrip s' else s
  | [] => []
  end.

Definition strip (s : str) : str := rev (lstrip (rev (lstrip s))).

(** ** Sockets

    The only operations the handler performs on a client socket are
    [sendall] and [close].  A socket object is its state: whether its
    descriptor is still held, what has been written to it, and how the
    operating system answers the two calls.  As in CPython, [close]
    releases the descriptor first and then reports the error of the
    system call, so closing a socket again does nothing; [sendall] on a
    released descriptor raises. *)
Record Socket := mkSocket {
  sock_fd : N;
  sock_open : bool;
  sock_sent : bytes;
  sock_send_error : bool;
  sock_close_error : bool
}.

Inductive exn :=
| UnicodeDecodeError
| UnicodeEncodeError
| OSError
| IndexError
| KeyError
| HandlerError.

Definition socket_close (s : Socket) : Socket * option exn :=
  if sock_open s then
    (mkSocket (sock_fd s) false (sock_sent s) (sock_send_error s)
       (sock_close_error s),
     if sock_close_error s then Some OSError else None)
  else (s, None).

Definition socket_sendall (s : Socket) (data : bytes) : Socket * option exn :=
  if sock_open s && negb (sock_send_error s) then
    (mkSocket (sock_fd s) true (sock_sent s ++ data) (sock_send_error s)
       (sock_close_error s), None)
  else (s, Some OSError).

(** ** The handler object *)

(** The value of [self.clients[client_id]]: a dictionary with the four
    keys ['socket'], ['address'], ['device_id'] and ['last_activity'].
    Timestamps are readings of [time.time()], taken as exact rationals. *)
Record ClientInfo := mkClient {
  socket : Socket;
  address : str * N;
  device_id : option str;
  last_activity : Q
}.

(** The dictionary a registered callback receives; the key ['raw'] is
    present only in the first dispatch branch. *)
Record HandlerArg := mkArg {
  arg_device_type : str;
  arg_message_type : str;
  arg_content : str;
  arg_raw : option str
}.

(** A registered callback: it is observed through the calls made to it,
    and it may raise.  What a callback does on its own account, to the
    handler object or elsewhere, is outside this development. *)
Record Handler := mkHandler {
  handler_name : string;
  handler_raises : HandlerArg -> bool
}.

Record TCPHandler := mkTCPHandler {
  clients : dict str ClientInfo;
  message_buffers : gmap str bytes;
  device_handlers : dict str (dict str Handler);
  auto_device_mapping : gmap str str
}.

(** [TCPHandler.DEVICE_ID_MAPPING] *)
Definition DEVICE_ID_MAPPING : dict str str :=
  [ (py "S", py "sort_controller");
    (py "H", py "env_controller");
    (py "G", py "access_controller") ].

(** ** Logging and callbacks as events *)

Inductive level := DEBUG | INFO | WARNING | ERROR.

(** Which of the four dispatch branches logged the reception. *)
Inductive branch := ByMapped | ByRaw | ByMappedLegacy | ByRawLegacy.

(** One constructor per logging call of the source, carrying the values
    its format string interpolates. *)
Inductive message :=
| NewClient (client_id : str)
| AutoRegistered (device : str) (client_id : str)
| MessageTooShort (decoded : str)
| DeviceRegistered (device_type : str) (client_id : str)
| ProcessingError (e : exn)
| Received (b : branch) (raw_device_id message_type content : str)
| NoHandler (device message_type raw_device_id : str)
| RegisteredHandlers (keys : list (str * str))
| NoRegisteredHandlers
| DispatchError (e : exn)
| NoConnection (device : str)
| ConnectedClients (l : list (str * option str * (str * N)))
| NoConnectedClients
| MappedRawId (tag : str)
| SendSucceeded (device : str) (command : str)
| SendFailed (device : str) (e : exn)
| HandlerRegistered (device message_type : str)
| DeviceDisconnected (device : str)
| RemoveError (e : exn)
| InactiveClient (client_id : str)
| ReceiveError (client_id : str) (e : exn).

Inductive event :=
| Log (l : level) (m : message)
| Call (h : Handler) (a : HandlerArg).

(** The handler together with what the run has produced so far and the
    logger's configuration. *)
Record World := mkWorld {
  self : TCPHandler;
  trace : list event;
  debug_enabled : bool
}.

(** ** The monad of method bodies

    A computation reads and updates the world and either returns or
    raises; what it did before raising stays done. *)
Inductive result (A : Type) :=
| Ok (a : A)
| Raised (e : exn).
Arguments Ok {A} a.
Arguments Raised {A} e.

Definition M (A : Type) := World -> result A * World.

Definition ret {A} (a : A) : M A := fun w => (Ok a, w).

Definition bind {A B} (m : M A) (k : A -> M B) : M B :=
  fun w =>
    match m w with
    | (Ok a, w') => k a w'
    | (Raised e, w') => (Raised e, w')
    end.

Definition raise {A} (e : exn) : M A := fun w => (Raised e, w).

(** [try: m except Exception as e: h e] *)
Definition try_except {A} (m : M A) (h : exn -> M A) : M A :=
  fun w =>
    match m w with
    | (Ok a, w') => (Ok a, w')
    | (Raised e, w') => h e w'
    end.

Declare Scope py_scope.
Delimit Scope py_scope with py.
Notation "x <- m ;; k" := (bind m (fun x => k))
  (at level 100, m at next level, right associativity) : py_scope.
Notation "m ;; k" := (bind m (fun _ => k))
  (at level 100, right associativity) : py_scope.
Open Scope py_scope.

Definition get : M TCPHandler := fun w => (Ok (self w), w).

Definition put (h : TCPHandler) : M unit :=
  fun w => (Ok tt, mkWorld h (trace w) (debug_enabled w)).

Definition emit (e : event) : M unit :=
  fun w => (Ok tt, mkWorld (self w) (trace w ++ [e]) (debug_enabled w)).

Definition log (l : level) (m : message) : M unit := emit (Log l m).

(** [logger.isEnabledFor(logging.DEBUG)] *)
Definition isEnabledFor_DEBUG : M bool := fun w => (Ok (debug_enabled w), w).

Definition when (b : bool) (m : M unit) : M unit := if b then m else ret tt.

(** [for x in l: body x] *)
Fixpoint for_each {A} (l : list A) (body : A -> M unit) : M unit :=
  match l with
  | [] => ret tt
  | x :: l' => body x ;; for_each l' body
  end.

Definition set_clients (c : dict str ClientInfo) : M unit :=
  h <- get ;;
  put (mkTCPHandler c (message_buffers h) (device_handlers h)
         (auto_device_mapping h)).

Definition set_message_buffers (b : gmap str bytes) : M unit :=
  h <- get ;;
  put (mkTCPHandler (clients h) b (device_handlers h) (auto_device_mapping h)).

Definition set_device_handlers (d : dict str (dict str Handler)) : M unit :=
  h <- get ;;
  put (mkTCPHandler (clients h) (message_buffers h) d (auto_device_mapping h)).

(** [self.clients[client_id]]; the callers have checked the key. *)
Definition client (client_id : str) : M ClientInfo :=
  h <- get ;;
  match dict_get (clients h) client_id with
  | Some info => ret info
  | None => raise KeyError
  end.

(** ** Framing ([_process_data], lines 198-215) *)

(** [b'\n' in buffer] *)
Definition has_newline (buffer : bytes) : bool :=
  existsb (fun b => Byte.eqb b NL) buffer.

(** [buffer.split(b'\n', 1)] on a buffer that holds a newline: the bytes
    before the first newline and the bytes after it. *)
Fixpoint split_once (buffer : bytes) : bytes * bytes :=
  match buffer with
  | [] => ([], [])
  | b :: rest =>
      if Byte.eqb b NL then ([], rest)
      else let '(message, rest') := split_once rest in (b :: message, rest')
  end.

(** The [while b'\n' in buffer] loop.  Every turn removes at least the
    newline it found, so the length of the buffer bounds the number of
    turns. *)
Fixpoint extract_loop (turns : nat) (buffer : bytes) (messages : list bytes)
  : list bytes * bytes :=
  match turns with
  | O => (messages, buffer)
  | S turns' =>
      if has_newline buffer then
        let '(message, buffer') := split_once buffer in
        extract_loop turns' buffer'
          (match message with
           | [] => messages
           | _ :: _ => messages ++ [message]
           end)
      else (messages, buffer)
  end.

Definition extract_messages (buffer : bytes) : list bytes * bytes :=
  extract_loop (length buffer) buffer [].

(** [self.message_buffers[client_id]] *)
Definition buffer_at (client_id : str) : M bytes :=
  h <- get ;;
  match message_buffers h !! client_id with
  | Some b => ret b
  | None => raise KeyError
  end.

Definition frame_data (client_id : str) (data : bytes) : M (list bytes) :=
  h <- get ;;
  when (negb (bool_decide (is_Some (message_buffers h !! client_id))))
    (set_message_buffers (<[client_id := []]> (message_buffers h))) ;;
  old <- buffer_at client_id ;;
  h <- get ;;
  set_message_buffers (<[client_id := old ++ data]> (message_buffers h)) ;;
  buffer <- buffer_at client_id ;;
  let '(messages, buffer) := extract_messages buffer in
  h <- get ;;
  set_message_buffers (<[client_id := buffer]> (message_buffers h)) ;;
  ret messages.

(** ** Dispatch ([_process_message]) *)

(** [device in self.device_handlers and
     message_type in self.device_handlers[device]] *)
Definition has_handler (device message_type : str) : M bool :=
  h <- get ;;
  ret (match dict_get (device_handlers h) device with
       | Some table => dict_in message_type table
       | None => false
       end).

(** [self.device_handlers[device][message_type](arg)] *)
Definition call_handler (device message_type : str) (arg : HandlerArg)
  : M unit :=
  h <- get ;;
  match dict_get (device_handlers h) device with
  | Some table =>
      match dict_get table message_type with
      | Some f =>
          emit (Call f arg) ;;
          if handler_raises f arg then raise HandlerError else ret tt
      | None => raise KeyError
      end
  | None => raise KeyError
  end.

(** The [if]/[elif] chain that sets [legacy_type]. *)
Definition legacy_type_of (message_type : str) : option str :=
  if decide (message_type = py "E") then Some (py "evt")
  else if decide (message_type = py "R") then Some (py "res")
  else if decide (message_type = py "X") then Some (py "err")
  else None.

(** [legacy_type and device in self.device_handlers and
     legacy_type in self.device_handlers[device]] *)
Definition has_legacy_handler (legacy_type : option str) (device : str)
  : M bool :=
  if truthy legacy_type then
    match legacy_type with
    | Some t => has_handler device t
    | None => ret false
    end
  else ret false.

(** The keys collected for the debugging dump. *)
Definition handler_keys (d : dict str (dict str Handler)) : list (str * str) :=
  flat_map (fun '(d_id, handlers) => map (fun m_type => (d_id, m_type))
                                        (dict_keys handlers)) d.

Definition _process_message
    (device_id message_type raw_device_id content : str) : M unit :=
  try_except
    (let handler_called := false in
     let original_message := raw_device_id ++ message_type ++ content in
     (* 1. mapped device id and message type *)
     found <- has_handler device_id message_type ;;
     handler_called <-
       (if found then
          log DEBUG (Received ByMapped raw_device_id message_type content) ;;
          call_handler device_id message_type
            (mkArg raw_device_id message_type content
               (Some original_message)) ;;
          ret true
        else ret handler_called) ;;
     (* 2. raw device id and message type *)
     found <- (if negb handler_called
               then has_handler raw_device_id message_type
               else ret false) ;;
     handler_called <-
       (if found then
          log DEBUG (Received ByRaw raw_device_id message_type content) ;;
          call_handler raw_device_id message_type
            (mkArg raw_device_id message_type content None) ;;
          ret true
        else ret handler_called) ;;
     (* the deprecated mapping, kept for compatibility *)
     handler_called <-
       (if negb handler_called then
          let legacy_type := legacy_type_of message_type in
          found <- has_legacy_handler legacy_type device_id ;;
          if found then
            log DEBUG
              (Received ByMappedLegacy raw_device_id message_type content) ;;
            call_handler device_id (default [] legacy_type)
              (mkArg raw_device_id message_type content None) ;;
            ret true
          else
            found <- has_legacy_handler legacy_type raw_device_id ;;
            if found then
              log DEBUG
                (Received ByRawLegacy raw_device_id message_type content) ;;
              call_handler raw_device_id (default [] legacy_type)
                (mkArg raw_device_id message_type content None) ;;
              ret true
            else ret handler_called
        else ret handler_called) ;;
     (* no handler found *)
     when (negb handler_called)
       (log WARNING (NoHandler device_id message_type raw_device_id) ;;
        enabled <- isEnabledFor_DEBUG ;;
        when enabled
          (h <- get ;;
           match handler_keys (device_handlers h) with
           | [] => log WARNING NoRegisteredHandlers
           | keys => log DEBUG (RegisteredHandlers keys)
           end)))
    (fun e => log ERROR (DispatchError e)).

(** ** Parsing and identity ([_process_data], lines 218-247) *)

Definition decode (message : bytes) : M str :=
  match utf8_decode message with
  | Some s => ret s
  | None => raise UnicodeDecodeError
  end.

Definition with_device_id (info : ClientInfo) (d : option str) : ClientInfo :=
  mkClient (socket info) (address info) d (last_activity info).

Definition with_last_activity (info : ClientInfo) (t : Q) : ClientInfo :=
  mkClient (socket info) (address info) (device_id info) t.

Definition with_socket (info : ClientInfo) (s : Socket) : ClientInfo :=
  mkClient s (address info) (device_id info) (last_activity info).

(** [self.clients[client_id] = info], also used for an assignment to one
    key of the inner dictionary. *)
Definition store_client (client_id : str) (info : ClientInfo) : M unit :=
  h <- get ;;
  set_clients (dict_set (clients h) client_id info).

(** The body of [for message in messages]. *)
Definition handle_message (client_id : str) (message : bytes) : M unit :=
  try_except
    (decoded_message <- decode message ;;
     if (length decoded_message <? 2)%nat then
       log WARNING (MessageTooShort decoded_message)
     else
       match decoded_message with
       | c0 :: c1 :: message_content =>
           let device_type := [c0] in
           let message_type := [c1] in
           let mapped_device_id :=
             default device_type (dict_get DEVICE_ID_MAPPING device_type) in
           h <- get ;;
           when (dict_in client_id (clients h))
             (info <- client client_id ;;
              match device_id info with
              | None =>
                  store_client client_id
                    (with_device_id info (Some device_type)) ;;
                  log INFO (DeviceRegistered device_type client_id)
              | Some _ => ret tt
              end) ;;
           _process_message mapped_device_id message_type device_type
             message_content
       | _ => raise IndexError
       end)
    (fun e => log ERROR (ProcessingError e)).

Definition _process_data (client_id : str) (data : bytes) : M unit :=
  messages <- frame_data client_id data ;;
  for_each messages (handle_message client_id).

(** ** Accepting a connection ([_accept_connections], lines 102-123)

    One turn of the accept loop for a socket the listener returned at time
    [now]; the thread it starts is the read loop below. *)
Definition accept_connection
    (client_socket : Socket) (addr : str * N) (now : Q) : M str :=
  let client_id := addr.1 ++ py ":" ++ str_of_int addr.2 in
  log INFO (NewClient client_id) ;;
  let ip_address := addr.1 in
  h <- get ;;
  device_id <-
    (match auto_device_mapping h !! ip_address with
     | Some d => log INFO (AutoRegistered d client_id) ;; ret (Some d)
     | None => ret None
     end) ;;
  store_client client_id (mkClient client_socket addr device_id now) ;;
  h <- get ;;
  set_message_buffers (<[client_id := []]> (message_buffers h)) ;;
  ret client_id.

(** ** Eviction ([_remove_client]) *)

(** [self.clients[client_id]['socket'].close()] *)
Definition close_client_socket (client_id : str) : M unit :=
  info <- client client_id ;;
  let '(s, r) := socket_close (socket info) in
  store_client client_id (with_socket info s) ;;
  match r with
  | Some e => raise e
  | None => ret tt
  end.

Definition _remove_client (client_id : str) : M unit :=
  h <- get ;;
  if negb (dict_in client_id (clients h)) then ret tt
  else
    try_except
      (info <- client client_id ;;
       let device_id := device_id info in
       close_client_socket client_id ;;
       h <- get ;;
       set_clients (dict_del (clients h) client_id) ;;
       (* the message buffer goes too *)
       h <- get ;;
       when (bool_decide (is_Some (message_buffers h !! client_id)))
         (set_message_buffers (delete client_id (message_buffers h))) ;;
       match device_id with
       | Some (c :: d) => log INFO (DeviceDisconnected (c :: d))
       | _ => ret tt
       end)
      (fun e => log ERROR (RemoveError e)).

(** ** Looking a device up ([_find_client_by_device]) *)

Fixpoint find_client (items : dict str ClientInfo) (device : str)
  : option str :=
  match items with
  | [] => None
  | (client_id, client_info) :: items' =>
      if decide (device_id client_info = Some device) then Some client_id
      else find_client items' device
  end.

Definition _find_client_by_device (device : str) : M (option str) :=
  h <- get ;;
  ret (find_client (clients h) device).

(** [is_device_connected] *)
Definition is_device_connected (device : str) : M bool :=
  r <- _find_client_by_device device ;;
  ret (match r with Some _ => true | None => false end).

(** [get_connected_devices] *)
Definition get_connected_devices : M (list str) :=
  h <- get ;;
  ret (omap (fun kv => if truthy (device_id kv.2) then device_id kv.2 else None)
         (clients h)).

(** ** Outbound send ([send_message]) *)

(** [{v: k for k, v in self.DEVICE_ID_MAPPING.items()}] *)
Definition reverse_mapping : dict str str :=
  fold_left (fun d kv => dict_set d kv.2 kv.1) DEVICE_ID_MAPPING [].

(** The command with its terminator: unchanged when it already ends with a
    newline, with one appended otherwise. *)
Definition terminated (command : str) : str :=
  if negb (endswith_nl command) then command ++ [nl] else command.

Definition encode (command : str) : M bytes :=
  match utf8_encode command with
  | Some b => ret b
  | None => raise UnicodeEncodeError
  end.

(** [client_socket.sendall(data)] on the socket of [client_id] *)
Definition sendall (client_id : str) (data : bytes) : M unit :=
  info <- client client_id ;;
  let '(s, r) := socket_sendall (socket info) data in
  store_client client_id (with_socket info s) ;;
  match r with
  | Some e => raise e
  | None => ret tt
  end.

Definition send_message (device : str) (command : str) (now : Q) : M bool :=
  client_id <- _find_client_by_device device ;;
  if negb (truthy client_id) then
    log ERROR (NoConnection device) ;;
    (* every connected client, for debugging *)
    h <- get ;;
    let client_info :=
      map (fun '(cid, info) => (cid, device_id info, address info))
        (clients h) in
    match client_info with
    | _ :: _ => log INFO (ConnectedClients client_info)
    | [] => log WARNING NoConnectedClients
    end ;;
    (* and the mapping *)
    match dict_get reverse_mapping device with
    | Some mapped_id => log INFO (MappedRawId mapped_id)
    | None => ret tt
    end ;;
    ret false
  else
    let client_id := default [] client_id in
    try_except
      (h <- get ;;
       if negb (dict_in client_id (clients h)) then ret false
       else
         let command := terminated command in
         data <- encode command ;;
         sendall client_id data ;;
         info <- client client_id ;;
         store_client client_id (with_last_activity info now) ;;
         log INFO (SendSucceeded device (strip command)) ;;
         ret true)
      (fun e =>
         log ERROR (SendFailed device e) ;;
         _remove_client client_id ;;
         ret false).

(** ** Registering a handler ([register_device_handler]) *)

Definition register_device_handler
    (device message_type : str) (handler : Handler) : M unit :=
  h <- get ;;
  when (negb (dict_in device (device_handlers h)))
    (set_device_handlers (dict_set (device_handlers h) device [])) ;;
  h <- get ;;
  match dict_get (device_handlers h) device with
  | Some table =>
      set_device_handlers
        (dict_set (device_handlers h) device
           (dict_set table message_type handler))
  | None => raise KeyError
  end ;;
  log DEBUG (HandlerRegistered device message_type).

(** ** The liveness sweep ([_cleanup_inactive_clients]) *)

(** [current_time - last_activity > timeout] *)
Definition idle_exceeds (current_time last timeout : Q) : bool :=
  negb (Qle_bool (current_time - last) timeout).

(** The scan that fills [inactive_clients]. *)
Fixpoint inactive_clients (items : dict str ClientInfo)
    (current_time timeout : Q) : list str :=
  match items with
  | [] => []
  | (client_id, client_info) :: items' =>
      if idle_exceeds current_time (last_activity client_info) timeout
      then client_id :: inactive_clients items' current_time timeout
      else inactive_clients items' current_time timeout
  end.

Definition _cleanup_inactive_clients (current_time : Q) (timeout : Q)
  : M unit :=
  h <- get ;;
  let inactive := inactive_clients (clients h) current_time timeout in
  for_each inactive
    (fun client_id =>
       log INFO (InactiveClient client_id) ;;
       _remove_client client_id).

(** The default of the [timeout] parameter, which the health-check loop
    always uses. *)
Definition DEFAULT_TIMEOUT : Q := 600.

(** ** One turn of the read loop ([_handle_client_data], lines 165-185)

    [data] is what [recv] returned, non-empty; the result tells whether the
    loop goes on.  Leaving the loop runs [_remove_client]. *)
Definition read_turn (client_id : str) (data : bytes) (now : Q) : M bool :=
  try_except
    (_process_data client_id data ;;
     h <- get ;;
     when (dict_in client_id (clients h))
       (info <- client client_id ;;
        store_client client_id (with_last_activity info now)) ;;
     ret true)
    (fun e => log ERROR (ReceiveError client_id e) ;; ret false).

(** ** The framing rule in the words of the specification *)

(** [stream.split(b'\n')]: the segments between newlines, the last one
    being what follows the last newline. *)
Fixpoint split_on_newline (stream : bytes) : list bytes :=
  match stream with
  | [] => [[]]
  | b :: rest =>
      if Byte.eqb b NL then [] :: split_on_newline rest
      else
        match split_on_newline rest with
        | seg :: segs => (b :: seg) :: segs
        | [] => [[b]]
        end
  end.

Definition is_nonempty (m : bytes) : bool :=
  match m with [] => false | _ :: _ => true end.

Definition drop_empty (segments : list bytes) : list bytes :=
  List.filter is_nonempty segments.

(** The segments a newline terminates, empty ones dropped. *)
Definition stream_messages (stream : bytes) : list bytes :=
  drop_empty (removelast (split_on_newline stream)).

(** The bytes after the last newline. *)
Definition stream_residual (stream : bytes) : bytes :=
  List.last (split_on_newline stream) [].

(** The receive buffer of a connection, empty when none was created. *)
Definition buffer_of (w : World) (client_id : str) : bytes :=
  default [] (message_buffers (self w) !! client_id).

(** Successive reads handed to the framing step. *)
Fixpoint feed (client_id : str) (chunks : list bytes) : M (list bytes) :=
  match chunks with
  | [] => ret []
  | chunk :: chunks' =>
      messages <- frame_data client_id chunk ;;
      messages' <- feed client_id chunks' ;;
      ret (messages ++ messages')
  end.

Definition with_buffers (w : World) (b : gmap str bytes) : World :=
  mkWorld (mkTCPHandler (clients (self w)) b (device_handlers (self w))
             (auto_device_mapping (self w)))
    (trace w) (debug_enabled w).


(** ** The dispatch rule in the words of the specification *)

(** The handler registered under (device identifier, kind), if any. *)
Definition lookup_handler (hs : dict str (dict str Handler))
    (device kind : str) : option Handler :=
  match dict_get hs device with
  | Some table => dict_get table kind
  | None => None
  end.

(** The legacy aliases of the kinds: the registration names of the event,
    response and error kinds. *)
Definition legacy_aliases : dict str str :=
  [ (py "E", py "evt"); (py "R", py "res"); (py "X", py "err") ].

(** The resolution strategies in priority order, each with the key it
    looks up. *)
Definition strategies (device_id raw_tag kind : str)
  : list (branch * (str * str)) :=
  [ (ByMapped, (device_id, kind)); (ByRaw, (raw_tag, kind)) ]
  ++ match dict_get legacy_aliases kind with
     | Some alias =>
         [ (ByMappedLegacy, (device_id, alias));
           (ByRawLegacy, (raw_tag, alias)) ]
     | None => []
     end.

(** The first strategy whose key has a registration. *)
Fixpoint first_match (hs : dict str (dict str Handler))
    (l : list (branch * (str * str))) : option (branch * Handler) :=
  match l with
  | [] => None
  | (b, (device, kind)) :: l' =>
      match lookup_handler hs device kind with
      | Some f => Some (b, f)
      | None => first_match hs l'
      end
  end.

(** The record handed to the callback: the reconstructed line goes with
    the first strategy only. *)
Definition handler_arg (b : branch) (raw_tag kind content : str)
  : HandlerArg :=
  mkArg raw_tag kind content
    (match b with
     | ByMapped => Some (raw_tag ++ kind ++ content)
     | _ => None
     end).

(** What a dispatch leaves in the trace. *)
Definition dispatch_events (w : World)
    (device_id kind raw_tag content : str) : list event :=
  match first_match (device_handlers (self w))
          (strategies device_id raw_tag kind) with
  | Some (b, f) =>
      let a := handler_arg b raw_tag kind content in
      [ Log DEBUG (Received b raw_tag kind content); Call f a ]
      ++ (if handler_raises f a
          then [ Log ERROR (DispatchError HandlerError) ] else [])
  | None =>
      Log WARNING (NoHandler device_id kind raw_tag)
      :: (if debug_enabled w then
            [ match handler_keys (device_handlers (self w)) with
              | [] => Log WARNING NoRegisteredHandlers
              | keys => Log DEBUG (RegisteredHandlers keys)
              end ]
          else [])
  end.

(** The callbacks invoked during a run, in order. *)
Definition calls (t : list event) : list (Handler * HandlerArg) :=
  omap (fun e => match e with Call f a => Some (f, a) | Log _ _ => None end) t.

Definition with_trace (w : World) (t : list event) : World :=
  mkWorld (self w) t (debug_enabled w).

(** ** What the parsing loop does to the world *)

Definition add_events (w : World) (evs : list event) : World :=
  with_trace w (trace w ++ evs).

Definition with_clients (w : World) (c : dict str ClientInfo) : World :=
  mkWorld (mkTCPHandler c (message_buffers (self w))
             (device_handlers (self w)) (auto_device_mapping (self w)))
    (trace w) (debug_enabled w).

(** The device identity stored for a connection. *)
Definition identity (w : World) (client_id : str) : option str :=
  match dict_get (clients (self w)) client_id with
  | Some info => device_id info
  | None => None
  end.

(** The identity-learning step: a connection of the table whose identity
    is still [None] takes the raw tag. *)
Definition learn (client_id tag : str) (w : World) : World :=
  match dict_get (clients (self w)) client_id with
  | Some info =>
      match device_id info with
      | None =>
          add_events
            (with_clients w
               (dict_set (clients (self w)) client_id
                  (with_device_id info (Some tag))))
            [ Log INFO (DeviceRegistered tag client_id) ]
      | Some _ => w
      end
  | None => w
  end.

(** The canonical identifier of a raw tag. *)
Definition mapped_id (tag : str) : str :=
  default tag (dict_get DEVICE_ID_MAPPING tag).

(** The world after one framed message. *)
Definition after_message (client_id : str) (message : bytes) (w : World)
  : World :=
  match utf8_decode message with
  | None => add_events w [ Log ERROR (ProcessingError UnicodeDecodeError) ]
  | Some (c0 :: c1 :: content) =>
      let w1 := learn client_id [c0] w in
      add_events w1 (dispatch_events w1 (mapped_id [c0]) [c1] [c0] content)
  | Some s => add_events w [ Log WARNING (MessageTooShort s) ]
  end.

(** The events of one framed message apart from identity learning. *)
Definition message_events (w : World) (message : bytes) : list event :=
  match utf8_decode message with
  | None => [ Log ERROR (ProcessingError UnicodeDecodeError) ]
  | Some (c0 :: c1 :: content) =>
      dispatch_events w (mapped_id [c0]) [c1] [c0] content
  | Some s => [ Log WARNING (MessageTooShort s) ]
  end.

Definition is_registration (e : event) : bool :=
  match e with
  | Log INFO (DeviceRegistered _ _) => true
  | _ => false
  end.

(** Data arriving on connections, in order. *)
Definition receive (inputs : list (str * bytes)) : M unit :=
  for_each inputs (fun '(client_id, data) => _process_data client_id data).

(** The world after the messages of one chunk, in order. *)
Definition after_messages (client_id : str) (messages : list bytes)
    (w : World) : World :=
  fold_left (fun w m => after_message client_id m w) messages w.

(** The events that are not identity registrations. *)
Definition without_registrations (evs : list event) : list event :=
  List.filter (fun e => negb (is_registration e)) evs.

(** ** What eviction does to the world *)

(** Whether closing the socket of this entry raises. *)
Definition close_raises (info : ClientInfo) : bool :=
  sock_open (socket info) && sock_close_error (socket info).

Definition disconnect_events (device : option str) : list event :=
  match device with
  | Some (c :: d) => [ Log INFO (DeviceDisconnected (c :: d)) ]
  | _ => []
  end.

(** The world after [_remove_client]. *)
Definition after_remove (client_id : str) (w : World) : World :=
  match dict_get (clients (self w)) client_id with
  | None => w
  | Some info =>
      let closed := with_socket info (socket_close (socket info)).1 in
      match (socket_close (socket info)).2 with
      | Some e =>
          add_events
            (with_clients w (dict_set (clients (self w)) client_id closed))
            [ Log ERROR (RemoveError e) ]
      | None =>
          add_events
            (with_buffers
               (with_clients w (dict_del (clients (self w)) client_id))
               (delete client_id (message_buffers (self w))))
            (disconnect_events (device_id info))
      end
  end.

(** The world after a sweep: every inactive client is announced and
    handed to eviction, in table order. *)
Definition sweep_step (w : World) (client_id : str) : World :=
  after_remove client_id
    (add_events w [ Log INFO (InactiveClient client_id) ]).

Definition after_sweep (current_time timeout : Q) (w : World) : World :=
  fold_left sweep_step
    (inactive_clients (clients (self w)) current_time timeout) w.

(** The idle time of a connection. *)
Definition idle (current_time : Q) (info : ClientInfo) : Q :=
  current_time - last_activity info.

(** ** Concrete worlds *)

(** A [bytes] literal of ASCII characters. *)
Definition ascii_bytes (s : string) : bytes :=
  map byte_of_ascii (list_ascii_of_string s).

Definition sorter_id : str := py "10.0.0.5:5000".
Definition gate_id : str := py "10.0.0.7:5001".

(** A socket whose descriptor the operating system refuses to close
    cleanly, and one without trouble. *)
Definition failing_socket : Socket := mkSocket 7 true [] false true.
Definition healthy_socket : Socket := mkSocket 8 true [] false false.

(** A handler with one connection, its socket failing on [close], and a
    partial message in its buffer. *)
Definition world_close_error : World :=
  mkWorld
    (mkTCPHandler
       [ (sorter_id,
          mkClient failing_socket (py "10.0.0.5", 5000%N) (Some (py "S")) 0) ]
       {[ sorter_id := ascii_bytes "SE0" ]}
       [] ∅)
    [] false.

(** Two connections last active at times 0 and 2. *)
Definition world_two_clients : World :=
  mkWorld
    (mkTCPHandler
       [ (sorter_id,
          mkClient healthy_socket (py "10.0.0.5", 5000%N) (Some (py "S")) 0);
         (gate_id,
          mkClient healthy_socket (py "10.0.0.7", 5001%N) None 2) ]
       {[ sorter_id := ascii_bytes "SE0"; gate_id := [] ]}
       [] ∅)
    [] false.

(** ** What a send does *)

(** The command without its final newline, when it has one. *)
Definition chomp (command : str) : str :=
  if endswith_nl command then removelast command else command.

(** The listing of the connection table logged when no connection is
    found. *)
Definition connected_log (w : World) : event :=
  match clients (self w) with
  | [] => Log WARNING NoConnectedClients
  | l =>
      Log INFO
        (ConnectedClients
           (map (fun '(cid, info) => (cid, device_id info, address info)) l))
  end.

(** The raw tag logged when the static mapping has one for the device. *)
Definition mapping_log (device : str) : list event :=
  match dict_get reverse_mapping device with
  | Some tag => [ Log INFO (MappedRawId tag) ]
  | None => []
  end.

(** The entry of a connection after a successful send of [data] at [now]. *)
Definition sent_to (info : ClientInfo) (data : bytes) (now : Q) : ClientInfo :=
  mkClient
    (mkSocket (sock_fd (socket info)) true (sock_sent (socket info) ++ data)
       (sock_send_error (socket info)) (sock_close_error (socket info)))
    (address info) (device_id info) now.

(** Two reads that cut a message in the middle: behind the buffered
    [SE0] they carry [1\n\nGR] and [ok\nX]. *)
Definition example_chunks : list bytes :=
  [ ascii_bytes "1" ++ [NL; NL] ++ ascii_bytes "GR";
    ascii_bytes "ok" ++ [NL] ++ ascii_bytes "X" ].

(** A handler whose address table names the sorter, and the world after it
    accepted a connection from that address at time 0. *)
Definition world_address_table : World :=
  mkWorld
    (mkTCPHandler [] ∅ [] {[ py "10.0.0.5" := py "sort_controller" ]})
    [] false.

Definition world_preregistered : World :=
  (accept_connection healthy_socket (py "10.0.0.5", 5000%N) 0
     world_address_table).2.

(** Messages with two other tags on that connection. *)
Definition example_inputs : list (str * bytes) :=
  [ (sorter_id, ascii_bytes "XE1" ++ [NL]);
    (sorter_id, ascii_bytes "HE2" ++ [NL]) ].

(** A read that carries a one-character line before a full message. *)
Definition example_short_data : bytes :=
  ascii_bytes "G" ++ [NL] ++ ascii_bytes "GE1" ++ [NL].

(** A client id that is not in the table. *)
Definition stranger_id : str := py "10.0.0.9:6000".

(** A callback that never raises. *)
Definition handler_named (name : string) : Handler :=
  mkHandler name (fun _ => false).

(** One unresolved connection and registrations under the canonical id
    and under the raw tag of the sorter. *)
Definition world_handlers : World :=
  mkWorld
    (mkTCPHandler
       [ (sorter_id,
          mkClient healthy_socket (py "10.0.0.5", 5000%N) None 0) ]
       {[ sorter_id := [] ]}
       [ (py "sort_controller",
          [ (py "E", handler_named "sorter_event");
            (py "res", handler_named "sorter_response") ]);
         (py "S",
          [ (py "E", handler_named "tag_event");
            (py "C", handler_named "tag_command");
            (py "evt", handler_named "tag_event_legacy") ]) ]
       ∅)
    [] false.

(** The names of the callbacks invoked, with what they received. *)
Definition called (w : World) : list (string * HandlerArg) :=
  map (fun '(f, a) => (handler_name f, a)) (calls (trace w)).

(** ** Proof steps for the dispatch chain *)

Ltac unfold_dispatch :=
  unfold _process_message, try_except, has_legacy_handler, has_handler,
    call_handler, log, emit, when, isEnabledFor_DEBUG, with_trace,
    handler_arg, dict_in;
  unfold bind, get, ret, raise.

Ltac split_lookups :=
  repeat (cbn;
    match goal with
    | |- context [lookup_handler] => unfold lookup_handler
    | H : dict_get ?d ?k = _ |- context [dict_get ?d ?k] => rewrite H
    | H : handler_raises ?f ?a = _ |- context [handler_raises ?f ?a] =>
        rewrite H
    | |- context [dict_get ?d ?k] =>
        let E := fresh "E" in destruct (dict_get d k) eqn:E
    | |- context [handler_raises ?f ?a] =>
        let E := fresh "E" in destruct (handler_raises f a) eqn:E
    end).


(** * The rest of the class *)

(** ** Measures on byte streams *)

(** The number of newline bytes of a stream. *)
Definition count_newlines (stream : bytes) : nat :=
  length (List.filter (fun b => Byte.eqb b NL) stream).

(** The number of bytes of a list of messages. *)
Definition total_length (messages : list bytes) : nat :=
  list_sum (map (@length byte) messages).

(** A message as the framing step hands it on: not empty, no newline. *)
Definition framed (m : bytes) : Prop := m <> [] /\ has_newline m = false.

(** ** A stream of reads from one connection *)

(** Successive chunks read from one connection. *)
Definition receive_from (client_id : str) (chunks : list bytes) : M unit :=
  receive (map (fun data => (client_id, data)) chunks).

(** The events of the messages of a stream, identity learning apart. *)
Definition stream_events (w : World) (stream : bytes) : list event :=
  flat_map (message_events w) (stream_messages stream).

(** Two entries that differ at most in the device identity. *)
Definition same_connection (info info' : ClientInfo) : Prop :=
  socket info' = socket info /\ address info' = address info /\
  last_activity info' = last_activity info.

(** ** Connection ids *)

(** The id under which a peer address enters the table:
    [f"{address[0]}:{address[1]}"]. *)
Definition client_id_of (addr : str * N) : str :=
  addr.1 ++ py ":" ++ str_of_int addr.2.

(** ** Failed writes *)

(** The exception the write of a command to the socket of an entry ends
    with, if any: the command cannot be encoded, or the socket refuses. *)
Definition write_error (info : ClientInfo) (command : str) : option exn :=
  match utf8_encode (terminated command) with
  | None => Some UnicodeEncodeError
  | Some _ =>
      if sock_open (socket info) && negb (sock_send_error (socket info))
      then None else Some OSError
  end.

(** ** Sockets that close cleanly *)

(** Every socket of the table closes without error. *)
Definition closes_cleanly (w : World) : Prop :=
  forall c info, In (c, info) (clients (self w)) -> close_raises info = false.

(** ** The server around the tables

    [start], [stop] and the two loops use, besides the tables, the flag
    [self.running] and the listening socket, and they log records of their
    own.  A server is the handler object with these; its journal holds, in
    order, the events of the methods above, the records of the methods
    below and the [close] calls made on sockets that then leave the
    tables. *)

Inductive notice :=
| AlreadyRunning
| ServerStarted
| StartFailed (e : exn)
| ClientCloseFailed (client_id : str) (e : exn)
| ServerCloseFailed (e : exn)
| ServerStopped
| UnknownClient (client_id : str)
| PeerClosed (client_id : str)
| PeerReset (client_id : str)
| ClientThreadFailed (e : exn)
| HealthCheckFailed (e : exn).

Inductive entry :=
| Inner (e : event)
| Note (l : level) (n : notice)
| Closing (s : Socket) (r : option exn).

Record Server := mkServer {
  tcp : TCPHandler;
  logger_debug : bool;
  running : bool;
  server_socket : option Socket;
  journal : list entry
}.

Definition Srv (A : Type) := Server -> result A * Server.

Definition sret {A} (a : A) : Srv A := fun s => (Ok a, s).

Definition sbind {A B} (m : Srv A) (k : A -> Srv B) : Srv B :=
  fun s =>
    match m s with
    | (Ok a, s') => k a s'
    | (Raised e, s') => (Raised e, s')
    end.

Definition sraise {A} (e : exn) : Srv A := fun s => (Raised e, s).

Definition stry {A} (m : Srv A) (h : exn -> Srv A) : Srv A :=
  fun s =>
    match m s with
    | (Ok a, s') => (Ok a, s')
    | (Raised e, s') => h e s'
    end.

Declare Scope srv_scope.
Delimit Scope srv_scope with srv.
Notation "x <- m ;; k" := (sbind m (fun x => k))
  (at level 100, m at next level, right associativity) : srv_scope.
Notation "m ;; k" := (sbind m (fun _ => k))
  (at level 100, right associativity) : srv_scope.
Open Scope srv_scope.

Definition sget : Srv Server := fun s => (Ok s, s).

Definition record_entry (e : entry) : Srv unit :=
  fun s =>
    (Ok tt,
     mkServer (tcp s) (logger_debug s) (running s) (server_socket s)
       (journal s ++ [e])).

Definition notify (l : level) (n : notice) : Srv unit :=
  record_entry (Note l n).

Definition set_running (b : bool) : Srv unit :=
  fun s =>
    (Ok tt,
     mkServer (tcp s) (logger_debug s) b (server_socket s) (journal s)).

Definition set_server_socket (sock : option Socket) : Srv unit :=
  fun s =>
    (Ok tt, mkServer (tcp s) (logger_debug s) (running s) sock (journal s)).

(** The world a method of the previous part runs in. *)
Definition world_of (s : Server) : World :=
  mkWorld (tcp s) [] (logger_debug s).

(** A method of the previous part, run on the tables of the server; its
    events go to the journal. *)
Definition lift {A} (m : M A) : Srv A :=
  fun s =>
    let '(r, w) := m (world_of s) in
    (r,
     mkServer (self w) (logger_debug s) (running s) (server_socket s)
       (journal s ++ map Inner (trace w))).

Fixpoint sfor_each {A} (l : list A) (body : A -> Srv unit) : Srv unit :=
  match l with
  | [] => sret tt
  | x :: l' => body x ;; sfor_each l' body
  end.

(** [socket.close()] on a socket held by the server, in the journal. *)
Definition close_socket (sock : Socket) : Srv Socket :=
  let '(sock', r) := socket_close sock in
  record_entry (Closing sock r) ;;
  match r with
  | Some e => sraise e
  | None => sret sock'
  end.

(** *** [start]

    What the environment answers when the listening socket is made:
    [socket.socket] raises, or the socket is made and one of [setsockopt],
    [bind], [listen] raises, or the socket listens.  The two threads
    [start] launches are the loops below. *)
Inductive listen_outcome :=
| SocketFails (e : exn)
| BindFails (sock : Socket) (e : exn)
| Listening (sock : Socket).

Definition start (env : listen_outcome) : Srv bool :=
  s <- sget ;;
  if running s then
    notify WARNING AlreadyRunning ;;
    sret true
  else
    stry
      (match env with
       | SocketFails e => sraise e
       | BindFails sock e => set_server_socket (Some sock) ;; sraise e
       | Listening sock =>
           set_server_socket (Some sock) ;;
           set_running true ;;
           notify INFO ServerStarted ;;
           sret true
       end)
      (fun e =>
         notify ERROR (StartFailed e) ;;
         set_running false ;;
         sret false).

(** *** [stop] *)

(** [client_info['socket'].close()] for one entry of the snapshot
    [list(self.clients.items())]. *)
Definition close_entry (client_id : str) (client_info : ClientInfo)
  : Srv unit :=
  stry
    (sock <- close_socket (socket client_info) ;; sret tt)
    (fun e => notify ERROR (ClientCloseFailed client_id e)).

Definition clear_tables : Srv unit :=
  fun s =>
    (Ok tt,
     mkServer
       (mkTCPHandler [] ∅ (device_handlers (tcp s))
          (auto_device_mapping (tcp s)))
       (logger_debug s) (running s) (server_socket s) (journal s)).

Definition stop : Srv unit :=
  set_running false ;;
  s <- sget ;;
  sfor_each (clients (tcp s))
    (fun '(client_id, client_info) => close_entry client_id client_info) ;;
  clear_tables ;;
  s <- sget ;;
  match server_socket s with
  | Some sock =>
      stry
        (sock' <- close_socket sock ;; set_server_socket (Some sock'))
        (fun e =>
           notify ERROR (ServerCloseFailed e) ;;
           set_server_socket (Some (socket_close sock).1))
  | None => sret tt
  end ;;
  notify INFO ServerStopped.

(** *** [_handle_client_data], called with a client id

    What [recv] does on each turn is the environment's: it returns data
    (none when the peer has closed), or raises.  With the data comes the
    reading of the clock that stamps the connection.  A script that runs
    out stands for [self.running] found false. *)
Inductive recv_outcome :=
| RecvData (data : bytes) (now : Q)
| RecvReset
| RecvFails (e : exn).

Fixpoint read_loop (client_id : str) (script : list recv_outcome)
  : Srv unit :=
  match script with
  | [] => sret tt
  | outcome :: script' =>
      s <- sget ;;
      if negb (running s) then sret tt
      else
        match outcome with
        | RecvData [] _ => notify DEBUG (PeerClosed client_id)
        | RecvData data now =>
            go_on <- lift (read_turn client_id data now) ;;
            if go_on then read_loop client_id script' else sret tt
        | RecvReset => notify INFO (PeerReset client_id)
        | RecvFails e => lift (log ERROR (ReceiveError client_id e))
        end
  end.

Definition _handle_client_data (client_id : str)
    (script : list recv_outcome) : Srv unit :=
  stry
    (s <- sget ;;
     if negb (dict_in client_id (clients (tcp s))) then
       notify ERROR (UnknownClient client_id)
     else read_loop client_id script)
    (fun e => notify ERROR (ClientThreadFailed e)) ;;
  (* finally *)
  lift (_remove_client client_id).

(** *** [_health_check_loop]

    One cycle per reading of the clock, as long as the server runs. *)
Fixpoint _health_check_loop (times : list Q) : Srv unit :=
  match times with
  | [] => sret tt
  | current_time :: times' =>
      s <- sget ;;
      if negb (running s) then sret tt
      else
        stry
          (lift (_cleanup_inactive_clients current_time DEFAULT_TIMEOUT))
          (fun e => notify ERROR (HealthCheckFailed e)) ;;
        _health_check_loop times'
  end.

Close Scope srv_scope.

(** The callbacks recorded in a journal, in order. *)
Definition journal_calls (j : list entry) : list (Handler * HandlerArg) :=
  omap (fun e => match e with
                 | Inner (Call f a) => Some (f, a)
                 | _ => None
                 end) j.

(** The [close] calls recorded in a journal, in order. *)
Definition journal_closings (j : list entry) : list (Socket * option exn) :=
  omap (fun e => match e with Closing s r => Some (s, r) | _ => None end) j.

(** The chunks a script delivers before the read loop ends. *)
Fixpoint delivered (script : list recv_outcome) : list bytes :=
  match script with
  | RecvData (b :: data) _ :: script' => (b :: data) :: delivered script'
  | _ => []
  end.

(** What [stop] writes to the journal for one connection, and for the
    listening socket. *)
Definition closing_entries (kv : str * ClientInfo) : list entry :=
  let r := (socket_close (socket kv.2)).2 in
  Closing (socket kv.2) r
  :: match r with
     | Some e => [ Note ERROR (ClientCloseFailed kv.1 e) ]
     | None => []
     end.

Definition server_closing_entries (sock : option Socket) : list entry :=
  match sock with
  | Some sk =>
      let r := (socket_close sk).2 in
      Closing sk r
      :: match r with
         | Some e => [ Note ERROR (ServerCloseFailed e) ]
         | None => []
         end
  | None => []
  end.

(** The server after [stop]. *)
Definition stopped (s : Server) : Server :=
  mkServer
    (mkTCPHandler [] ∅ (device_handlers (tcp s))
       (auto_device_mapping (tcp s)))
    (logger_debug s) false
    (option_map (fun sk => (socket_close sk).1) (server_socket s))
    (journal s
     ++ flat_map closing_entries (clients (tcp s))
     ++ server_closing_entries (server_socket s)
     ++ [ Note INFO ServerStopped ]).

(** ** Concrete servers and reads *)

(** The two connections of [world_two_clients] under a running server,
    and under one that was not started. *)
Definition server_two_clients : Server :=
  mkServer (self world_two_clients) false true None [].

Definition server_idle : Server :=
  mkServer (self world_two_clients) false false None [].

(** Two reads, the second ending in the middle of a line, then a reset. *)
Definition example_script : list recv_outcome :=
  [ RecvData (ascii_bytes "1" ++ [NL]) 5;
    RecvData (ascii_bytes "GR") 6;
    RecvReset ].

(** A line that is not UTF-8 before a full message. *)
Definition example_undecodable : bytes :=
  [xff; NL] ++ ascii_bytes "GE1" ++ [NL].

(** A command holding a lone surrogate, which UTF-8 cannot encode. *)
Definition unencodable_command : str := [55296%N].

(** The peer address of [stranger_id]. *)
Definition stranger_address : str * N := (py "10.0.0.9", 6000%N).
(** * Properties *)

(** ** Framing *)

Lemma has_newline_split_nil stream :
  has_newline stream = false -> split_on_newline stream = [stream].
Proof.
  induction stream as [|b rest IH]; simpl; [reflexivity|].
  destruct (Byte.eqb b NL); simpl; [discriminate|].
  intros H. rewrite (IH H). reflexivity.
Qed.

Lemma split_once_spec buffer :
  has_newline buffer = true ->
  has_newline (split_once buffer).1 = false /\
  split_on_newline buffer
  = (split_once buffer).1 :: split_on_newline (split_once buffer).2 /\
  (length (split_once buffer).2 < length buffer)%nat.
Proof.
  induction buffer as [|b rest IH]; simpl; [discriminate|].
  destruct (Byte.eqb b NL) eqn:E; simpl.
  - intros _. repeat split. lia.
  - intros H. destruct (IH H) as (H1 & H2 & H3).
    destruct (split_once rest) as [m r]; simpl in *.
    rewrite E, H1, H2. repeat split. lia.
Qed.

Lemma split_on_newline_nonempty stream : split_on_newline stream <> [].
Proof.
  destruct stream as [|b rest]; simpl; [discriminate|].
  destruct (Byte.eqb b NL); [discriminate|].
  destruct (split_on_newline rest); discriminate.
Qed.

Lemma stream_messages_no_newline stream :
  has_newline stream = false ->
  stream_messages stream = [] /\ stream_residual stream = stream.
Proof.
  intros H. unfold stream_messages, stream_residual.
  rewrite (has_newline_split_nil _ H). split; reflexivity.
Qed.

Lemma stream_messages_newline stream :
  has_newline stream = true ->
  stream_messages stream
  = drop_empty [(split_once stream).1]
    ++ stream_messages (split_once stream).2 /\
  stream_residual stream = stream_residual (split_once stream).2.
Proof.
  intros H. destruct (split_once_spec _ H) as (_ & H2 & _).
  unfold stream_messages, stream_residual. rewrite H2.
  pose proof (split_on_newline_nonempty (split_once stream).2) as Hne.
  destruct (split_on_newline (split_once stream).2) as [|s l] eqn:E;
    [congruence|].
  split; [|reflexivity].
  change (removelast ((split_once stream).1 :: s :: l))
    with ((split_once stream).1 :: removelast (s :: l)).
  unfold drop_empty. simpl. destruct (is_nonempty _); reflexivity.
Qed.

Lemma extract_loop_spec turns : forall buffer messages,
  (length buffer <= turns)%nat ->
  extract_loop turns buffer messages
  = (messages ++ stream_messages buffer, stream_residual buffer).
Proof.
  induction turns as [|turns IH]; intros buffer messages Hlen.
  - destruct buffer; [|simpl in Hlen; lia]. simpl.
    rewrite app_nil_r. reflexivity.
  - simpl. destruct (has_newline buffer) eqn:E.
    + destruct (split_once_spec _ E) as (_ & _ & Hlt).
      destruct (stream_messages_newline _ E) as (Hm & Hr).
      destruct (split_once buffer) as [m rest]; simpl in *.
      rewrite IH by lia. rewrite Hm, Hr.
      destruct m; simpl; [reflexivity|].
      rewrite <- app_assoc. reflexivity.
    + destruct (stream_messages_no_newline _ E) as (Hm & Hr).
      rewrite Hm, Hr, app_nil_r. reflexivity.
Qed.

Lemma extract_messages_spec buffer :
  extract_messages buffer = (stream_messages buffer, stream_residual buffer).
Proof. unfold extract_messages. rewrite extract_loop_spec; auto. Qed.

(** What one framing step computes. *)
Lemma frame_data_run w client_id data :
  frame_data client_id data w
  = (Ok (stream_messages (buffer_of w client_id ++ data)),
     with_buffers w
       (<[client_id := stream_residual (buffer_of w client_id ++ data)]>
          (message_buffers (self w)))).
Proof.
  unfold frame_data, buffer_of, buffer_at, set_message_buffers, when.
  unfold bind, get, put, ret, raise, with_buffers.
  destruct w as [[c b d a] t dbg]; cbn.
  destruct (b !! client_id) as [old|] eqn:E;
    repeat (cbn; first [ rewrite E | rewrite lookup_insert_eq
                       | rewrite extract_messages_spec
                       | rewrite insert_insert_eq ]);
    reflexivity.
Qed.

Lemma has_newline_app s t :
  has_newline (s ++ t) = has_newline s || has_newline t.
Proof. unfold has_newline. apply existsb_app. Qed.

Lemma split_once_app s t :
  has_newline s = true ->
  split_once (s ++ t) = ((split_once s).1, (split_once s).2 ++ t).
Proof.
  induction s as [|b rest IH]; simpl; [discriminate|].
  destruct (Byte.eqb b NL); simpl; [reflexivity|].
  intros H. rewrite (IH H). destruct (split_once rest); reflexivity.
Qed.

(** Framing a stream in two pieces: the second piece is framed behind what
    the first one left over. *)
Lemma stream_app s : forall t,
  stream_messages (s ++ t)
  = stream_messages s ++ stream_messages (stream_residual s ++ t) /\
  stream_residual (s ++ t) = stream_residual (stream_residual s ++ t).
Proof.
  remember (length s) as n eqn:Hn. revert s Hn.
  induction n as [n IH] using lt_wf_ind. intros s Hn t.
  destruct (has_newline s) eqn:E.
  - destruct (split_once_spec _ E) as (_ & _ & Hlt).
    destruct (stream_messages_newline s E) as (Hm & Hr).
    assert (E' : has_newline (s ++ t) = true)
      by (rewrite has_newline_app, E; reflexivity).
    destruct (stream_messages_newline _ E') as (Hm' & Hr').
    rewrite (split_once_app _ t E) in Hm', Hr'. simpl in Hm', Hr'.
    destruct (IH (length (split_once s).2) ltac:(lia) _ eq_refl t)
      as (IHm & IHr).
    rewrite Hm', Hr', Hm, Hr, IHm, IHr, <- app_assoc. split; reflexivity.
  - destruct (stream_messages_no_newline _ E) as (Hm & Hr).
    rewrite Hm, Hr. split; reflexivity.
Qed.

Lemma stream_residual_no_newline s : has_newline (stream_residual s) = false.
Proof.
  remember (length s) as n eqn:Hn. revert s Hn.
  induction n as [n IH] using lt_wf_ind. intros s Hn.
  destruct (has_newline s) eqn:E.
  - destruct (split_once_spec _ E) as (_ & _ & Hlt).
    destruct (stream_messages_newline s E) as (_ & Hr).
    rewrite Hr. eapply IH; [|reflexivity]. lia.
  - destruct (stream_messages_no_newline _ E) as (_ & Hr). congruence.
Qed.

(** Read literally, splitting on the newline also yields the unterminated
    tail; it is the residual buffer, not a message. *)
Lemma drop_empty_split stream :
  drop_empty (split_on_newline stream)
  = stream_messages stream ++ drop_empty [stream_residual stream].
Proof.
  unfold stream_messages, stream_residual, drop_empty.
  rewrite <- List.filter_app.
  rewrite <- app_removelast_last by apply split_on_newline_nonempty.
  reflexivity.
Qed.

Lemma buffer_of_with_buffers w client_id b :
  buffer_of (with_buffers w (<[client_id := b]> (message_buffers (self w))))
    client_id = b.
Proof. unfold buffer_of. cbn. rewrite lookup_insert_eq. reflexivity. Qed.

Lemma feed_step client_id chunk chunks w :
  feed client_id (chunk :: chunks) w
  = match frame_data client_id chunk w with
    | (Ok messages, w1) =>
        match feed client_id chunks w1 with
        | (Ok messages', w2) => (Ok (messages ++ messages'), w2)
        | (Raised e, w2) => (Raised e, w2)
        end
    | (Raised e, w1) => (Raised e, w1)
    end.
Proof.
  cbn [feed]. unfold bind, ret.
  destruct (frame_data client_id chunk w) as [[messages|e] w1];
    [|reflexivity].
  destruct (feed client_id chunks w1) as [[messages'|e] w2]; reflexivity.
Qed.

(** Feeding at least one chunk. *)
Lemma feed_cons_run client_id chunks : forall chunk w,
  feed client_id (chunk :: chunks) w
  = (Ok (stream_messages (buffer_of w client_id ++ chunk ++ concat chunks)),
     with_buffers w
       (<[client_id := stream_residual
                         (buffer_of w client_id ++ chunk ++ concat chunks)]>
          (message_buffers (self w)))).
Proof.
  induction chunks as [|chunk' chunks IH]; intros chunk w;
    rewrite feed_step, frame_data_run.
  - cbn. rewrite !app_nil_r. reflexivity.
  - rewrite IH, buffer_of_with_buffers.
    destruct (stream_app (buffer_of w client_id ++ chunk)
                (chunk' ++ concat chunks)) as (Hm & Hr).
    cbn [concat]. rewrite (app_assoc (buffer_of w client_id) chunk).
    rewrite Hm, Hr. unfold with_buffers. cbn.
    rewrite insert_insert_eq. reflexivity.
Qed.

(** Chunk boundaries do not matter: two ways of cutting the same stream
    give the same messages and the same buffers. *)
Lemma feed_chunking_irrelevant client_id w chunks1 chunks2 :
  chunks1 <> [] -> chunks2 <> [] -> concat chunks1 = concat chunks2 ->
  feed client_id chunks1 w = feed client_id chunks2 w.
Proof.
  destruct chunks1 as [|c1 l1]; [congruence|].
  destruct chunks2 as [|c2 l2]; [congruence|].
  intros _ _ H. rewrite !feed_cons_run.
  change (c1 ++ concat l1) with (concat (c1 :: l1)).
  change (c2 ++ concat l2) with (concat (c2 :: l2)).
  rewrite H. reflexivity.
Qed.

Lemma feed_run client_id chunks w :
  chunks <> [] \/ has_newline (buffer_of w client_id) = false ->
  let stream := buffer_of w client_id ++ concat chunks in
  exists w',
    feed client_id chunks w = (Ok (stream_messages stream), w') /\
    buffer_of w' client_id = stream_residual stream /\
    (forall other, other <> client_id ->
       message_buffers (self w') !! other
       = message_buffers (self w) !! other) /\
    clients (self w') = clients (self w) /\
    device_handlers (self w') = device_handlers (self w) /\
    trace w' = trace w.
Proof.
  intros H stream. destruct chunks as [|chunk chunks].
  - destruct H as [H|H]; [congruence|]. exists w.
    subst stream. cbn [concat]. rewrite app_nil_r.
    destruct (stream_messages_no_newline _ H) as (Hm & Hr).
    rewrite Hm, Hr. repeat split; auto.
  - eexists. split; [apply feed_cons_run|].
    rewrite buffer_of_with_buffers. subst stream. cbn [concat].
    repeat split; auto.
    intros other Hne. cbn. rewrite lookup_insert_ne by congruence.
    reflexivity.
Qed.

(** C1. Whatever the receive buffer holds and however a stream of bytes is
    cut into chunks for the framing step of [_process_data] (at least one
    chunk being fed, or the buffer holding no newline, as every buffer the
    handler has written does), the messages extracted, in order, are the
    newline-terminated segments of the buffer followed by the whole stream
    with the empty ones dropped, and the buffer left behind is what
    follows the last newline.  Any other way of cutting the same stream
    gives the same messages and the same buffer. *)
Theorem framing_independent_of_chunking
    (w : World) (client_id : str) (chunks : list bytes) :
  chunks <> [] \/ has_newline (buffer_of w client_id) = false ->
  let stream := buffer_of w client_id ++ concat chunks in
  exists w',
    feed client_id chunks w = (Ok (stream_messages stream), w') /\
    buffer_of w' client_id = stream_residual stream /\
    has_newline (buffer_of w' client_id) = false /\
    drop_empty (split_on_newline stream)
    = stream_messages stream ++ drop_empty [stream_residual stream] /\
    (forall other, other <> client_id ->
       message_buffers (self w') !! other
       = message_buffers (self w) !! other) /\
    clients (self w') = clients (self w) /\
    device_handlers (self w') = device_handlers (self w) /\
    trace w' = trace w /\
    forall chunks',
      chunks' <> [] \/ has_newline (buffer_of w client_id) = false ->
      concat chunks' = concat chunks ->
      exists w'',
        feed client_id chunks' w = (Ok (stream_messages stream), w'') /\
        buffer_of w'' client_id = buffer_of w' client_id.
Proof.
  intros H stream.
  destruct (feed_run client_id chunks w H)
    as (w' & Hrun & Hbuf & Hother & Hc & Hh & Ht).
  exists w'. fold stream in Hrun, Hbuf.
  split; [exact Hrun|]. split; [exact Hbuf|].
  split; [rewrite Hbuf; apply stream_residual_no_newline|].
  split; [apply drop_empty_split|].
  split; [exact Hother|]. split; [exact Hc|]. split; [exact Hh|].
  split; [exact Ht|].
  intros chunks' H' Hcat.
  destruct (feed_run client_id chunks' w H') as (w'' & Hrun' & Hbuf' & _).
  rewrite Hcat in Hrun', Hbuf'. fold stream in Hrun', Hbuf'.
  exists w''. split; [exact Hrun'|]. congruence.
Qed.

(** ** Dispatch *)

Lemma legacy_type_of_aliases kind :
  legacy_type_of kind = dict_get legacy_aliases kind.
Proof.
  unfold legacy_type_of, legacy_aliases, dict_get.
  repeat match goal with
         | |- context [decide (?a = ?b)] => destruct (decide (a = b))
         end; congruence.
Qed.

Lemma legacy_type_truthy kind alias :
  legacy_type_of kind = Some alias -> truthy (Some alias) = true.
Proof.
  unfold legacy_type_of.
  repeat destruct (decide _); intros [= <-]; reflexivity.
Qed.

(** What a dispatch does: the world keeps its handler object and the
    trace grows by [dispatch_events]; no exception leaves the method. *)
Lemma dispatch_run w device_id kind raw_tag content :
  _process_message device_id kind raw_tag content w
  = (Ok tt,
     with_trace w
       (trace w ++ dispatch_events w device_id kind raw_tag content)).
Proof.
  unfold dispatch_events, strategies. rewrite <- legacy_type_of_aliases.
  destruct w as [[c b hs a] t dbg].
  unfold_dispatch.
  destruct (legacy_type_of kind) as [alias|] eqn:L;
    [rewrite (legacy_type_truthy _ _ L)|].
  all: split_lookups.
  all: cbn; rewrite <- ?app_assoc; try reflexivity.
  all: destruct dbg; cbn; [|reflexivity].
  all: fold (handler_keys hs); destruct (handler_keys hs); cbn;
    rewrite <- ?app_assoc; reflexivity.
Qed.

Lemma calls_app t1 t2 : calls (t1 ++ t2) = calls t1 ++ calls t2.
Proof. unfold calls. apply omap_app. Qed.

Lemma calls_dispatch_events w device_id kind raw_tag content :
  calls (dispatch_events w device_id kind raw_tag content)
  = match first_match (device_handlers (self w))
            (strategies device_id raw_tag kind) with
    | Some (b, f) => [ (f, handler_arg b raw_tag kind content) ]
    | None => []
    end.
Proof.
  unfold dispatch_events.
  destruct (first_match _ _) as [[b f]|]; cbn.
  - destruct (handler_raises f _); reflexivity.
  - destruct (debug_enabled w); [|reflexivity].
    destruct (handler_keys _); reflexivity.
Qed.

(** C2. For every parsed message and every registration table,
    [_process_message] calls exactly one handler, the one of the first
    strategy that has a registration, in the order (canonical id, kind),
    (raw tag, kind), (canonical id, legacy alias), (raw tag, legacy alias),
    the aliases being those of the kinds E, R and X; a kind without an
    alias has only the first two strategies, and when no strategy matches
    no handler is called.  The method returns normally and leaves the
    handler object as it was. *)
Theorem dispatch_first_match
    (w : World) (device_id kind raw_tag content : str) :
  exists w',
    _process_message device_id kind raw_tag content w = (Ok tt, w') /\
    self w' = self w /\
    trace w' = trace w ++ dispatch_events w device_id kind raw_tag content /\
    calls (trace w')
    = calls (trace w)
      ++ match first_match (device_handlers (self w))
                 (strategies device_id raw_tag kind) with
         | Some (b, f) => [ (f, handler_arg b raw_tag kind content) ]
         | None => []
         end /\
    strategies device_id raw_tag kind
    = [ (ByMapped, (device_id, kind)); (ByRaw, (raw_tag, kind)) ]
      ++ (if decide (kind = py "E")
          then [ (ByMappedLegacy, (device_id, py "evt"));
                 (ByRawLegacy, (raw_tag, py "evt")) ]
          else if decide (kind = py "R")
          then [ (ByMappedLegacy, (device_id, py "res"));
                 (ByRawLegacy, (raw_tag, py "res")) ]
          else if decide (kind = py "X")
          then [ (ByMappedLegacy, (device_id, py "err"));
                 (ByRawLegacy, (raw_tag, py "err")) ]
          else []).
Proof.
  eexists. split; [apply dispatch_run|].
  split; [reflexivity|]. split; [reflexivity|]. split.
  - cbn. rewrite calls_app, calls_dispatch_events. reflexivity.
  - unfold strategies. rewrite <- legacy_type_of_aliases.
    unfold legacy_type_of. repeat destruct (decide _); reflexivity.
Qed.

(** ** Parsing and identity *)

Section DictFacts.
Context {K V : Type} `{EqDecision K}.
Implicit Types (d : dict K V) (k : K) (v : V).

Lemma dict_get_set_eq d k v : dict_get (dict_set d k v) k = Some v.
Proof.
  induction d as [|[k' v'] d IH]; cbn.
  - destruct (decide (k = k)); congruence.
  - destruct (decide (k' = k)) as [->|Hne]; cbn.
    + destruct (decide (k = k)); congruence.
    + destruct (decide (k' = k)); congruence.
Qed.

Lemma dict_get_set_ne d k k' v :
  k <> k' -> dict_get (dict_set d k v) k' = dict_get d k'.
Proof.
  intros Hne. induction d as [|[k0 v0] d IH]; cbn.
  - destruct (decide (k = k')); congruence.
  - destruct (decide (k0 = k)) as [->|Hne0]; cbn.
    + destruct (decide (k = k')); congruence.
    + destruct (decide (k0 = k')); congruence.
Qed.

Lemma dict_keys_set_present d k v :
  dict_in k d = true -> dict_keys (dict_set d k v) = dict_keys d.
Proof.
  unfold dict_in. induction d as [|[k0 v0] d IH]; cbn; [discriminate|].
  destruct (decide (k0 = k)) as [->|Hne]; cbn; [reflexivity|].
  intros Hin. unfold dict_keys in IH. rewrite IH; auto.
Qed.

Lemma dict_del_cons d k k0 v0 :
  dict_del ((k0, v0) :: d) k
  = if decide (k0 = k) then dict_del d k else (k0, v0) :: dict_del d k.
Proof. reflexivity. Qed.

Lemma dict_get_del_eq d k : dict_get (dict_del d k) k = None.
Proof.
  induction d as [|[k0 v0] d IH]; [reflexivity|].
  rewrite dict_del_cons. destruct (decide (k0 = k)) as [|Hne]; [exact IH|].
  cbn. destruct (decide (k0 = k)); congruence.
Qed.

Lemma dict_get_del_ne d k k' :
  k <> k' -> dict_get (dict_del d k) k' = dict_get d k'.
Proof.
  intros Hne. induction d as [|[k0 v0] d IH]; [reflexivity|].
  rewrite dict_del_cons. destruct (decide (k0 = k)) as [->|Hne0]; cbn.
  - destruct (decide (k = k')); congruence.
  - rewrite IH. reflexivity.
Qed.

Lemma dict_del_absent d k : dict_get d k = None -> dict_del d k = d.
Proof.
  induction d as [|[k0 v0] d IH]; [reflexivity|].
  rewrite dict_del_cons. cbn.
  destruct (decide (k0 = k)) as [->|Hne]; [discriminate|].
  intros Hget. rewrite IH; auto.
Qed.

Lemma dict_del_idem d k : dict_del (dict_del d k) k = dict_del d k.
Proof. apply dict_del_absent, dict_get_del_eq. Qed.
End DictFacts.

Lemma handle_message_run client_id message w :
  handle_message client_id message w
  = (Ok tt, after_message client_id message w).
Proof.
  unfold handle_message, after_message, decode, learn, try_except.
  destruct (utf8_decode message) as [[|c0 [|c1 content]]|];
    try reflexivity.
  unfold bind at 1. unfold ret at 1. cbn [length Nat.ltb Nat.leb].
  unfold bind, when, client, store_client, set_clients, log, emit, get, put,
    ret, raise, dict_in, add_events, with_trace, with_clients.
  destruct w as [[c b hs a] t dbg]. cbn.
  destruct (dict_get c client_id) as [info|] eqn:E; cbn; rewrite ?E; cbn.
  - destruct (device_id info) eqn:D; cbn; rewrite dispatch_run; reflexivity.
  - rewrite dispatch_run. reflexivity.
Qed.

Lemma for_each_run {A} (body : A -> M unit) (f : A -> World -> World) :
  (forall x w, body x w = (Ok tt, f x w)) ->
  forall l w, for_each l body w = (Ok tt, fold_left (fun w x => f x w) l w).
Proof.
  intros Hbody. induction l as [|x l IH]; intros w; [reflexivity|].
  cbn [for_each fold_left]. unfold bind. rewrite Hbody. apply IH.
Qed.

Lemma process_data_run client_id data w :
  _process_data client_id data w
  = (Ok tt,
     after_messages client_id
       (stream_messages (buffer_of w client_id ++ data))
       (with_buffers w
          (<[client_id := stream_residual (buffer_of w client_id ++ data)]>
             (message_buffers (self w))))).
Proof.
  unfold _process_data, bind. rewrite frame_data_run.
  apply for_each_run. intros m w'. apply handle_message_run.
Qed.

(** *** What the parsing loop leaves alone *)

Lemma learn_identity client_id tag w c d :
  identity w c = Some d -> identity (learn client_id tag w) c = Some d.
Proof.
  unfold learn, identity.
  destruct (dict_get (clients (self w)) client_id) as [info|] eqn:E; auto.
  destruct (device_id info) eqn:D; auto.
  cbn. destruct (decide (client_id = c)) as [->|Hne].
  - rewrite E, D. discriminate.
  - rewrite dict_get_set_ne by assumption. auto.
Qed.

Lemma learn_frame client_id tag w :
  message_buffers (self (learn client_id tag w)) = message_buffers (self w) /\
  device_handlers (self (learn client_id tag w)) = device_handlers (self w) /\
  debug_enabled (learn client_id tag w) = debug_enabled w /\
  dict_keys (clients (self (learn client_id tag w)))
  = dict_keys (clients (self w)).
Proof.
  unfold learn.
  destruct (dict_get (clients (self w)) client_id) as [info|] eqn:E; auto.
  destruct (device_id info); auto. cbn. repeat split.
  apply dict_keys_set_present. unfold dict_in. rewrite E. reflexivity.
Qed.

Lemma learn_absent client_id tag w :
  dict_in client_id (clients (self w)) = false -> learn client_id tag w = w.
Proof.
  unfold learn, dict_in.
  destruct (dict_get (clients (self w)) client_id); [discriminate|auto].
Qed.

Lemma after_message_identity client_id m w c d :
  identity w c = Some d -> identity (after_message client_id m w) c = Some d.
Proof.
  intros H. unfold after_message.
  destruct (utf8_decode m) as [[|c0 [|c1 content]]|]; auto.
  unfold add_events, with_trace, identity. cbn.
  apply (learn_identity client_id [c0]) in H. exact H.
Qed.

Lemma after_message_frame client_id m w :
  message_buffers (self (after_message client_id m w))
  = message_buffers (self w) /\
  device_handlers (self (after_message client_id m w))
  = device_handlers (self w) /\
  debug_enabled (after_message client_id m w) = debug_enabled w /\
  dict_keys (clients (self (after_message client_id m w)))
  = dict_keys (clients (self w)).
Proof.
  unfold after_message.
  destruct (utf8_decode m) as [[|c0 [|c1 content]]|]; auto.
  cbn. apply learn_frame.
Qed.

Lemma after_messages_identity client_id ms : forall w c d,
  identity w c = Some d ->
  identity (after_messages client_id ms w) c = Some d.
Proof.
  induction ms as [|m ms IH]; intros w c d H; [exact H|].
  apply IH, after_message_identity, H.
Qed.

Lemma after_messages_frame client_id ms : forall w,
  message_buffers (self (after_messages client_id ms w))
  = message_buffers (self w) /\
  device_handlers (self (after_messages client_id ms w))
  = device_handlers (self w) /\
  debug_enabled (after_messages client_id ms w) = debug_enabled w /\
  dict_keys (clients (self (after_messages client_id ms w)))
  = dict_keys (clients (self w)).
Proof.
  induction ms as [|m ms IH]; intros w; [auto|].
  cbn [after_messages fold_left].
  destruct (IH (after_message client_id m w)) as (H1 & H2 & H3 & H4).
  destruct (after_message_frame client_id m w) as (G1 & G2 & G3 & G4).
  unfold after_messages in *. repeat split; congruence.
Qed.

Lemma process_data_identity client_id data w c d :
  identity w c = Some d ->
  exists w', _process_data client_id data w = (Ok tt, w') /\
             identity w' c = Some d.
Proof.
  intros H. eexists. split; [apply process_data_run|].
  apply after_messages_identity. exact H.
Qed.

(** An identity is set at accept time from the address table. *)
Lemma accept_sets_identity sock ip port now d w :
  auto_device_mapping (self w) !! ip = Some d ->
  exists w',
    accept_connection sock (ip, port) now w
    = (Ok (ip ++ py ":" ++ str_of_int port), w') /\
    identity w' (ip ++ py ":" ++ str_of_int port) = Some d.
Proof.
  intros H. unfold accept_connection, store_client, set_clients,
    set_message_buffers, log, emit, identity.
  unfold bind, get, put, ret. cbn. rewrite H. cbn.
  eexists. split; [reflexivity|]. cbn.
  rewrite dict_get_set_eq. reflexivity.
Qed.

(** An unset identity is set by the first message that parses. *)
Lemma first_message_sets_identity client_id m c0 c1 content w :
  dict_in client_id (clients (self w)) = true ->
  identity w client_id = None ->
  utf8_decode m = Some (c0 :: c1 :: content) ->
  identity (after_message client_id m w) client_id = Some [c0].
Proof.
  unfold dict_in, identity, after_message, learn. intros Hin Hid ->.
  destruct (dict_get (clients (self w)) client_id) as [info|];
    [|discriminate].
  rewrite Hid. cbn. rewrite dict_get_set_eq. reflexivity.
Qed.

(** C3. Once the device identity of a connection is set, by the address
    table at accept time or by the first message that parsed, no data
    processed later changes it, whatever tags the messages carry and on
    whatever connections they arrive. *)
Theorem identity_first_writer_wins
    (w : World) (client_id d : str) (inputs : list (str * bytes)) :
  identity w client_id = Some d ->
  exists w',
    receive inputs w = (Ok tt, w') /\ identity w' client_id = Some d.
Proof.
  unfold receive. revert w.
  induction inputs as [|[c data] inputs IH]; intros w H.
  - exists w. split; [reflexivity|exact H].
  - destruct (process_data_identity c data w client_id d H) as (w1 & R & H1).
    destruct (IH w1 H1) as (w' & R' & H').
    exists w'. split; [|exact H'].
    cbn [for_each]. unfold bind. rewrite R. exact R'.
Qed.

(** *** Short messages *)

Lemma after_messages_app client_id ms1 ms2 w :
  after_messages client_id (ms1 ++ ms2) w
  = after_messages client_id ms2 (after_messages client_id ms1 w).
Proof. unfold after_messages. apply fold_left_app. Qed.

Lemma for_each_messages_run client_id ms w :
  for_each ms (handle_message client_id) w
  = (Ok tt, after_messages client_id ms w).
Proof. apply for_each_run. intros m w'. apply handle_message_run. Qed.

Lemma store_client_run client_id info w :
  store_client client_id info w
  = (Ok tt, with_clients w (dict_set (clients (self w)) client_id info)).
Proof. reflexivity. Qed.

Lemma dict_in_keys {V} (d1 d2 : dict str V) k :
  dict_keys d1 = dict_keys d2 -> dict_in k d1 = dict_in k d2.
Proof.
  unfold dict_keys, dict_in. revert d2.
  induction d1 as [|[k1 v1] d1 IH]; intros [|[k2 v2] d2] H;
    try discriminate; [reflexivity|].
  cbn in *. injection H as -> H. destruct (decide (k2 = k)); [reflexivity|].
  apply IH, H.
Qed.

(** A turn of the read loop never leaves the loop because of the data it
    was given. *)
Lemma read_turn_continues client_id data now w :
  exists w', read_turn client_id data now w = (Ok true, w') /\
             dict_in client_id (clients (self w'))
             = dict_in client_id (clients (self w)).
Proof.
  unfold read_turn, try_except. unfold bind at 1. rewrite process_data_run.
  set (w1 := after_messages _ _ _).
  assert (Hk : dict_keys (clients (self w1)) = dict_keys (clients (self w))).
  { subst w1. destruct (after_messages_frame client_id
      (stream_messages (buffer_of w client_id ++ data))
      (with_buffers w
         (<[client_id := stream_residual (buffer_of w client_id ++ data)]>
            (message_buffers (self w))))) as (_ & _ & _ & H). exact H. }
  pose proof (dict_in_keys _ _ client_id Hk) as Hin.
  unfold bind, get, when, client, ret, raise. cbn.
  unfold dict_in in *.
  destruct (dict_get (clients (self w1)) client_id) as [info|] eqn:E; cbn.
  - rewrite E. cbn. eexists. split; [reflexivity|]. cbn.
    rewrite dict_get_set_eq. exact Hin.
  - eexists. split; [reflexivity|]. rewrite E. exact Hin.
Qed.

(** C8. A framed line whose decoded text has fewer than two characters is
    dropped with a warning: handling it adds that one warning to the trace
    and changes nothing else, so no handler is called for it and the
    connection table is untouched; the messages framed before and after it
    in the same chunk are handled as usual, [_process_data] returns
    normally, and the read loop goes on with the connection still in the
    table if it was there. *)
Theorem short_message_discarded
    (w : World) (client_id : str) (data : bytes)
    (before : list bytes) (m : bytes) (after : list bytes) (s : str) :
  stream_messages (buffer_of w client_id ++ data) = before ++ m :: after ->
  utf8_decode m = Some s ->
  (length s < 2)%nat ->
  exists w0 w1 w2,
    frame_data client_id data w = (Ok (before ++ m :: after), w0) /\
    for_each before (handle_message client_id) w0 = (Ok tt, w1) /\
    handle_message client_id m w1
    = (Ok tt, add_events w1 [ Log WARNING (MessageTooShort s) ]) /\
    calls (trace (add_events w1 [ Log WARNING (MessageTooShort s) ]))
    = calls (trace w1) /\
    self (add_events w1 [ Log WARNING (MessageTooShort s) ]) = self w1 /\
    for_each after (handle_message client_id)
      (add_events w1 [ Log WARNING (MessageTooShort s) ]) = (Ok tt, w2) /\
    _process_data client_id data w = (Ok tt, w2) /\
    dict_in client_id (clients (self w2))
    = dict_in client_id (clients (self w)) /\
    forall now, exists w3,
      read_turn client_id data now w = (Ok true, w3) /\
      dict_in client_id (clients (self w3))
      = dict_in client_id (clients (self w)).
Proof.
  intros Hframe Hdec Hlen.
  assert (Hm : forall w', after_message client_id m w'
                          = add_events w' [ Log WARNING (MessageTooShort s) ]).
  { intros w'. unfold after_message. rewrite Hdec.
    destruct s as [|c0 [|c1 content]]; try reflexivity.
    cbn in Hlen. lia. }
  eexists _, _, _. split; [rewrite frame_data_run, Hframe; reflexivity|].
  split; [apply for_each_messages_run|].
  split; [rewrite handle_message_run, Hm; reflexivity|].
  split; [cbn; rewrite calls_app; cbn; apply app_nil_r|].
  split; [reflexivity|].
  split; [apply for_each_messages_run|].
  split.
  { rewrite process_data_run, Hframe, after_messages_app.
    cbn [after_messages fold_left]. rewrite Hm. reflexivity. }
  split.
  { apply dict_in_keys.
    match goal with
    | |- context [after_messages ?c ?ms ?w'] =>
        destruct (after_messages_frame c ms w') as (_ & _ & _ & ->)
    end.
    cbn.
    match goal with
    | |- context [after_messages ?c ?ms ?w'] =>
        destruct (after_messages_frame c ms w') as (_ & _ & _ & ->)
    end.
    reflexivity. }
  intros now. apply read_turn_continues.
Qed.

(** *** Data for a connection that is not in the table *)

Lemma dispatch_events_ext w1 w2 device_id kind raw_tag content :
  device_handlers (self w1) = device_handlers (self w2) ->
  debug_enabled w1 = debug_enabled w2 ->
  dispatch_events w1 device_id kind raw_tag content
  = dispatch_events w2 device_id kind raw_tag content.
Proof. unfold dispatch_events. intros -> ->. reflexivity. Qed.

Lemma message_events_ext w1 w2 m :
  device_handlers (self w1) = device_handlers (self w2) ->
  debug_enabled w1 = debug_enabled w2 ->
  message_events w1 m = message_events w2 m.
Proof.
  intros H1 H2. unfold message_events.
  destruct (utf8_decode m) as [[|c0 [|c1 content]]|]; auto.
  apply dispatch_events_ext; assumption.
Qed.

Lemma without_registrations_dispatch w device_id kind raw_tag content :
  without_registrations (dispatch_events w device_id kind raw_tag content)
  = dispatch_events w device_id kind raw_tag content.
Proof.
  unfold dispatch_events.
  destruct (first_match _ _) as [[b f]|]; cbn.
  - destruct (handler_raises f _); reflexivity.
  - destruct (debug_enabled w); [|reflexivity].
    destruct (handler_keys _); reflexivity.
Qed.

Lemma without_registrations_message w m :
  without_registrations (message_events w m) = message_events w m.
Proof.
  unfold message_events.
  destruct (utf8_decode m) as [[|c0 [|c1 content]]|]; try reflexivity.
  apply without_registrations_dispatch.
Qed.

Lemma without_registrations_app e1 e2 :
  without_registrations (e1 ++ e2)
  = without_registrations e1 ++ without_registrations e2.
Proof. apply List.filter_app. Qed.

Lemma calls_without_registrations evs :
  calls (without_registrations evs) = calls evs.
Proof.
  induction evs as [|[l m|f a] evs IH]; [reflexivity| |].
  - cbn [without_registrations List.filter].
    destruct (negb _); [|exact IH].
    change (calls (Log l m :: ?x)) with (calls x). exact IH.
  - change (calls (without_registrations (Call f a :: evs)))
      with ((f, a) :: calls (without_registrations evs)).
    rewrite IH. reflexivity.
Qed.

(** The events of a message: those of identity learning, then the rest. *)
Lemma after_message_events client_id m w :
  exists evs,
    trace (after_message client_id m w) = trace w ++ evs /\
    without_registrations evs = message_events w m.
Proof.
  unfold after_message, message_events.
  destruct (utf8_decode m) as [[|c0 [|c1 content]]|];
    try (eexists; split; reflexivity).
  destruct (learn_frame client_id [c0] w) as (_ & Hh & Hd & _).
  rewrite (dispatch_events_ext _ w _ _ _ _ Hh Hd).
  unfold learn.
  destruct (dict_get (clients (self w)) client_id) as [info|].
  - destruct (device_id info).
    + eexists. split; [reflexivity|]. apply without_registrations_dispatch.
    + eexists. split; [cbn; rewrite <- app_assoc; reflexivity|].
      cbn. apply without_registrations_dispatch.
  - eexists. split; [reflexivity|]. apply without_registrations_dispatch.
Qed.

Lemma after_messages_events client_id ms : forall w,
  exists evs,
    trace (after_messages client_id ms w) = trace w ++ evs /\
    without_registrations evs = flat_map (message_events w) ms.
Proof.
  induction ms as [|m ms IH]; intros w.
  - exists []. split; [cbn; rewrite app_nil_r|]; reflexivity.
  - destruct (after_message_events client_id m w) as (e1 & T1 & F1).
    destruct (IH (after_message client_id m w)) as (e2 & T2 & F2).
    destruct (after_message_frame client_id m w) as (_ & Hh & Hd & _).
    exists (e1 ++ e2). split.
    + cbn [after_messages fold_left]. unfold after_messages in T2.
      rewrite T2, T1, app_assoc. reflexivity.
    + rewrite without_registrations_app, F1, F2. cbn [flat_map].
      f_equal. apply flat_map_ext. intros m'.
      apply message_events_ext; assumption.
Qed.

Lemma after_messages_absent client_id ms : forall w,
  dict_in client_id (clients (self w)) = false ->
  after_messages client_id ms w
  = add_events w (flat_map (message_events w) ms).
Proof.
  induction ms as [|m ms IH]; intros w Hin.
  - destruct w as [h t dbg]. unfold add_events, with_trace. cbn.
    rewrite app_nil_r. reflexivity.
  - cbn [after_messages fold_left flat_map].
    assert (Hm : after_message client_id m w
                 = add_events w (message_events w m)).
    { unfold after_message, message_events.
      destruct (utf8_decode m) as [[|c0 [|c1 content]]|]; try reflexivity.
      cbn zeta. rewrite (learn_absent _ _ _ Hin). reflexivity. }
    rewrite Hm. unfold after_messages in IH. rewrite IH by exact Hin.
    rewrite (flat_map_ext (message_events (add_events w (message_events w m)))
               (message_events w))
      by (intros m'; apply message_events_ext; reflexivity).
    unfold add_events, with_trace. cbn. rewrite <- app_assoc. reflexivity.
Qed.

(** C10. Data processed under a client id that is not in the connection
    table is framed and dispatched all the same: the buffer under that id
    is created (empty when there was none), the complete lines are
    extracted and every one goes through parsing and dispatch, and the
    connection table is left as it was.  A run on a world with the same
    buffers and registrations in which the connection is live produces the
    same events and the same calls, apart from the registration of the
    identity, and leaves the same buffers. *)
Theorem process_data_without_connection
    (w : World) (client_id : str) (data : bytes) :
  dict_in client_id (clients (self w)) = false ->
  let stream := buffer_of w client_id ++ data in
  exists w',
    _process_data client_id data w = (Ok tt, w') /\
    clients (self w') = clients (self w) /\
    message_buffers (self w')
    = <[client_id := stream_residual stream]> (message_buffers (self w)) /\
    (message_buffers (self w) !! client_id = None -> stream = data) /\
    trace w' = trace w ++ flat_map (message_events w) (stream_messages stream) /\
    without_registrations (flat_map (message_events w) (stream_messages stream))
    = flat_map (message_events w) (stream_messages stream) /\
    forall wl,
      message_buffers (self wl) = message_buffers (self w) ->
      device_handlers (self wl) = device_handlers (self w) ->
      debug_enabled wl = debug_enabled w ->
      exists wl' evs,
        _process_data client_id data wl = (Ok tt, wl') /\
        trace wl' = trace wl ++ evs /\
        without_registrations evs
        = flat_map (message_events w) (stream_messages stream) /\
        calls evs
        = calls (flat_map (message_events w) (stream_messages stream)) /\
        message_buffers (self wl') = message_buffers (self w').
Proof.
  intros Hin stream. eexists. split; [apply process_data_run|].
  fold stream. rewrite after_messages_absent by exact Hin.
  split; [reflexivity|]. split; [reflexivity|].
  split.
  { intros Hnone. subst stream. unfold buffer_of. rewrite Hnone.
    reflexivity. }
  split.
  { cbn. f_equal;
      try (apply flat_map_ext; intros m;
           apply message_events_ext; reflexivity). }
  split.
  { induction (stream_messages stream) as [|m ms IH]; [reflexivity|].
    cbn [flat_map]. rewrite without_registrations_app, IH,
      without_registrations_message. reflexivity. }
  intros wl Hb Hh Hd.
  assert (Hs : buffer_of wl client_id ++ data = stream).
  { subst stream. unfold buffer_of. rewrite Hb. reflexivity. }
  set (wl0 := with_buffers wl
                (<[client_id := stream_residual stream]>
                   (message_buffers (self wl)))).
  destruct (after_messages_events client_id (stream_messages stream) wl0)
    as (evs & Ht & Hf).
  destruct (after_messages_frame client_id (stream_messages stream) wl0)
    as (Hb' & _).
  assert (Hev : flat_map (message_events wl0) (stream_messages stream)
                = flat_map (message_events w) (stream_messages stream)).
  { apply flat_map_ext. intros m. apply message_events_ext; assumption. }
  exists (after_messages client_id (stream_messages stream) wl0), evs.
  split; [rewrite process_data_run, Hs; reflexivity|].
  split; [exact Ht|]. split; [congruence|].
  split; [rewrite <- calls_without_registrations; congruence|].
  rewrite Hb'. cbn. rewrite Hb. reflexivity.
Qed.

(** ** Eviction *)

Lemma dict_del_set {V} (d : dict str V) k v :
  dict_del (dict_set d k v) k = dict_del d k.
Proof.
  induction d as [|[k0 v0] d IH]; cbn.
  - destruct (decide (k = k)); congruence.
  - destruct (decide (k0 = k)) as [->|Hne]; cbn.
    + destruct (decide (k = k)); congruence.
    + destruct (decide (k0 = k)); [congruence|]. rewrite IH. reflexivity.
Qed.

Lemma remove_client_run client_id w :
  _remove_client client_id w = (Ok tt, after_remove client_id w).
Proof.
  unfold _remove_client, after_remove, close_client_socket, try_except,
    client, store_client, set_clients, set_message_buffers, when, log, emit,
    dict_in, disconnect_events, add_events, with_trace, with_clients,
    with_buffers.
  unfold bind, get, put, ret, raise.
  destruct w as [[c b hs a] t dbg]. cbn.
  destruct (dict_get c client_id) as [info|] eqn:E; cbn; [|reflexivity].
  destruct (socket_close (socket info)) as [s [e|]] eqn:C;
    repeat (progress (cbn; rewrite ?E, ?C, ?dict_get_set_eq)).
  - reflexivity.
  - rewrite dict_del_set.
    destruct (b !! client_id) as [buf|] eqn:B.
    + rewrite bool_decide_eq_true_2 by eauto. cbn.
      destruct (device_id info) as [[|x d]|]; cbn;
        rewrite ?app_nil_r; reflexivity.
    + rewrite bool_decide_eq_false_2 by (intros [? ?]; discriminate). cbn.
      rewrite (delete_id _ _ B).
      destruct (device_id info) as [[|x d]|]; cbn;
        rewrite ?app_nil_r; reflexivity.
Qed.

(** Eviction of a connection whose socket closes without error removes
    the entry and the buffer. *)
Lemma remove_client_evicts client_id info w :
  dict_get (clients (self w)) client_id = Some info ->
  close_raises info = false ->
  let w' := after_remove client_id w in
  dict_get (clients (self w')) client_id = None /\
  message_buffers (self w') !! client_id = None /\
  trace w' = trace w ++ disconnect_events (device_id info).
Proof.
  intros Hget Hclose. unfold after_remove. rewrite Hget.
  unfold close_raises in Hclose. unfold socket_close.
  destruct (sock_open (socket info)); cbn in *.
  - rewrite Hclose. cbn. rewrite dict_get_del_eq, lookup_delete_eq. auto.
  - rewrite dict_get_del_eq, lookup_delete_eq. auto.
Qed.

(** When closing raises, the entry and the buffer stay. *)
Lemma remove_client_close_error client_id info w :
  dict_get (clients (self w)) client_id = Some info ->
  close_raises info = true ->
  let w' := after_remove client_id w in
  dict_in client_id (clients (self w')) = true /\
  message_buffers (self w') = message_buffers (self w) /\
  trace w' = trace w ++ [ Log ERROR (RemoveError OSError) ].
Proof.
  intros Hget Hclose. unfold after_remove. rewrite Hget.
  unfold close_raises in Hclose. unfold socket_close.
  apply andb_true_iff in Hclose as [-> ->]. cbn.
  unfold dict_in. rewrite dict_get_set_eq. auto.
Qed.

(** Eviction of an absent connection does nothing. *)
Lemma remove_client_absent client_id w :
  dict_in client_id (clients (self w)) = false ->
  _remove_client client_id w = (Ok tt, w).
Proof.
  intros Hin. rewrite remove_client_run. unfold after_remove, dict_in in *.
  destruct (dict_get (clients (self w)) client_id); [discriminate|].
  reflexivity.
Qed.

(** Eviction twice is eviction once, as long as closing does not raise. *)
Lemma remove_client_idempotent client_id w :
  (forall info, dict_get (clients (self w)) client_id = Some info ->
                close_raises info = false) ->
  after_remove client_id (after_remove client_id w) = after_remove client_id w.
Proof.
  intros Hclose.
  destruct (dict_get (clients (self w)) client_id) as [info|] eqn:E.
  - destruct (remove_client_evicts _ _ _ E (Hclose info eq_refl))
      as (Habs & _).
    cbv zeta in Habs. unfold after_remove at 1. rewrite Habs. reflexivity.
  - unfold after_remove. rewrite E, E. reflexivity.
Qed.

(** C4. The failing case: the socket of the connection raises on [close].
    [_remove_client] logs the error and returns, and the connection is
    still in the table with its receive buffer. *)
Theorem remove_client_close_error_keeps_entry :
  let r := _remove_client sorter_id world_close_error in
  r.1 = Ok tt /\
  dict_in sorter_id (clients (self r.2)) = true /\
  message_buffers (self r.2) !! sorter_id = Some (ascii_bytes "SE0") /\
  trace r.2 = [ Log ERROR (RemoveError OSError) ].
Proof.
  cbv zeta. rewrite remove_client_run. cbn [fst snd].
  destruct (remove_client_close_error sorter_id
              (mkClient failing_socket (py "10.0.0.5", 5000%N)
                 (Some (py "S")) 0)
              world_close_error eq_refl eq_refl) as (H1 & H2 & H3).
  split; [reflexivity|]. split; [exact H1|]. split; [|exact H3].
  cbv zeta in H2. rewrite H2. reflexivity.
Qed.

(** C5. The failing case: after a first eviction that met an error on
    [close] the connection is still in the table; a second eviction finds
    the socket already released, closes it without error and removes the
    entry and the buffer.  Evicting twice is not evicting once. *)
Theorem remove_client_twice_differs_after_close_error :
  let once := (_remove_client sorter_id world_close_error).2 in
  let twice := (_remove_client sorter_id once).2 in
  dict_in sorter_id (clients (self once)) = true /\
  message_buffers (self once) !! sorter_id = Some (ascii_bytes "SE0") /\
  dict_in sorter_id (clients (self twice)) = false /\
  message_buffers (self twice) !! sorter_id = None /\
  twice <> once.
Proof.
  cbv zeta. rewrite !remove_client_run. cbn [fst snd].
  assert (H1 : dict_in sorter_id
                 (clients (self (after_remove sorter_id world_close_error)))
               = true) by reflexivity.
  assert (H2 : dict_in sorter_id
                 (clients (self (after_remove sorter_id
                                   (after_remove sorter_id world_close_error))))
               = false) by reflexivity.
  split; [exact H1|]. split; [reflexivity|]. split; [exact H2|].
  split; [reflexivity|].
  intros Heq. rewrite Heq in H2. congruence.
Qed.

(** ** The liveness sweep *)

Lemma idle_exceeds_true current_time last timeout :
  idle_exceeds current_time last timeout = true
  <-> (timeout < current_time - last)%Q.
Proof.
  unfold idle_exceeds. rewrite negb_true_iff. split.
  - intros H. apply Qnot_le_lt. intros Hle.
    apply Qle_bool_iff in Hle. congruence.
  - intros H. destruct (Qle_bool _ _) eqn:E; [|reflexivity].
    apply Qle_bool_iff in E. apply Qlt_not_le in H. contradiction.
Qed.

Lemma idle_exceeds_false current_time last timeout :
  idle_exceeds current_time last timeout = false
  <-> (current_time - last <= timeout)%Q.
Proof.
  unfold idle_exceeds. rewrite negb_false_iff. apply Qle_bool_iff.
Qed.

Lemma inactive_clients_In items current_time timeout client_id :
  In client_id (inactive_clients items current_time timeout)
  <-> exists info, In (client_id, info) items /\
        idle_exceeds current_time (last_activity info) timeout = true.
Proof.
  induction items as [|[c i] items IH]; cbn.
  - split; [tauto|]. intros (? & [] & _).
  - destruct (idle_exceeds current_time (last_activity i) timeout) eqn:E.
    + cbn. rewrite IH. split.
      * intros [->|(info & Hin & He)]; eauto.
      * intros (info & [[= -> ->]|Hin] & He); eauto.
    + rewrite IH. split.
      * intros (info & Hin & He); eauto.
      * intros (info & [[= -> ->]|Hin] & He); [congruence|eauto].
Qed.

Lemma dict_get_In {V} (d : dict str V) k v :
  dict_get d k = Some v -> In (k, v) d.
Proof.
  induction d as [|[k0 v0] d IH]; cbn; [discriminate|].
  destruct (decide (k0 = k)) as [->|]; [intros [= ->]|]; auto.
Qed.

Lemma dict_wf_In_get {V} (d : dict str V) k v :
  dict_wf d -> In (k, v) d -> dict_get d k = Some v.
Proof.
  unfold dict_wf, dict_keys.
  induction d as [|[k0 v0] d IH]; cbn; [tauto|].
  intros Hnd. apply NoDup_cons in Hnd as [Hnotin Hnd].
  intros [[= -> ->]|Hin].
  - destruct (decide (k = k)); congruence.
  - destruct (decide (k0 = k)) as [->|]; [|auto].
    exfalso. apply Hnotin. apply list_elem_of_In.
    change k with (fst (k, v)). apply in_map, Hin.
Qed.

(** Eviction of one connection leaves the others alone. *)
Lemma after_remove_other client_id c w :
  client_id <> c ->
  dict_get (clients (self (after_remove client_id w))) c
  = dict_get (clients (self w)) c /\
  message_buffers (self (after_remove client_id w)) !! c
  = message_buffers (self w) !! c.
Proof.
  intros Hne. unfold after_remove.
  destruct (dict_get (clients (self w)) client_id) as [info|]; [|auto].
  destruct (socket_close (socket info)).2; cbn.
  - rewrite dict_get_set_ne by assumption. auto.
  - rewrite dict_get_del_ne by assumption.
    rewrite lookup_delete_ne by assumption. auto.
Qed.

Lemma after_remove_gone client_id c w :
  dict_get (clients (self w)) c = None ->
  message_buffers (self w) !! c = None ->
  dict_get (clients (self (after_remove client_id w))) c = None /\
  message_buffers (self (after_remove client_id w)) !! c = None.
Proof.
  intros Hc Hb. destruct (decide (client_id = c)) as [->|Hne].
  - unfold after_remove. rewrite Hc. auto.
  - destruct (after_remove_other client_id c w Hne) as [-> ->]. auto.
Qed.

Lemma sweep_keeps l c : forall w,
  ~ In c l ->
  dict_get (clients (self (fold_left sweep_step l w))) c
  = dict_get (clients (self w)) c /\
  message_buffers (self (fold_left sweep_step l w)) !! c
  = message_buffers (self w) !! c.
Proof.
  induction l as [|x l IH]; intros w Hnotin; [auto|].
  cbn [fold_left]. cbn in Hnotin.
  destruct (IH (sweep_step w x)) as [-> ->]; [tauto|].
  unfold sweep_step.
  destruct (after_remove_other x c
              (add_events w [ Log INFO (InactiveClient x) ])) as [-> ->];
    [tauto|]. auto.
Qed.

Lemma sweep_gone l c : forall w,
  dict_get (clients (self w)) c = None ->
  message_buffers (self w) !! c = None ->
  dict_get (clients (self (fold_left sweep_step l w))) c = None /\
  message_buffers (self (fold_left sweep_step l w)) !! c = None.
Proof.
  induction l as [|x l IH]; intros w Hc Hb; [auto|].
  cbn [fold_left]. apply IH; unfold sweep_step;
    apply (after_remove_gone x c
             (add_events w [ Log INFO (InactiveClient x) ])); assumption.
Qed.

Lemma sweep_removes l c info : forall w,
  In c l ->
  dict_get (clients (self w)) c = Some info ->
  close_raises info = false ->
  dict_get (clients (self (fold_left sweep_step l w))) c = None /\
  message_buffers (self (fold_left sweep_step l w)) !! c = None.
Proof.
  induction l as [|x l IH]; intros w Hin Hget Hclose; [destruct Hin|].
  cbn [fold_left]. destruct (decide (x = c)) as [->|Hne].
  - destruct (remove_client_evicts c info
                (add_events w [ Log INFO (InactiveClient c) ]) Hget Hclose)
      as (H1 & H2 & _).
    apply sweep_gone; assumption.
  - destruct Hin as [->|Hin]; [congruence|].
    apply IH; auto. unfold sweep_step.
    destruct (after_remove_other x c
                (add_events w [ Log INFO (InactiveClient x) ]) Hne)
      as [-> _]. exact Hget.
Qed.

Lemma cleanup_run current_time timeout w :
  _cleanup_inactive_clients current_time timeout w
  = (Ok tt, after_sweep current_time timeout w).
Proof.
  unfold _cleanup_inactive_clients, after_sweep. unfold bind at 1, get.
  apply (for_each_run _ (fun client_id w => sweep_step w client_id)).
  intros client_id w'. unfold bind, log, emit. cbn -[_remove_client].
  rewrite remove_client_run. reflexivity.
Qed.


(** ** Outbound send *)

Lemma endswith_nl_app s : endswith_nl (s ++ [nl]) = true.
Proof.
  induction s as [|c s IH]; [reflexivity|].
  cbn [app]. destruct s as [|c' s]; [reflexivity|]. exact IH.
Qed.

Lemma endswith_nl_removelast s :
  endswith_nl s = true -> s = removelast s ++ [nl].
Proof.
  induction s as [|c s IH]; [discriminate|].
  destruct s as [|c' s].
  - cbn. intros H. apply N.eqb_eq in H. subst. reflexivity.
  - intros H. change (removelast (c :: c' :: s))
      with (c :: removelast (c' :: s)).
    cbn [app]. f_equal. apply IH. exact H.
Qed.

Lemma terminated_chomp command : terminated command = chomp command ++ [nl].
Proof.
  unfold terminated, chomp. destruct (endswith_nl command) eqn:E; cbn.
  - apply endswith_nl_removelast, E.
  - reflexivity.
Qed.

Lemma terminated_ends command : endswith_nl (terminated command) = true.
Proof. rewrite terminated_chomp. apply endswith_nl_app. Qed.

Lemma terminated_app_nl command :
  endswith_nl command = false -> terminated (command ++ [nl]) = terminated command.
Proof.
  intros H. unfold terminated. rewrite endswith_nl_app, H. reflexivity.
Qed.

Lemma utf8_encode_app s1 s2 b1 b2 :
  utf8_encode s1 = Some b1 -> utf8_encode s2 = Some b2 ->
  utf8_encode (s1 ++ s2) = Some (b1 ++ b2).
Proof.
  revert b1. induction s1 as [|c s1 IH]; cbn; intros b1.
  - intros [= <-]. auto.
  - destruct (encode_char c) as [bc|]; [|discriminate].
    destruct (utf8_encode s1) as [bs|]; [|discriminate].
    intros [= <-] H2. rewrite (IH bs eq_refl H2), app_assoc. reflexivity.
Qed.

Lemma utf8_encode_app_inv s1 s2 b :
  utf8_encode (s1 ++ s2) = Some b ->
  exists b1 b2, utf8_encode s1 = Some b1 /\ utf8_encode s2 = Some b2 /\
                b = b1 ++ b2.
Proof.
  revert b. induction s1 as [|c s1 IH]; cbn; intros b.
  - intros H. exists [], b. auto.
  - destruct (encode_char c) as [bc|]; [|discriminate].
    destruct (utf8_encode (s1 ++ s2)) as [bs|] eqn:E; [|discriminate].
    intros [= <-]. destruct (IH bs eq_refl) as (b1 & b2 & -> & -> & ->).
    exists (bc ++ b1), b2. rewrite app_assoc. auto.
Qed.

Lemma dict_set_set {V} (d : dict str V) k v1 v2 :
  dict_set (dict_set d k v1) k v2 = dict_set d k v2.
Proof.
  induction d as [|[k0 v0] d IH]; cbn.
  - destruct (decide (k = k)); congruence.
  - destruct (decide (k0 = k)) as [->|Hne]; cbn.
    + destruct (decide (k = k)); congruence.
    + destruct (decide (k0 = k)); [congruence|]. rewrite IH. reflexivity.
Qed.

(** A command and the same command with a newline appended are sent alike,
    whatever the state of the handler. *)
Lemma send_message_newline_irrelevant device command now w :
  endswith_nl command = false ->
  send_message device (command ++ [nl]) now w
  = send_message device command now w.
Proof.
  intros H. unfold send_message. rewrite (terminated_app_nl _ H). reflexivity.
Qed.

Lemma send_message_run_ok w device command now client_id info data :
  find_client (clients (self w)) device = Some client_id ->
  client_id <> [] ->
  dict_get (clients (self w)) client_id = Some info ->
  sock_open (socket info) = true ->
  sock_send_error (socket info) = false ->
  utf8_encode (terminated command) = Some data ->
  send_message device command now w
  = (Ok true,
     add_events
       (with_clients w
          (dict_set (clients (self w)) client_id (sent_to info data now)))
       [ Log INFO (SendSucceeded device (strip (terminated command))) ]).
Proof.
  intros Hfind Hne Hget Hopen Hsend Henc.
  destruct client_id as [|c0 cid]; [congruence|].
  unfold send_message, _find_client_by_device, try_except, encode, sendall,
    client, store_client, set_clients, log, emit, dict_in, socket_sendall,
    add_events, with_trace, with_clients, sent_to.
  unfold bind, get, put, ret, raise.
  destruct w as [[c b hs a] t dbg]. cbn in Hfind, Hget.
  repeat (progress (cbn; rewrite ?Hfind, ?Hget, ?Henc, ?Hopen, ?Hsend,
                      ?dict_get_set_eq, ?dict_set_set)).
  reflexivity.
Qed.

Lemma find_client_in items device client_id :
  find_client items device = Some client_id ->
  dict_in client_id items = true.
Proof.
  unfold dict_in. induction items as [|[c i] items IH]; cbn; [discriminate|].
  destruct (decide (device_id i = Some device)).
  - intros [= ->]. destruct (decide (client_id = client_id)); congruence.
  - intros H. destruct (decide (c = client_id)); [reflexivity|]. auto.
Qed.

(** [_find_client_by_device] finds nothing exactly when no connection has
    the device as its identity. *)
Lemma find_client_none items device :
  find_client items device = None
  <-> forall client_id info,
        In (client_id, info) items -> device_id info <> Some device.
Proof.
  induction items as [|[c i] items IH]; cbn.
  - split; [intros _ ? ? []|reflexivity].
  - destruct (decide (device_id i = Some device)) as [Heq|Hne].
    + split; [discriminate|]. intros H. exfalso. apply (H c i); auto.
    + rewrite IH. split.
      * intros H client_id info [[= -> ->]|Hin]; eauto.
      * intros H client_id info Hin. apply (H client_id info). auto.
Qed.

(** C7. When a connection has the device as its identity and the write
    goes through, [send_message] hands the socket the command with one
    newline behind it, the command's own final newline counting as that
    newline: a command that ends with a newline is sent as it is, one that
    does not gets one appended, and a command and the same command with a
    newline appended are sent alike.  The timestamp of the connection
    becomes the time of the send and the result is [True]. *)
Theorem send_message_terminates_command
    (w : World) (device command : str) (now : Q)
    (client_id : str) (info : ClientInfo) (data : bytes) :
  find_client (clients (self w)) device = Some client_id ->
  client_id <> [] ->
  dict_get (clients (self w)) client_id = Some info ->
  sock_open (socket info) = true ->
  sock_send_error (socket info) = false ->
  utf8_encode (terminated command) = Some data ->
  exists w' info',
    send_message device command now w = (Ok true, w') /\
    dict_get (clients (self w')) client_id = Some info' /\
    sock_sent (socket info') = sock_sent (socket info) ++ data /\
    last_activity info' = now /\
    terminated command = chomp command ++ [nl] /\
    (exists body, utf8_encode (chomp command) = Some body /\
                  data = body ++ [NL]) /\
    (endswith_nl command = true -> terminated command = command) /\
    (endswith_nl command = false ->
     terminated command = command ++ [nl] /\
     send_message device (command ++ [nl]) now w
     = send_message device command now w).
Proof.
  intros Hfind Hne Hget Hopen Hsend Henc.
  eexists _, (sent_to info data now).
  split; [apply (send_message_run_ok _ _ _ _ _ _ _ Hfind Hne Hget Hopen
                   Hsend Henc)|].
  split; [cbn; apply dict_get_set_eq|].
  split; [reflexivity|]. split; [reflexivity|].
  split; [apply terminated_chomp|].
  split.
  { rewrite terminated_chomp in Henc.
    destruct (utf8_encode_app_inv _ _ _ Henc) as (b1 & b2 & H1 & H2 & ->).
    exists b1. split; [exact H1|]. cbn in H2. injection H2 as <-.
    reflexivity. }
  split.
  - intros H. unfold terminated. rewrite H. reflexivity.
  - intros H. split.
    + unfold terminated. rewrite H. reflexivity.
    + apply send_message_newline_irrelevant, H.
Qed.

Lemma reverse_mapping_eq :
  reverse_mapping
  = [ (py "sort_controller", py "S"); (py "env_controller", py "H");
      (py "access_controller", py "G") ].
Proof. vm_compute. reflexivity. Qed.

Lemma reverse_mapping_spec device tag :
  dict_get reverse_mapping device = Some tag
  <-> dict_get DEVICE_ID_MAPPING tag = Some device.
Proof.
  rewrite reverse_mapping_eq. unfold DEVICE_ID_MAPPING. cbn [dict_get].
  repeat match goal with
         | |- context [decide (?a = ?b)] =>
             destruct (decide (a = b)) as [?|?]; subst
         end;
    split; intros H; try discriminate H; try congruence;
    try (injection H as H; subst; try congruence);
    try match goal with
        | E : py _ = py _ |- _ => vm_compute in E; discriminate E
        end.
Qed.

Lemma send_message_run_unconnected w device command now :
  find_client (clients (self w)) device = None ->
  send_message device command now w
  = (Ok false,
     add_events w
       ([ Log ERROR (NoConnection device); connected_log w ]
        ++ mapping_log device)).
Proof.
  intros Hfind.
  unfold send_message, _find_client_by_device, log, emit, add_events,
    with_trace, connected_log, mapping_log.
  unfold bind, get, ret.
  destruct w as [[c b hs a] t dbg]. cbn in Hfind.
  destruct (dict_get reverse_mapping device).
  all: cbn; rewrite Hfind; cbn.
  all: destruct c as [|[cid info] c]; cbn; rewrite <- ?app_assoc;
    reflexivity.
Qed.

(** C9. When no connection of the table has the device as its identity,
    [send_message] returns [False] without raising and leaves the handler
    as it was; it logs the error, then the connected clients with their
    identities and addresses (or, the table being empty, that there are
    none), then the raw tag when the static mapping has one for the
    device. *)
Theorem send_message_unconnected
    (w : World) (device command : str) (now : Q) :
  find_client (clients (self w)) device = None ->
  exists w',
    send_message device command now w = (Ok false, w') /\
    self w' = self w /\
    trace w'
    = trace w
      ++ [ Log ERROR (NoConnection device); connected_log w ]
      ++ mapping_log device /\
    (forall tag,
       In (Log INFO (MappedRawId tag)) (mapping_log device)
       <-> dict_get DEVICE_ID_MAPPING tag = Some device) /\
    (clients (self w) <> [] ->
     connected_log w
     = Log INFO
         (ConnectedClients
            (map (fun '(cid, info) => (cid, device_id info, address info))
               (clients (self w))))).
Proof.
  intros Hfind. eexists.
  split; [apply send_message_run_unconnected, Hfind|].
  split; [reflexivity|]. split; [reflexivity|]. split.
  - intros tag. rewrite <- reverse_mapping_spec. unfold mapping_log.
    destruct (dict_get reverse_mapping device) as [t|]; cbn.
    + split; [intros [[= ->]|[]]; reflexivity|intros [= ->]; auto].
    + split; [intros []|discriminate].
  - unfold connected_log. destruct (clients (self w)); [congruence|].
    reflexivity.
Qed.

(** ** Registration *)

(** The last registration for a key is the one dispatch finds. *)
Lemma register_then_lookup device kind f w :
  exists w',
    register_device_handler device kind f w = (Ok tt, w') /\
    lookup_handler (device_handlers (self w')) device kind = Some f /\
    clients (self w') = clients (self w).
Proof.
  unfold register_device_handler, set_device_handlers, when, log, emit,
    lookup_handler, dict_in.
  unfold bind, get, put, ret, raise.
  destruct w as [[c b hs a] t dbg]. cbn.
  destruct (dict_get hs device) as [table|] eqn:E;
    repeat (progress (cbn; rewrite ?E, ?dict_get_set_eq, ?dict_set_set));
    (eexists; split; [reflexivity|]); cbn;
    rewrite ?dict_get_set_eq; cbn; rewrite ?dict_get_set_eq.
  - auto.
  - destruct (decide (kind = kind)); [auto|congruence].
Qed.

(** ** Key uniqueness is kept *)

Lemma dict_keys_set_absent {V} (d : dict str V) k v :
  dict_in k d = false -> dict_keys (dict_set d k v) = dict_keys d ++ [k].
Proof.
  unfold dict_in, dict_keys.
  induction d as [|[k0 v0] d IH]; cbn; [reflexivity|].
  destruct (decide (k0 = k)); [discriminate|]. cbn.
  intros H. rewrite IH; auto.
Qed.

Lemma dict_in_elem {V} (d : dict str V) k :
  dict_in k d = true <-> k ∈ dict_keys d.
Proof.
  unfold dict_in, dict_keys. induction d as [|[k0 v0] d IH]; cbn.
  - split; [discriminate|]. intros H. inversion H.
  - destruct (decide (k0 = k)) as [->|Hne].
    + split; [intros _; left|reflexivity].
    + rewrite IH, elem_of_cons. split; [auto|]. intros [?|?]; congruence.
Qed.

Lemma dict_set_wf {V} (d : dict str V) k v :
  dict_wf d -> dict_wf (dict_set d k v).
Proof.
  unfold dict_wf. intros Hwf. destruct (dict_in k d) eqn:E.
  - rewrite dict_keys_set_present; assumption.
  - rewrite dict_keys_set_absent by assumption.
    apply NoDup_app. split; [assumption|]. split.
    + intros x Hx Hk. apply list_elem_of_singleton in Hk. subst.
      apply dict_in_elem in Hx. congruence.
    + apply NoDup_singleton.
Qed.

Lemma dict_keys_del {V} (d : dict str V) k :
  dict_keys (dict_del d k) = filter (fun x => x <> k) (dict_keys d).
Proof.
  unfold dict_keys. induction d as [|[k0 v0] d IH]; [reflexivity|].
  cbn [dict_del map fst]. rewrite filter_cons.
  destruct (decide (k0 = k)) as [->|Hne].
  - destruct (decide (k <> k)); [congruence|]. exact IH.
  - destruct (decide (k0 <> k)); [|contradiction]. cbn. rewrite IH.
    reflexivity.
Qed.

Lemma dict_del_wf {V} (d : dict str V) k : dict_wf d -> dict_wf (dict_del d k).
Proof. unfold dict_wf. rewrite dict_keys_del. apply NoDup_filter. Qed.

Lemma after_remove_wf client_id w :
  dict_wf (clients (self w)) ->
  dict_wf (clients (self (after_remove client_id w))).
Proof.
  intros Hwf. unfold after_remove.
  destruct (dict_get (clients (self w)) client_id) as [info|]; [|exact Hwf].
  destruct (socket_close (socket info)).2; cbn.
  - apply dict_set_wf, Hwf.
  - apply dict_del_wf, Hwf.
Qed.

Lemma process_data_wf client_id data w w' :
  dict_wf (clients (self w)) ->
  _process_data client_id data w = (Ok tt, w') ->
  dict_wf (clients (self w')).
Proof.
  intros Hwf. rewrite process_data_run. intros [= <-].
  unfold dict_wf in *.
  match goal with
  | |- context [after_messages ?c ?ms ?w0] =>
      destruct (after_messages_frame c ms w0) as (_ & _ & _ & ->)
  end.
  exact Hwf.
Qed.

Lemma accept_connection_wf sock addr now w r w' :
  dict_wf (clients (self w)) ->
  accept_connection sock addr now w = (r, w') ->
  dict_wf (clients (self w')).
Proof.
  intros Hwf. unfold accept_connection, store_client, set_clients,
    set_message_buffers, log, emit.
  unfold bind, get, put, ret. cbn.
  destruct (auto_device_mapping (self w) !! addr.1); cbn;
    intros [= _ <-]; cbn; apply dict_set_wf, Hwf.
Qed.

(** ** Runs on concrete inputs *)

Example decode_two_byte : utf8_decode [xc3; xa9] = Some [233%N].
Proof. reflexivity. Qed.

Example decode_four_byte :
  utf8_decode [xf0; x9f; x98; x80] = Some [128512%N].
Proof. reflexivity. Qed.

Example decode_rejects_overlong : utf8_decode [xc0; x80] = None.
Proof. reflexivity. Qed.

Example decode_rejects_surrogate : utf8_decode [xed; xa0; x80] = None.
Proof. reflexivity. Qed.

Example encode_rejects_surrogate : utf8_encode [55296%N] = None.
Proof. reflexivity. Qed.

(** Two reads [SE0] and [1\n] give one message [SE01], dispatched once, to
    the handler under the canonical id, with the line it came from. *)
Example fragments_make_one_message :
  called (receive [ (sorter_id, ascii_bytes "SE0");
                    (sorter_id, ascii_bytes "1" ++ [NL]) ]
            world_handlers).2
  = [ ("sorter_event"%string,
       mkArg (py "S") (py "E") (py "01") (Some (py "SE01"))) ].
Proof. vm_compute. reflexivity. Qed.

(** A kind registered under the raw tag only, one registered under a
    legacy alias only, and one not registered at all. *)
Example dispatch_falls_back :
  called (_process_data sorter_id
            (ascii_bytes "SC2" ++ [NL] ++ ascii_bytes "SRx" ++ [NL]
             ++ ascii_bytes "SXx" ++ [NL])
            world_handlers).2
  = [ ("tag_command"%string, mkArg (py "S") (py "C") (py "2") None);
      ("sorter_response"%string, mkArg (py "S") (py "R") (py "x") None) ].
Proof. vm_compute. reflexivity. Qed.

(** A message with tag X on a connection whose identity came from the
    address table: the identity stays and the dispatch is for tag X. *)
Example preregistered_identity_stays :
  let w := (_process_data sorter_id (ascii_bytes "XE1" ++ [NL])
              world_preregistered).2 in
  identity w sorter_id = Some (py "sort_controller") /\
  trace w
  = trace world_preregistered
    ++ [ Log WARNING (NoHandler (py "X") (py "E") (py "X")) ].
Proof. vm_compute. split; reflexivity. Qed.

(** The first tag seen is learnt, later ones are not. *)
Example first_tag_is_learnt :
  identity (receive [ (sorter_id, ascii_bytes "SE1" ++ [NL]);
                      (sorter_id, ascii_bytes "HE2" ++ [NL]) ]
              world_handlers).2 sorter_id
  = Some (py "S").
Proof. vm_compute. reflexivity. Qed.

(** A sweep at time 601 evicts the connection last active at 0 and keeps
    the one last active at 2. *)
Example sweep_at_601 :
  dict_keys (clients (self (_cleanup_inactive_clients 601 DEFAULT_TIMEOUT
                              world_two_clients).2))
  = [ gate_id ].
Proof. vm_compute. reflexivity. Qed.

(** At idle time exactly 600 nothing is evicted. *)
Example sweep_at_600 :
  dict_keys (clients (self (_cleanup_inactive_clients 600 DEFAULT_TIMEOUT
                              world_two_clients).2))
  = [ sorter_id; gate_id ].
Proof. vm_compute. reflexivity. Qed.

(** A command that already ends with two newlines is sent as it is. *)
Example terminated_keeps_newlines :
  terminated (py "CMD" ++ [nl; nl]) = py "CMD" ++ [nl; nl].
Proof. reflexivity. Qed.

(** ** The theorems at concrete inputs *)

Lemma framing_independent_of_chunking_witness :
  (example_chunks <> []
   \/ has_newline (buffer_of world_two_clients sorter_id) = false) /\
  exists w',
    feed sorter_id example_chunks world_two_clients
    = (Ok [ ascii_bytes "SE01"; ascii_bytes "GRok" ], w') /\
    buffer_of w' sorter_id = ascii_bytes "X".
Proof.
  assert (H : example_chunks <> []
              \/ has_newline (buffer_of world_two_clients sorter_id) = false)
    by (left; discriminate).
  split; [exact H|].
  destruct (framing_independent_of_chunking world_two_clients sorter_id
              example_chunks H) as (w' & Hf & Hb & _).
  exists w'. split; [exact Hf|exact Hb].
Defined.

Lemma identity_first_writer_wins_witness :
  identity world_preregistered sorter_id = Some (py "sort_controller") /\
  exists w',
    receive example_inputs world_preregistered = (Ok tt, w') /\
    identity w' sorter_id = Some (py "sort_controller").
Proof.
  assert (H : identity world_preregistered sorter_id
              = Some (py "sort_controller")) by (vm_compute; reflexivity).
  split; [exact H|].
  exact (identity_first_writer_wins world_preregistered sorter_id
           (py "sort_controller") example_inputs H).
Defined.


Lemma send_message_terminates_command_witness :
  find_client (clients (self world_two_clients)) (py "S") = Some sorter_id /\
  sorter_id <> [] /\
  utf8_encode (terminated (py "CMD")) = Some (ascii_bytes "CMD" ++ [NL]) /\
  exists w' info',
    send_message (py "S") (py "CMD") 5 world_two_clients = (Ok true, w') /\
    dict_get (clients (self w')) sorter_id = Some info' /\
    sock_sent (socket info') = ascii_bytes "CMD" ++ [NL] /\
    last_activity info' = 5%Q /\
    send_message (py "S") (py "CMD" ++ [nl]) 5 world_two_clients
    = send_message (py "S") (py "CMD") 5 world_two_clients.
Proof.
  assert (Hf : find_client (clients (self world_two_clients)) (py "S")
               = Some sorter_id) by (vm_compute; reflexivity).
  assert (Hn : sorter_id <> []) by discriminate.
  assert (He : utf8_encode (terminated (py "CMD"))
               = Some (ascii_bytes "CMD" ++ [NL]))
    by (vm_compute; reflexivity).
  split; [exact Hf|]. split; [exact Hn|]. split; [exact He|].
  destruct (send_message_terminates_command world_two_clients (py "S")
              (py "CMD") 5 sorter_id
              (mkClient healthy_socket (py "10.0.0.5", 5000%N)
                 (Some (py "S")) 0)
              (ascii_bytes "CMD" ++ [NL]) Hf Hn eq_refl eq_refl eq_refl He)
    as (w' & info' & Hrun & Hget & Hsent & Hlast & _ & _ & _ & Hnl).
  exists w', info'. split; [exact Hrun|]. split; [exact Hget|].
  split; [exact Hsent|]. split; [exact Hlast|].
  apply Hnl. reflexivity.
Defined.

Lemma short_message_discarded_witness :
  stream_messages (buffer_of world_two_clients gate_id ++ example_short_data)
  = [] ++ ascii_bytes "G" :: [ ascii_bytes "GE1" ] /\
  utf8_decode (ascii_bytes "G") = Some (py "G") /\
  (length (py "G") < 2)%nat /\
  exists w2,
    _process_data gate_id example_short_data world_two_clients = (Ok tt, w2) /\
    dict_in gate_id (clients (self w2)) = true.
Proof.
  assert (H1 : stream_messages
                 (buffer_of world_two_clients gate_id ++ example_short_data)
               = [] ++ ascii_bytes "G" :: [ ascii_bytes "GE1" ])
    by (vm_compute; reflexivity).
  assert (H2 : utf8_decode (ascii_bytes "G") = Some (py "G"))
    by (vm_compute; reflexivity).
  assert (H3 : (length (py "G") < 2)%nat) by (vm_compute; lia).
  split; [exact H1|]. split; [exact H2|]. split; [exact H3|].
  destruct (short_message_discarded world_two_clients gate_id
              example_short_data [] (ascii_bytes "G") [ ascii_bytes "GE1" ]
              (py "G") H1 H2 H3)
    as (w0 & w1 & w2 & _ & _ & _ & _ & _ & _ & Hrun & Hin & _).
  exists w2. split; [exact Hrun|]. rewrite Hin. reflexivity.
Defined.

Lemma send_message_unconnected_witness :
  find_client (clients (self world_two_clients)) (py "sort_controller") = None /\
  exists w',
    send_message (py "sort_controller") (py "CMD") 5 world_two_clients
    = (Ok false, w') /\
    self w' = self world_two_clients /\
    In (Log INFO (MappedRawId (py "S"))) (trace w').
Proof.
  assert (H : find_client (clients (self world_two_clients))
                (py "sort_controller") = None) by (vm_compute; reflexivity).
  split; [exact H|].
  destruct (send_message_unconnected world_two_clients (py "sort_controller")
              (py "CMD") 5 H) as (w' & Hrun & Hself & Htrace & Hmap & _).
  exists w'. split; [exact Hrun|]. split; [exact Hself|].
  rewrite Htrace. apply in_or_app. right. apply in_or_app. right.
  apply Hmap. vm_compute. reflexivity.
Defined.

Lemma process_data_without_connection_witness :
  dict_in stranger_id (clients (self world_two_clients)) = false /\
  exists w',
    _process_data stranger_id (ascii_bytes "SE1" ++ [NL] ++ ascii_bytes "H")
      world_two_clients = (Ok tt, w') /\
    clients (self w') = clients (self world_two_clients) /\
    message_buffers (self w') !! stranger_id = Some (ascii_bytes "H").
Proof.
  assert (H : dict_in stranger_id (clients (self world_two_clients)) = false)
    by (vm_compute; reflexivity).
  split; [exact H|].
  destruct (process_data_without_connection world_two_clients stranger_id
              (ascii_bytes "SE1" ++ [NL] ++ ascii_bytes "H") H)
    as (w' & Hrun & Hc & Hb & _).
  exists w'. split; [exact Hrun|]. split; [exact Hc|].
  rewrite Hb, lookup_insert_eq. vm_compute. reflexivity.
Defined.

(** * Properties of the rest of the class *)

(** ** Framing: what is extracted and what is kept *)

Lemma split_once_join buffer :
  has_newline buffer = true ->
  buffer = (split_once buffer).1 ++ NL :: (split_once buffer).2.
Proof.
  induction buffer as [|b rest IH]; simpl; [discriminate|].
  destruct (Byte.eqb b NL) eqn:E; simpl.
  - intros _. apply Byte.byte_dec_bl in E. subst. reflexivity.
  - intros H. specialize (IH H). destruct (split_once rest) as [m r].
    simpl in *. congruence.
Qed.

Lemma count_newlines_app s t :
  count_newlines (s ++ t) = (count_newlines s + count_newlines t)%nat.
Proof.
  unfold count_newlines. rewrite List.filter_app, length_app. reflexivity.
Qed.

Lemma count_newlines_none s : has_newline s = false -> count_newlines s = 0%nat.
Proof.
  unfold count_newlines, has_newline.
  induction s as [|b s IH]; simpl; [reflexivity|].
  destruct (Byte.eqb b NL); simpl; [discriminate|exact IH].
Qed.

Lemma total_length_app l1 l2 :
  total_length (l1 ++ l2) = (total_length l1 + total_length l2)%nat.
Proof. unfold total_length. rewrite map_app, list_sum_app. reflexivity. Qed.

Lemma stream_messages_framed s : Forall framed (stream_messages s).
Proof.
  remember (length s) as n eqn:Hn. revert s Hn.
  induction n as [n IH] using lt_wf_ind. intros s Hn.
  destruct (has_newline s) eqn:E.
  - destruct (split_once_spec _ E) as (Hnl & _ & Hlt).
    destruct (stream_messages_newline s E) as (-> & _).
    apply Forall_app. split; [|eapply IH; [|reflexivity]; lia].
    unfold drop_empty. cbn. destruct (split_once s).1 as [|b m] eqn:Em; cbn.
    + constructor.
    + constructor; [|constructor]. split; [discriminate|exact Hnl].
  - destruct (stream_messages_no_newline _ E) as (-> & _). constructor.
Qed.

Lemma stream_conservation s :
  length s
  = (total_length (stream_messages s) + count_newlines s
     + length (stream_residual s))%nat.
Proof.
  remember (length s) as n eqn:Hn. revert s Hn.
  induction n as [n IH] using lt_wf_ind. intros s Hn.
  destruct (has_newline s) eqn:E.
  - destruct (split_once_spec _ E) as (Hnl & _ & Hlt).
    destruct (stream_messages_newline s E) as (Hm & Hr).
    pose proof (split_once_join s E) as Hj.
    pose proof (IH (length (split_once s).2) ltac:(lia) _ eq_refl) as IHr.
    rewrite Hm, Hr, total_length_app.
    assert (Hc : count_newlines s
                 = S (count_newlines (split_once s).2)).
    { rewrite Hj at 1. rewrite count_newlines_app.
      rewrite (count_newlines_none _ Hnl).
      unfold count_newlines. cbn. reflexivity. }
    assert (Hl : length s
                 = (length (split_once s).1
                    + S (length (split_once s).2))%nat).
    { rewrite Hj at 1. rewrite length_app. reflexivity. }
    assert (Hd : total_length (drop_empty [(split_once s).1])
                 = length (split_once s).1).
    { destruct (split_once s).1; cbn; unfold total_length; cbn; lia. }
    rewrite Hc, Hd. subst n. rewrite Hl. lia.
  - destruct (stream_messages_no_newline _ E) as (-> & ->).
    rewrite (count_newlines_none _ E). subst. unfold total_length. cbn. lia.
Qed.

(** X1. Every message the framing step hands on is non-empty and holds no
    newline, the buffer it leaves holds no newline, and nothing but
    newline bytes is dropped: the bytes of the buffer and the chunk are
    those of the messages, the newlines and the new buffer. *)
Theorem frame_data_loses_only_newlines
    (w : World) (client_id : str) (data : bytes) :
  exists messages w',
    frame_data client_id data w = (Ok messages, w') /\
    Forall framed messages /\
    has_newline (buffer_of w' client_id) = false /\
    length (buffer_of w client_id ++ data)
    = (total_length messages
       + count_newlines (buffer_of w client_id ++ data)
       + length (buffer_of w' client_id))%nat.
Proof.
  eexists _, _. split; [apply frame_data_run|].
  rewrite buffer_of_with_buffers.
  split; [apply stream_messages_framed|].
  split; [apply stream_residual_no_newline|].
  apply stream_conservation.
Qed.

(** X2. Data that completes no line is only buffered: when the buffer
    followed by the chunk holds no newline (an empty chunk on a buffer
    without newline included), [_process_data] appends the chunk to the
    buffer and does nothing else: no log record, no callback, no change to
    the connection table. *)
Theorem process_data_buffers_partial_line
    (w : World) (client_id : str) (data : bytes) :
  has_newline (buffer_of w client_id ++ data) = false ->
  _process_data client_id data w
  = (Ok tt,
     with_buffers w
       (<[client_id := buffer_of w client_id ++ data]>
          (message_buffers (self w)))).
Proof.
  intros H. rewrite process_data_run.
  destruct (stream_messages_no_newline _ H) as (-> & ->). reflexivity.
Qed.

(** X3. A framed line that is not valid UTF-8 is dropped with one error
    record: no callback is made for it, the handler object is untouched,
    and the lines framed before and after it in the chunk are handled as
    usual; [_process_data] returns normally. *)
Theorem undecodable_message_dropped
    (w : World) (client_id : str) (data : bytes)
    (before : list bytes) (m : bytes) (after : list bytes) :
  stream_messages (buffer_of w client_id ++ data) = before ++ m :: after ->
  utf8_decode m = None ->
  let w0 := with_buffers w
              (<[client_id := stream_residual (buffer_of w client_id ++ data)]>
                 (message_buffers (self w))) in
  let w1 := after_messages client_id before w0 in
  let w2 := add_events w1 [ Log ERROR (ProcessingError UnicodeDecodeError) ] in
  handle_message client_id m w1 = (Ok tt, w2) /\
  self w2 = self w1 /\
  calls (trace w2) = calls (trace w1) /\
  _process_data client_id data w
  = (Ok tt, after_messages client_id after w2).
Proof.
  intros Hframe Hdec w0 w1 w2.
  assert (Hm : after_message client_id m w1 = w2).
  { unfold after_message. rewrite Hdec. reflexivity. }
  split; [rewrite handle_message_run, Hm; reflexivity|].
  split; [reflexivity|].
  split; [subst w2; cbn; rewrite calls_app; cbn; apply app_nil_r|].
  rewrite process_data_run, Hframe, after_messages_app.
  cbn [after_messages fold_left]. fold w0. fold w1. rewrite Hm. reflexivity.
Qed.

(** ** Dispatch over a stream of reads *)

Lemma stream_events_ext w1 w2 stream :
  device_handlers (self w1) = device_handlers (self w2) ->
  debug_enabled w1 = debug_enabled w2 ->
  stream_events w1 stream = stream_events w2 stream.
Proof.
  intros Hh Hd. apply flat_map_ext. intros m.
  apply message_events_ext; assumption.
Qed.

Lemma process_data_events client_id data w :
  exists evs,
    let w' := (_process_data client_id data w).2 in
    _process_data client_id data w = (Ok tt, w') /\
    trace w' = trace w ++ evs /\
    without_registrations evs
    = stream_events w (buffer_of w client_id ++ data) /\
    message_buffers (self w')
    = <[client_id := stream_residual (buffer_of w client_id ++ data)]>
        (message_buffers (self w)) /\
    device_handlers (self w') = device_handlers (self w) /\
    debug_enabled w' = debug_enabled w.
Proof.
  rewrite process_data_run. cbn [snd].
  set (w0 := with_buffers w _).
  destruct (after_messages_events client_id
              (stream_messages (buffer_of w client_id ++ data)) w0)
    as (evs & Ht & Hf).
  destruct (after_messages_frame client_id
              (stream_messages (buffer_of w client_id ++ data)) w0)
    as (Hb & Hh & Hd & _).
  exists evs. split; [reflexivity|]. split; [exact Ht|].
  split; [rewrite Hf; apply flat_map_ext; intros m;
          apply message_events_ext; reflexivity|].
  split; [rewrite Hb; reflexivity|]. split; [rewrite Hh|rewrite Hd];
    reflexivity.
Qed.

Lemma receive_from_cons client_id chunk chunks w :
  receive_from client_id (chunk :: chunks) w
  = receive_from client_id chunks (_process_data client_id chunk w).2.
Proof.
  unfold receive_from, receive. cbn [map for_each]. unfold bind.
  rewrite process_data_run. reflexivity.
Qed.

Lemma receive_from_events client_id chunks : forall chunk w,
  exists w' evs,
    receive_from client_id (chunk :: chunks) w = (Ok tt, w') /\
    trace w' = trace w ++ evs /\
    without_registrations evs
    = stream_events w (buffer_of w client_id ++ chunk ++ concat chunks) /\
    buffer_of w' client_id
    = stream_residual (buffer_of w client_id ++ chunk ++ concat chunks).
Proof.
  induction chunks as [|chunk' chunks IH]; intros chunk w;
    rewrite receive_from_cons;
    destruct (process_data_events client_id chunk w)
      as (e1 & H1 & Ht1 & Hf1 & Hb1 & Hh1 & Hd1);
    cbv zeta in *; set (w1 := (_process_data client_id chunk w).2) in *.
  - exists w1, e1. cbn [concat]. rewrite app_nil_r.
    split; [reflexivity|]. split; [exact Ht1|]. split; [exact Hf1|].
    unfold buffer_of at 1. rewrite Hb1, lookup_insert_eq. reflexivity.
  - destruct (IH chunk' w1) as (w' & e2 & Hrun & Ht2 & Hf2 & Hb2).
    assert (Hbuf : buffer_of w1 client_id
                   = stream_residual (buffer_of w client_id ++ chunk)).
    { unfold buffer_of at 1. rewrite Hb1, lookup_insert_eq. reflexivity. }
    rewrite Hbuf in Hf2, Hb2.
    destruct (stream_app (buffer_of w client_id ++ chunk)
                (chunk' ++ concat chunks)) as (Hm & Hr).
    exists w', (e1 ++ e2). split; [exact Hrun|].
    split; [rewrite Ht2, Ht1, app_assoc; reflexivity|].
    cbn [concat]. rewrite (app_assoc (buffer_of w client_id) chunk).
    split; [|rewrite Hr; exact Hb2].
    rewrite without_registrations_app, Hf1, Hf2.
    rewrite (stream_events_ext w1 w) by assumption.
    unfold stream_events. rewrite Hm, flat_map_app. reflexivity.
Qed.

(** X4. The callbacks made while a sequence of chunks from one connection
    is processed are those of the messages of the whole stream (the
    buffer followed by the chunks), in stream order, at most one per
    message, however the stream was cut and whether or not a callback
    raised; apart from the registration of the identity the same holds of
    the log records, and no exception leaves the loop. *)
Theorem dispatch_follows_the_stream
    (w : World) (client_id : str) (chunks : list bytes) :
  chunks <> [] ->
  let stream := buffer_of w client_id ++ concat chunks in
  exists w' evs,
    receive_from client_id chunks w = (Ok tt, w') /\
    trace w' = trace w ++ evs /\
    without_registrations evs = stream_events w stream /\
    calls evs = flat_map (fun m => calls (message_events w m))
                  (stream_messages stream) /\
    Forall (fun m => (length (calls (message_events w m)) <= 1)%nat)
      (stream_messages stream) /\
    buffer_of w' client_id = stream_residual stream.
Proof.
  intros Hne stream. destruct chunks as [|chunk chunks]; [congruence|].
  destruct (receive_from_events client_id chunks chunk w)
    as (w' & evs & Hrun & Ht & Hf & Hb).
  exists w', evs. split; [exact Hrun|]. split; [exact Ht|].
  split; [exact Hf|]. split.
  - rewrite <- calls_without_registrations, Hf. subst stream. cbn [concat].
    unfold stream_events.
    induction (stream_messages _) as [|m ms IHm]; [reflexivity|].
    cbn [flat_map]. rewrite calls_app, IHm. reflexivity.
  - split; [|exact Hb]. apply Forall_forall. intros m _.
    unfold message_events.
    destruct (utf8_decode m) as [[|c0 [|c1 content]]|]; cbn; try lia.
    rewrite calls_dispatch_events.
    destruct (first_match _ _) as [[b f]|]; cbn; lia.
Qed.

(** ** What processing data leaves alone *)

Lemma dict_set_In {V} (d : dict str V) k v k' v' :
  In (k', v') (dict_set d k v) -> (k', v') = (k, v) \/ In (k', v') d.
Proof.
  induction d as [|[k0 v0] d IH]; cbn.
  - intros [H|[]]; auto.
  - destruct (decide (k0 = k)) as [->|Hne]; cbn.
    + intros [H|H]; auto.
    + intros [H|H]; auto. destruct (IH H); auto.
Qed.

Lemma learn_entries client_id tag w c info :
  dict_get (clients (self w)) c = Some info ->
  exists info',
    dict_get (clients (self (learn client_id tag w))) c = Some info' /\
    same_connection info info' /\
    (c <> client_id -> info' = info) /\
    (forall d, device_id info = Some d -> info' = info) /\
    (device_id info' = device_id info \/
     (c = client_id /\ device_id info = None /\ device_id info' = Some tag)).
Proof.
  intros Hget. unfold learn.
  destruct (dict_get (clients (self w)) client_id) as [i|] eqn:E.
  2: { exists info. unfold same_connection. auto 10. }
  destruct (device_id i) eqn:D.
  1: { exists info. unfold same_connection. auto 10. }
  cbn. destruct (decide (client_id = c)) as [->|Hne].
  - rewrite dict_get_set_eq. assert (i = info) as -> by congruence.
    eexists. split; [reflexivity|]. unfold same_connection. cbn.
    split; [auto|]. split; [congruence|]. split; [congruence|]. auto.
  - rewrite dict_get_set_ne by assumption. exists info.
    unfold same_connection. auto 10.
Qed.

Lemma after_message_entries client_id m w c info :
  dict_get (clients (self w)) c = Some info ->
  exists info',
    dict_get (clients (self (after_message client_id m w))) c = Some info' /\
    same_connection info info' /\
    (c <> client_id -> info' = info) /\
    (forall d, device_id info = Some d -> info' = info).
Proof.
  intros Hget. unfold after_message.
  destruct (utf8_decode m) as [[|c0 [|c1 content]]|];
    try solve [exists info; unfold same_connection; cbn; auto 10].
  destruct (learn_entries client_id [c0] w c info Hget)
    as (info' & H1 & H2 & H3 & H4 & _).
  exists info'. cbn. auto.
Qed.

Lemma after_messages_entries client_id ms : forall w c info,
  dict_get (clients (self w)) c = Some info ->
  exists info',
    dict_get (clients (self (after_messages client_id ms w))) c = Some info' /\
    same_connection info info' /\
    (c <> client_id -> info' = info) /\
    (forall d, device_id info = Some d -> info' = info).
Proof.
  induction ms as [|m ms IH]; intros w c info Hget.
  - exists info. unfold same_connection. auto 10.
  - destruct (after_message_entries client_id m w c info Hget)
      as (i1 & G1 & (S1 & A1 & L1) & N1 & D1).
    destruct (IH _ c i1 G1) as (i2 & G2 & (S2 & A2 & L2) & N2 & D2).
    exists i2. cbn [after_messages fold_left]. split; [exact G2|].
    unfold same_connection. split; [repeat split; congruence|]. split.
    + intros Hne. rewrite (N2 Hne), (N1 Hne). reflexivity.
    + intros d Hd. specialize (D1 d Hd). subst i1.
      apply (D2 d Hd).
Qed.

(** X5. Processing data of one connection leaves every other connection
    as it was, and of the connection itself changes at most an unset
    identity: socket, address and time of last activity stay, a set
    identity stays, no connection is added or removed, the buffers of the
    other connections and the registrations are untouched. *)
Theorem process_data_is_local
    (w : World) (client_id : str) (data : bytes) :
  exists w',
    _process_data client_id data w = (Ok tt, w') /\
    dict_keys (clients (self w')) = dict_keys (clients (self w)) /\
    device_handlers (self w') = device_handlers (self w) /\
    (forall c, c <> client_id ->
       message_buffers (self w') !! c = message_buffers (self w) !! c) /\
    forall c info,
      dict_get (clients (self w)) c = Some info ->
      exists info',
        dict_get (clients (self w')) c = Some info' /\
        same_connection info info' /\
        (c <> client_id -> info' = info) /\
        (forall d, device_id info = Some d -> info' = info).
Proof.
  eexists. split; [apply process_data_run|].
  set (w0 := with_buffers w _).
  destruct (after_messages_frame client_id
              (stream_messages (buffer_of w client_id ++ data)) w0)
    as (Hb & Hh & _ & Hk).
  split; [exact Hk|]. split; [exact Hh|]. split.
  - intros c Hne. rewrite Hb. subst w0. cbn.
    apply lookup_insert_ne. congruence.
  - intros c info Hget.
    apply (after_messages_entries client_id _ w0 c info Hget).
Qed.

(** ** Looking devices up *)

Lemma find_client_split items device :
  match find_client items device with
  | Some client_id =>
      exists before info after,
        items = before ++ (client_id, info) :: after /\
        device_id info = Some device /\
        forall c i, In (c, i) before -> device_id i <> Some device
  | None => forall c i, In (c, i) items -> device_id i <> Some device
  end.
Proof.
  induction items as [|[c0 i0] items IH]; cbn.
  - intros c i [].
  - destruct (decide (device_id i0 = Some device)) as [Heq|Hne].
    + exists [], i0, items. split; [reflexivity|]. split; [exact Heq|].
      intros c i [].
    + destruct (find_client items device) as [cid|].
      * destruct IH as (before & info & after & -> & Hd & Hb).
        exists ((c0, i0) :: before), info, after.
        split; [reflexivity|]. split; [exact Hd|].
        intros c i [[= -> ->]|Hin]; eauto.
      * intros c i [[= -> ->]|Hin]; eauto.
Qed.

(** X6. [_find_client_by_device] returns the first connection, in the
    order the connections entered the table, whose stored identity is the
    device, and [None] when there is none; [is_device_connected] is true
    exactly when some connection has that identity.  Neither changes
    anything. *)
Theorem find_client_by_device_first_match (w : World) (device : str) :
  exists r,
    _find_client_by_device device w = (Ok r, w) /\
    is_device_connected device w
    = (Ok (match r with Some _ => true | None => false end), w) /\
    match r with
    | Some client_id =>
        exists before info after,
          clients (self w) = before ++ (client_id, info) :: after /\
          device_id info = Some device /\
          forall c i, In (c, i) before -> device_id i <> Some device
    | None =>
        forall c i, In (c, i) (clients (self w)) -> device_id i <> Some device
    end.
Proof.
  exists (find_client (clients (self w)) device).
  split; [reflexivity|]. split; [reflexivity|]. apply find_client_split.
Qed.

Lemma find_client_some_iff items device :
  (exists c, find_client items device = Some c)
  <-> exists c i, In (c, i) items /\ device_id i = Some device.
Proof.
  split.
  - intros (c & H). pose proof (find_client_split items device) as S.
    rewrite H in S. destruct S as (before & info & after & -> & Hd & _).
    exists c, info. split; [|exact Hd]. apply in_or_app. right. left.
    reflexivity.
  - intros (c & i & Hin & Hd).
    destruct (find_client items device) as [c'|] eqn:E; [eauto|].
    exfalso. apply (proj1 (find_client_none _ _) E c i Hin Hd).
Qed.


Lemma is_device_connected_run device w :
  is_device_connected device w
  = (Ok (match find_client (clients (self w)) device with
         | Some _ => true
         | None => false
         end), w).
Proof. reflexivity. Qed.

(** X8. The identity a connection learns from its first message is the
    raw tag, not the canonical identifier: afterwards the device is found
    under the tag, and under the canonical identifier only if the tag maps
    to itself or another connection already carried that identifier. *)
Theorem learnt_identity_is_the_raw_tag
    (w : World) (client_id : str) (m : bytes) (c0 c1 : char) (content : str) :
  dict_in client_id (clients (self w)) = true ->
  identity w client_id = None ->
  utf8_decode m = Some (c0 :: c1 :: content) ->
  exists w',
    handle_message client_id m w = (Ok tt, w') /\
    identity w' client_id = Some [c0] /\
    is_device_connected [c0] w' = (Ok true, w') /\
    (mapped_id [c0] <> [c0] ->
     is_device_connected (mapped_id [c0]) w = (Ok false, w) ->
     is_device_connected (mapped_id [c0]) w' = (Ok false, w')).
Proof.
  intros Hin Hid Hdec. eexists. split; [apply handle_message_run|].
  pose proof (first_message_sets_identity client_id m c0 c1 content w
                Hin Hid Hdec) as Hnew.
  split; [exact Hnew|].
  set (w' := after_message client_id m w) in *.
  rewrite !is_device_connected_run. split.
  - destruct (find_client (clients (self w')) [c0]) eqn:E; [reflexivity|].
    exfalso. unfold identity in Hnew.
    destruct (dict_get (clients (self w')) client_id) as [info|] eqn:G;
      [|discriminate].
    apply (proj1 (find_client_none _ _) E client_id info);
      [apply dict_get_In, G|exact Hnew].
  - intros Hmap Hold. remember (mapped_id [c0]) as canon.
    destruct (find_client (clients (self w)) canon) eqn:E;
      [discriminate|].
    assert (E' : find_client (clients (self w')) canon = None).
    { apply find_client_none. intros c i Hi Hd.
      pose proof (proj1 (find_client_none _ _) E) as E0. clear E.
      rename E0 into E.
      subst w'. unfold after_message in Hi. rewrite Hdec in Hi. cbn in Hi.
      unfold learn, identity, dict_in in *.
      destruct (dict_get (clients (self w)) client_id) as [info|];
        [|discriminate].
      rewrite Hid in Hi. cbn in Hi.
      apply dict_set_In in Hi as [[= -> ->]|Hi].
      - cbn in Hd. injection Hd as Hd. apply Hmap. symmetry. exact Hd.
      - apply (E c i Hi Hd). }
    rewrite E'. reflexivity.
Qed.

(** ** Accepting and evicting *)

Lemma accept_connection_run sock addr now w :
  accept_connection sock addr now w
  = (Ok (client_id_of addr),
     add_events
       (with_buffers
          (with_clients w
             (dict_set (clients (self w)) (client_id_of addr)
                (mkClient sock addr (auto_device_mapping (self w) !! addr.1)
                   now)))
          (<[client_id_of addr := []]> (message_buffers (self w))))
       (Log INFO (NewClient (client_id_of addr))
        :: match auto_device_mapping (self w) !! addr.1 with
           | Some d => [ Log INFO (AutoRegistered d (client_id_of addr)) ]
           | None => []
           end)).
Proof.
  unfold accept_connection, client_id_of, store_client, set_clients,
    set_message_buffers, log, emit, add_events, with_trace, with_buffers,
    with_clients.
  unfold bind, get, put, ret. destruct w as [[c b hs a] t dbg]. cbn.
  destruct (a !! addr.1); cbn; rewrite <- ?app_assoc; reflexivity.
Qed.

(** X9. Accepting a connection puts it in the table under
    [address:port] with the accepted socket, the identity the address
    table gives (none otherwise), the time of the accept and an empty
    buffer.  An entry already under that id is overwritten where it stands
    and its buffered bytes are dropped; a new id goes to the end of the
    table; every other connection and buffer is left as it was. *)
Theorem accept_connection_registers
    (w : World) (sock : Socket) (addr : str * N) (now : Q) :
  let client_id := client_id_of addr in
  exists w',
    accept_connection sock addr now w = (Ok client_id, w') /\
    dict_get (clients (self w')) client_id
    = Some (mkClient sock addr (auto_device_mapping (self w) !! addr.1) now) /\
    message_buffers (self w') !! client_id = Some [] /\
    (forall c, c <> client_id ->
       dict_get (clients (self w')) c = dict_get (clients (self w)) c /\
       message_buffers (self w') !! c = message_buffers (self w) !! c) /\
    dict_keys (clients (self w'))
    = (if dict_in client_id (clients (self w))
       then dict_keys (clients (self w))
       else dict_keys (clients (self w)) ++ [client_id]) /\
    device_handlers (self w') = device_handlers (self w).
Proof.
  intros client_id. eexists. split; [apply accept_connection_run|].
  fold client_id. cbn.
  split; [apply dict_get_set_eq|]. split; [apply lookup_insert_eq|].
  split.
  - intros c Hne. rewrite dict_get_set_ne by congruence.
    rewrite lookup_insert_ne by congruence. auto.
  - split; [|reflexivity].
    destruct (dict_in client_id (clients (self w))) eqn:E.
    + apply dict_keys_set_present, E.
    + apply dict_keys_set_absent, E.
Qed.

Lemma dict_del_set_absent {V} (d : dict str V) k v :
  dict_in k d = false -> dict_del (dict_set d k v) k = d.
Proof.
  intros H. rewrite dict_del_set. apply dict_del_absent.
  unfold dict_in in H. destruct (dict_get d k); [discriminate|reflexivity].
Qed.

(** X10. Accepting a connection under a free id and evicting it again
    gives back the connection table and the buffers as they were, the
    socket closing without error. *)
Theorem accept_then_remove_restores
    (w : World) (sock : Socket) (addr : str * N) (now : Q) :
  dict_in (client_id_of addr) (clients (self w)) = false ->
  message_buffers (self w) !! client_id_of addr = None ->
  sock_open sock && sock_close_error sock = false ->
  exists w1 w2,
    accept_connection sock addr now w = (Ok (client_id_of addr), w1) /\
    _remove_client (client_id_of addr) w1 = (Ok tt, w2) /\
    self w2 = self w.
Proof.
  intros Hin Hbuf Hclose. eexists _, _.
  split; [apply accept_connection_run|].
  split; [apply remove_client_run|].
  unfold after_remove. cbn. rewrite dict_get_set_eq.
  unfold socket_close. cbn.
  assert (Hr : (if sock_open sock
                then (mkSocket (sock_fd sock) false (sock_sent sock)
                        (sock_send_error sock) (sock_close_error sock),
                      if sock_close_error sock then Some OSError else None)
                else (sock, None)).2 = None).
  { destruct (sock_open sock); cbn in *; [rewrite Hclose|]; reflexivity. }
  rewrite Hr. cbn. rewrite dict_del_set_absent by exact Hin.
  rewrite delete_insert_id by exact Hbuf.
  destruct w as [[c b hs a] t dbg]. reflexivity.
Qed.

(** X11. Evicting a connection never raises, leaves every other
    connection and buffer untouched, and keeps the other connections in
    their order: the ids of the table afterwards are those of before, or
    those of before without the evicted one. *)
Theorem remove_client_is_local (w : World) (client_id : str) :
  exists w',
    _remove_client client_id w = (Ok tt, w') /\
    (forall c, c <> client_id ->
       dict_get (clients (self w')) c = dict_get (clients (self w)) c /\
       message_buffers (self w') !! c = message_buffers (self w) !! c) /\
    (dict_keys (clients (self w')) = dict_keys (clients (self w)) \/
     dict_keys (clients (self w'))
     = filter (fun c => c <> client_id) (dict_keys (clients (self w)))) /\
    device_handlers (self w') = device_handlers (self w).
Proof.
  eexists. split; [apply remove_client_run|]. split.
  - intros c Hne. apply after_remove_other. congruence.
  - unfold after_remove.
    destruct (dict_get (clients (self w)) client_id) as [info|] eqn:E;
      [|auto].
    destruct (socket_close (socket info)).2; cbn.
    + split; [|reflexivity]. left. apply dict_keys_set_present.
      unfold dict_in. rewrite E. reflexivity.
    + split; [|reflexivity]. right. apply dict_keys_del.
Qed.

(** ** Registration and dispatch *)

Lemma register_run device kind f w :
  register_device_handler device kind f w
  = (Ok tt,
     add_events
       (mkWorld
          (mkTCPHandler (clients (self w)) (message_buffers (self w))
             (dict_set (device_handlers (self w)) device
                (dict_set (default [] (dict_get (device_handlers (self w))
                                         device))
                   kind f))
             (auto_device_mapping (self w)))
          (trace w) (debug_enabled w))
       [ Log DEBUG (HandlerRegistered device kind) ]).
Proof.
  unfold register_device_handler, set_device_handlers, when, log, emit,
    dict_in, add_events, with_trace.
  unfold bind, get, put, ret, raise.
  destruct w as [[c b hs a] t dbg]. cbn.
  destruct (dict_get hs device) as [table|] eqn:E;
    repeat (progress (cbn; rewrite ?E, ?dict_get_set_eq, ?dict_set_set));
    reflexivity.
Qed.

Lemma register_lookup device kind f w :
  lookup_handler
    (dict_set (device_handlers (self w)) device
       (dict_set (default [] (dict_get (device_handlers (self w)) device))
          kind f))
    device kind = Some f.
Proof. unfold lookup_handler. rewrite !dict_get_set_eq. reflexivity. Qed.

(** X12. Registering a handler never raises and touches only its own key:
    afterwards the key (device, kind) holds the new handler, replacing any
    earlier one, every other key holds what it held, and connections and
    buffers are as they were. *)
Theorem register_overwrites_one_key
    (w : World) (device kind : str) (f : Handler) :
  exists w',
    register_device_handler device kind f w = (Ok tt, w') /\
    lookup_handler (device_handlers (self w')) device kind = Some f /\
    (forall device' kind',
       (device', kind') <> (device, kind) ->
       lookup_handler (device_handlers (self w')) device' kind'
       = lookup_handler (device_handlers (self w)) device' kind') /\
    clients (self w') = clients (self w) /\
    message_buffers (self w') = message_buffers (self w).
Proof.
  eexists. split; [apply register_run|]. cbn. unfold lookup_handler.
  split; [rewrite !dict_get_set_eq; reflexivity|].
  split; [|auto].
  intros device' kind' Hne.
  destruct (decide (device = device')) as [<-|Hd].
  - rewrite dict_get_set_eq.
    assert (Hk : kind <> kind') by congruence.
    rewrite dict_get_set_ne by exact Hk.
    destruct (dict_get (device_handlers (self w)) device); reflexivity.
  - rewrite dict_get_set_ne by exact Hd. reflexivity.
Qed.

(** X13. A handler registered under the canonical identifier of a tag and
    a kind receives the next message with that tag and kind, and it alone:
    one call, with tag, kind, content and the reconstructed line. *)
Theorem registered_handler_is_called
    (w : World) (client_id : str) (f : Handler)
    (m : bytes) (c0 c1 : N) (content : str) :
  utf8_decode m = Some (c0 :: c1 :: content) ->
  exists w1 w2,
    register_device_handler (mapped_id [c0]) [c1] f w = (Ok tt, w1) /\
    handle_message client_id m w1 = (Ok tt, w2) /\
    calls (trace w2)
    = calls (trace w)
      ++ [ (f, mkArg [c0] [c1] content (Some (c0 :: c1 :: content))) ].
Proof.
  intros Hdec.
  pose proof (register_run (mapped_id [c0]) [c1] f w) as Hreg.
  pose proof (register_lookup (mapped_id [c0]) [c1] f w) as Hlook.
  set (w1 := add_events _ _) in Hreg.
  change (lookup_handler (device_handlers (self w1)) (mapped_id [c0]) [c1]
          = Some f) in Hlook.
  exists w1, (after_message client_id m w1).
  split; [exact Hreg|]. split; [apply handle_message_run|].
  assert (Ht : calls (trace w1) = calls (trace w)).
  { subst w1. cbn. rewrite calls_app. cbn. apply app_nil_r. }
  unfold after_message. rewrite Hdec. cbn [add_events with_trace trace].
  rewrite calls_app, calls_dispatch_events.
  destruct (learn_frame client_id [c0] w1) as (_ & Hh & _ & _).
  rewrite Hh. unfold strategies. cbn [app first_match].
  rewrite Hlook.
  assert (Hl : calls (trace (learn client_id [c0] w1)) = calls (trace w1)).
  { unfold learn.
    destruct (dict_get (clients (self w1)) client_id) as [info|];
      [|reflexivity].
    destruct (device_id info); [reflexivity|]. cbn.
    rewrite !calls_app. cbn. rewrite !app_nil_r. reflexivity. }
  rewrite Hl, Ht. reflexivity.
Qed.

(** ** Outbound send: failure and locality *)

Lemma dict_set_same {V} (d : dict str V) k v :
  dict_get d k = Some v -> dict_set d k v = d.
Proof.
  induction d as [|[k0 v0] d IH]; cbn; [discriminate|].
  destruct (decide (k0 = k)) as [->|Hne].
  - intros [= ->]. reflexivity.
  - intros H. rewrite IH; auto.
Qed.

Lemma with_socket_same info : with_socket info (socket info) = info.
Proof. destruct info. reflexivity. Qed.

Lemma send_message_run_failed w device command now client_id info e :
  find_client (clients (self w)) device = Some client_id ->
  client_id <> [] ->
  dict_get (clients (self w)) client_id = Some info ->
  write_error info command = Some e ->
  send_message device command now w
  = (Ok false,
     after_remove client_id
       (add_events w [ Log ERROR (SendFailed device e) ])).
Proof.
  intros Hfind Hne Hget Herr.
  destruct client_id as [|c0 cid]; [congruence|].
  unfold send_message, _find_client_by_device, try_except, encode, sendall,
    client, store_client, set_clients, log, emit, dict_in, socket_sendall.
  unfold bind, get, put, ret, raise.
  unfold write_error in Herr.
  destruct w as [[c b hs a] t dbg]. cbn in Hfind, Hget.
  destruct (utf8_encode (terminated command)) as [data|] eqn:Henc.
  - destruct (sock_open (socket info) && negb (sock_send_error (socket info)))
      eqn:Hs; [discriminate|]. injection Herr as <-.
    repeat (progress (cbn -[_remove_client];
                      rewrite ?Hfind, ?Hget, ?Henc, ?Hs)).
    rewrite with_socket_same, (dict_set_same _ _ _ Hget).
    rewrite remove_client_run. reflexivity.
  - injection Herr as <-.
    repeat (progress (cbn -[_remove_client];
                      rewrite ?Hfind, ?Hget, ?Henc)).
    rewrite remove_client_run. reflexivity.
Qed.

(** X14. When the write of a command fails, because the command cannot be
    encoded as UTF-8 or because the socket refuses it, [send_message]
    returns [False] without raising, logs the failure and evicts the
    connection it had found: nothing is written, and the connection and
    its buffer are gone, the socket closing without error.  The other
    connections are untouched. *)
Theorem send_message_failure_evicts
    (w : World) (device command : str) (now : Q)
    (client_id : str) (info : ClientInfo) (e : exn) :
  find_client (clients (self w)) device = Some client_id ->
  client_id <> [] ->
  dict_get (clients (self w)) client_id = Some info ->
  write_error info command = Some e ->
  exists w',
    send_message device command now w = (Ok false, w') /\
    _remove_client client_id
      (add_events w [ Log ERROR (SendFailed device e) ]) = (Ok tt, w') /\
    (close_raises info = false ->
     dict_get (clients (self w')) client_id = None /\
     message_buffers (self w') !! client_id = None /\
     trace w'
     = trace w ++ [ Log ERROR (SendFailed device e) ]
       ++ disconnect_events (device_id info)) /\
    (forall c, c <> client_id ->
       dict_get (clients (self w')) c = dict_get (clients (self w)) c /\
       message_buffers (self w') !! c = message_buffers (self w) !! c).
Proof.
  intros Hfind Hne Hget Herr. eexists.
  split; [apply (send_message_run_failed _ _ _ _ _ _ _ Hfind Hne Hget Herr)|].
  split; [apply remove_client_run|]. split.
  - intros Hclose.
    destruct (remove_client_evicts client_id info
                (add_events w [ Log ERROR (SendFailed device e) ])
                Hget Hclose) as (H1 & H2 & H3).
    cbv zeta in *. rewrite H1, H2, H3. cbn. rewrite <- app_assoc. auto.
  - intros c Hc.
    destruct (after_remove_other client_id c
                (add_events w [ Log ERROR (SendFailed device e) ]))
      as [H1 H2]; [congruence|]. rewrite H1, H2. auto.
Qed.

(** X15. A successful send touches only the connection it writes to:
    every other connection, every buffer and the registrations are as
    before, no connection is added or removed, the identity and address of
    the target stay, and one record is logged. *)
Theorem send_message_is_local
    (w : World) (device command : str) (now : Q)
    (client_id : str) (info : ClientInfo) (data : bytes) :
  find_client (clients (self w)) device = Some client_id ->
  client_id <> [] ->
  dict_get (clients (self w)) client_id = Some info ->
  sock_open (socket info) = true ->
  sock_send_error (socket info) = false ->
  utf8_encode (terminated command) = Some data ->
  exists w' info',
    send_message device command now w = (Ok true, w') /\
    dict_get (clients (self w')) client_id = Some info' /\
    device_id info' = device_id info /\
    address info' = address info /\
    (forall c, c <> client_id ->
       dict_get (clients (self w')) c = dict_get (clients (self w)) c) /\
    dict_keys (clients (self w')) = dict_keys (clients (self w)) /\
    message_buffers (self w') = message_buffers (self w) /\
    device_handlers (self w') = device_handlers (self w) /\
    trace w'
    = trace w ++ [ Log INFO (SendSucceeded device (strip (terminated command))) ].
Proof.
  intros Hfind Hne Hget Hopen Hsend Henc.
  eexists _, (sent_to info data now).
  split; [apply (send_message_run_ok _ _ _ _ _ _ _ Hfind Hne Hget Hopen
                   Hsend Henc)|].
  cbn. split; [apply dict_get_set_eq|]. split; [reflexivity|].
  split; [reflexivity|]. split.
  - intros c Hc. apply dict_get_set_ne. congruence.
  - split; [|auto]. apply dict_keys_set_present.
    unfold dict_in. rewrite Hget. reflexivity.
Qed.

(** ** The sweep: what it leaves, and sweeping again *)

Lemma dict_del_In {V} (d : dict str V) k k' v' :
  In (k', v') (dict_del d k) <-> In (k', v') d /\ k' <> k.
Proof.
  induction d as [|[k0 v0] d IH]; cbn; [tauto|].
  destruct (decide (k0 = k)) as [->|Hne]; cbn.
  - rewrite IH. split; [tauto|]. intros [[[= -> ->]|H] Hk]; tauto.
  - rewrite IH. split.
    + intros [[= -> ->]|[H Hk]]; auto.
    + intros [[H|H] Hk]; auto.
Qed.

Lemma after_remove_In x w c i :
  closes_cleanly w ->
  In (c, i) (clients (self (after_remove x w))) ->
  In (c, i) (clients (self w)) /\ c <> x.
Proof.
  intros Hclean. unfold after_remove.
  destruct (dict_get (clients (self w)) x) as [info|] eqn:E.
  - pose proof (Hclean x info (dict_get_In _ _ _ E)) as Hc.
    unfold close_raises in Hc. unfold socket_close.
    destruct (sock_open (socket info)); cbn in *.
    + rewrite Hc. cbn. apply dict_del_In.
    + apply dict_del_In.
  - intros Hin. split; [exact Hin|]. intros ->.
    assert (Hk : dict_in x (clients (self w)) = true).
    { apply dict_in_elem. apply list_elem_of_In. unfold dict_keys.
      change x with (fst (x, i)). apply in_map, Hin. }
    unfold dict_in in Hk. rewrite E in Hk. discriminate.
Qed.

Lemma sweep_In l : forall w c i,
  closes_cleanly w ->
  In (c, i) (clients (self (fold_left sweep_step l w))) ->
  In (c, i) (clients (self w)) /\ ~ In c l.
Proof.
  induction l as [|x l IH]; intros w c i Hclean Hin; [auto|].
  cbn [fold_left] in Hin.
  assert (Hclean' : closes_cleanly (sweep_step w x)).
  { intros c' i' H'. unfold sweep_step in H'.
    apply after_remove_In in H' as [H' _]; [|exact Hclean].
    apply (Hclean c' i' H'). }
  destruct (IH _ c i Hclean' Hin) as [H1 H2].
  unfold sweep_step in H1.
  apply after_remove_In in H1 as [H1 Hne]; [|exact Hclean].
  split; [exact H1|]. cbn. intros [->|H]; [congruence|contradiction].
Qed.

Lemma inactive_clients_nil items current_time timeout :
  (forall c i, In (c, i) items ->
               idle_exceeds current_time (last_activity i) timeout = false) ->
  inactive_clients items current_time timeout = [].
Proof.
  induction items as [|[c i] items IH]; intros H; [reflexivity|].
  cbn. rewrite (H c i) by (left; reflexivity). apply IH.
  intros c' i' Hin. apply (H c' i'). right. exact Hin.
Qed.


(** ** Activity keeps a connection *)

Lemma read_turn_run client_id data now w :
  let w1 := (_process_data client_id data w).2 in
  read_turn client_id data now w
  = (Ok true,
     match dict_get (clients (self w1)) client_id with
     | Some info =>
         with_clients w1
           (dict_set (clients (self w1)) client_id
              (with_last_activity info now))
     | None => w1
     end).
Proof.
  cbv zeta. unfold read_turn, try_except. unfold bind at 1.
  rewrite process_data_run. cbn [snd].
  set (w1 := after_messages _ _ _).
  unfold bind, get, when, client, store_client, set_clients, put, ret, raise,
    dict_in, with_clients.
  cbn. destruct (dict_get (clients (self w1)) client_id) as [info|] eqn:E;
    cbn; rewrite ?E; reflexivity.
Qed.

(** X17. A turn of the read loop stamps the connection with the time of
    the read, so a sweep no later than 600 time-units after that read
    keeps the connection, with the timestamp of the read, whatever its
    earlier timestamp was. *)
Theorem read_turn_postpones_eviction
    (w : World) (client_id : str) (data : bytes) (now later : Q) :
  dict_wf (clients (self w)) ->
  dict_in client_id (clients (self w)) = true ->
  (later - now <= 600)%Q ->
  exists w1 w2 info,
    read_turn client_id data now w = (Ok true, w1) /\
    _cleanup_inactive_clients later DEFAULT_TIMEOUT w1 = (Ok tt, w2) /\
    dict_get (clients (self w2)) client_id = Some info /\
    last_activity info = now.
Proof.
  intros Hwf Hin Hle.
  pose proof (read_turn_run client_id data now w) as Hturn.
  cbv zeta in Hturn. rewrite process_data_run in Hturn. cbn [snd] in Hturn.
  set (w0 := with_buffers w _) in Hturn.
  set (wp := after_messages client_id _ w0) in Hturn.
  assert (Hkeys : dict_keys (clients (self wp)) = dict_keys (clients (self w))).
  { subst wp. destruct (after_messages_frame client_id
      (stream_messages (buffer_of w client_id ++ data)) w0)
      as (_ & _ & _ & H). exact H. }
  unfold dict_in in Hin.
  destruct (dict_get (clients (self w)) client_id) as [info|] eqn:E;
    [|discriminate].
  destruct (after_messages_entries client_id
              (stream_messages (buffer_of w client_id ++ data)) w0
              client_id info E) as (info' & Hget' & _).
  fold wp in Hget'. rewrite Hget' in Hturn.
  eexists _, _, (with_last_activity info' now).
  split; [exact Hturn|]. split; [apply cleanup_run|].
  split; [|reflexivity].
  set (w1 := with_clients wp _).
  assert (Hget1 : dict_get (clients (self w1)) client_id
                  = Some (with_last_activity info' now))
    by (subst w1; cbn; apply dict_get_set_eq).
  assert (Hwf1 : dict_wf (clients (self w1))).
  { subst w1. cbn. apply dict_set_wf. unfold dict_wf. rewrite Hkeys.
    exact Hwf. }
  unfold after_sweep.
  destruct (sweep_keeps
              (inactive_clients (clients (self w1)) later DEFAULT_TIMEOUT)
              client_id w1) as [-> _]; [|exact Hget1].
  intros Hbad. apply inactive_clients_In in Hbad as (i & Hi & He).
  apply (dict_wf_In_get _ _ _ Hwf1) in Hi.
  assert (i = with_last_activity info' now) as -> by congruence.
  apply idle_exceeds_true in He. cbn in He.
  apply Qlt_not_le in He. contradiction.
Qed.

(** ** Stopping the server *)

Lemma close_entries_run items : forall s,
  sfor_each items (fun '(client_id, client_info) =>
                     close_entry client_id client_info) s
  = (Ok tt,
     mkServer (tcp s) (logger_debug s) (running s) (server_socket s)
       (journal s ++ flat_map closing_entries items)).
Proof.
  induction items as [|[c i] items IH]; intros s.
  - cbn. rewrite app_nil_r. destruct s; reflexivity.
  - cbn [sfor_each flat_map]. unfold sbind at 1.
    assert (H : close_entry c i s
                = (Ok tt,
                   mkServer (tcp s) (logger_debug s) (running s)
                     (server_socket s)
                     (journal s ++ closing_entries (c, i)))).
    { unfold close_entry, close_socket, stry, sbind, record_entry, notify,
        record_entry, sraise, sret, closing_entries.
      cbn. destruct (socket_close (socket i)) as [sk [e|]]; cbn;
        rewrite <- ?app_assoc; reflexivity. }
    rewrite H, IH. cbn. rewrite <- app_assoc. reflexivity.
Qed.

Lemma stop_run s : stop s = (Ok tt, stopped s).
Proof.
  unfold stop, stopped. unfold sbind at 1, set_running.
  unfold sbind at 1, sget. unfold sbind at 1.
  rewrite close_entries_run. cbn [tcp logger_debug running server_socket
                                  journal].
  unfold sbind, clear_tables, sget, stry, close_socket, record_entry, notify,
    record_entry, set_server_socket, sraise, sret, server_closing_entries.
  cbn. destruct (server_socket s) as [sk|]; cbn.
  - destruct (socket_close sk) as [sk' [e|]]; cbn;
      rewrite <- ?app_assoc; reflexivity.
  - rewrite <- ?app_assoc. reflexivity.
Qed.

Lemma journal_closings_app j1 j2 :
  journal_closings (j1 ++ j2) = journal_closings j1 ++ journal_closings j2.
Proof. apply omap_app. Qed.

Lemma journal_closings_entries items :
  journal_closings (flat_map closing_entries items)
  = map (fun kv => (socket kv.2, (socket_close (socket kv.2)).2)) items.
Proof.
  induction items as [|kv items IH]; [reflexivity|].
  cbn [flat_map map]. rewrite journal_closings_app, IH.
  unfold closing_entries. destruct (socket_close (socket kv.2)).2; reflexivity.
Qed.

Lemma journal_closings_server sock :
  journal_closings (server_closing_entries sock)
  = match sock with
    | Some sk => [ (sk, (socket_close sk).2) ]
    | None => []
    end.
Proof.
  destruct sock as [sk|]; [|reflexivity]. cbn.
  destruct (socket_close sk).2; reflexivity.
Qed.


(** ** Starting the server *)

Lemma start_run env s :
  running s = false ->
  start env s
  = match env with
    | SocketFails e =>
        (Ok false,
         mkServer (tcp s) (logger_debug s) false (server_socket s)
           (journal s ++ [ Note ERROR (StartFailed e) ]))
    | BindFails sock e =>
        (Ok false,
         mkServer (tcp s) (logger_debug s) false (Some sock)
           (journal s ++ [ Note ERROR (StartFailed e) ]))
    | Listening sock =>
        (Ok true,
         mkServer (tcp s) (logger_debug s) true (Some sock)
           (journal s ++ [ Note INFO ServerStarted ]))
    end.
Proof.
  intros Hr. unfold start, sbind, sget, stry, notify, record_entry,
    set_server_socket, set_running, sraise, sret.
  rewrite Hr. destruct env; reflexivity.
Qed.


(** ** The read loop *)

(** Everything one turn of the read loop does. *)
Lemma read_turn_effect client_id data now w :
  exists w' evs,
    read_turn client_id data now w = (Ok true, w') /\
    trace w' = trace w ++ evs /\
    without_registrations evs
    = stream_events w (buffer_of w client_id ++ data) /\
    message_buffers (self w')
    = <[client_id := stream_residual (buffer_of w client_id ++ data)]>
        (message_buffers (self w)) /\
    device_handlers (self w') = device_handlers (self w) /\
    debug_enabled w' = debug_enabled w /\
    dict_keys (clients (self w')) = dict_keys (clients (self w)) /\
    forall c info,
      dict_get (clients (self w)) c = Some info ->
      exists info',
        dict_get (clients (self w')) c = Some info' /\
        socket info' = socket info /\ address info' = address info /\
        (c <> client_id -> info' = info).
Proof.
  pose proof (read_turn_run client_id data now w) as Hturn.
  cbv zeta in Hturn.
  destruct (process_data_events client_id data w)
    as (evs & Hrun & Ht & Hf & Hb & Hh & Hd).
  cbv zeta in *. set (wp := (_process_data client_id data w).2) in *.
  assert (Hkeys : dict_keys (clients (self wp)) = dict_keys (clients (self w))).
  { subst wp. rewrite process_data_run. cbn [snd].
    match goal with
    | |- context [after_messages ?c ?ms ?w0] =>
        destruct (after_messages_frame c ms w0) as (_ & _ & _ & H)
    end. exact H. }
  assert (Hent : forall c info,
            dict_get (clients (self w)) c = Some info ->
            exists info',
              dict_get (clients (self wp)) c = Some info' /\
              socket info' = socket info /\ address info' = address info /\
              (c <> client_id -> info' = info)).
  { intros c info Hget. subst wp. rewrite process_data_run. cbn [snd].
    match goal with
    | |- context [after_messages ?cid ?ms ?w0] =>
        destruct (after_messages_entries cid ms w0 c info Hget)
          as (info' & G & (S1 & A1 & _) & N & _)
    end.
    exists info'. auto. }
  destruct (dict_get (clients (self wp)) client_id) as [i|] eqn:E.
  - eexists _, evs. split; [exact Hturn|].
    cbn [with_clients self clients trace message_buffers device_handlers
         debug_enabled auto_device_mapping].
    split; [exact Ht|]. split; [exact Hf|]. split; [exact Hb|].
    split; [exact Hh|]. split; [exact Hd|]. split.
    + rewrite dict_keys_set_present; [exact Hkeys|].
      unfold dict_in. rewrite E. reflexivity.
    + intros c info Hget.
      destruct (Hent c info Hget) as (info' & G & S1 & A1 & N).
      destruct (decide (client_id = c)) as [<-|Hne].
      * rewrite dict_get_set_eq. eexists. split; [reflexivity|].
        assert (i = info') as -> by congruence. cbn.
        split; [exact S1|]. split; [exact A1|]. intros Hc. congruence.
      * rewrite dict_get_set_ne by exact Hne. exists info'. auto.
  - exists wp, evs. split; [exact Hturn|]. auto 10.
Qed.

Lemma journal_calls_app j1 j2 :
  journal_calls (j1 ++ j2) = journal_calls j1 ++ journal_calls j2.
Proof. apply omap_app. Qed.

Lemma journal_calls_inner evs : journal_calls (map Inner evs) = calls evs.
Proof.
  induction evs as [|[l m|f a] evs IH]; [reflexivity|exact IH|].
  change (journal_calls (map Inner (Call f a :: evs)))
    with ((f, a) :: journal_calls (map Inner evs)).
  rewrite IH. reflexivity.
Qed.

Lemma stream_events_app w s t :
  stream_events w (s ++ t)
  = stream_events w s ++ stream_events w (stream_residual s ++ t).
Proof.
  unfold stream_events. destruct (stream_app s t) as (-> & _).
  apply flat_map_app.
Qed.

Lemma stream_events_no_newline w s :
  has_newline s = false -> stream_events w s = [].
Proof.
  intros H. unfold stream_events.
  destruct (stream_messages_no_newline _ H) as (-> & _). reflexivity.
Qed.

(** The loop proper: the tables it leaves and the callbacks it made. *)
Lemma read_loop_effect client_id script : forall s,
  exists s',
    read_loop client_id script s = (Ok tt, s') /\
    running s' = running s /\
    server_socket s' = server_socket s /\
    logger_debug s' = logger_debug s /\
    device_handlers (tcp s') = device_handlers (tcp s) /\
    dict_keys (clients (tcp s')) = dict_keys (clients (tcp s)) /\
    (forall c, c <> client_id ->
       message_buffers (tcp s') !! c = message_buffers (tcp s) !! c) /\
    (forall c info,
       dict_get (clients (tcp s)) c = Some info ->
       exists info',
         dict_get (clients (tcp s')) c = Some info' /\
         socket info' = socket info /\ address info' = address info /\
         (c <> client_id -> info' = info)) /\
    (running s = true ->
     has_newline (buffer_of (world_of s) client_id) = false ->
     journal_calls (journal s')
     = journal_calls (journal s)
       ++ calls (stream_events (world_of s)
                   (buffer_of (world_of s) client_id
                    ++ concat (delivered script))) /\
     buffer_of (world_of s') client_id
     = stream_residual (buffer_of (world_of s) client_id
                        ++ concat (delivered script))).
Proof.
  assert (Hstay : forall s (j : list entry),
            journal_calls j = [] ->
            let s' := mkServer (tcp s) (logger_debug s) (running s)
                        (server_socket s) (journal s ++ j) in
            running s' = running s /\
            server_socket s' = server_socket s /\
            logger_debug s' = logger_debug s /\
            device_handlers (tcp s') = device_handlers (tcp s) /\
            dict_keys (clients (tcp s')) = dict_keys (clients (tcp s)) /\
            (forall c, c <> client_id ->
               message_buffers (tcp s') !! c = message_buffers (tcp s) !! c) /\
            (forall c info,
               dict_get (clients (tcp s)) c = Some info ->
               exists info',
                 dict_get (clients (tcp s')) c = Some info' /\
                 socket info' = socket info /\
                 address info' = address info /\
                 (c <> client_id -> info' = info)) /\
            (running s = true ->
             has_newline (buffer_of (world_of s) client_id) = false ->
             journal_calls (journal s')
             = journal_calls (journal s)
               ++ calls (stream_events (world_of s)
                           (buffer_of (world_of s) client_id ++ concat [])) /\
             buffer_of (world_of s') client_id
             = stream_residual (buffer_of (world_of s) client_id
                                ++ concat []))).
  { intros s j Hj s'. repeat split; eauto.
    - subst s'. cbn [journal concat].
      rewrite journal_calls_app, Hj, !app_nil_r.
      rewrite (stream_events_no_newline _ _ H0). cbn.
      rewrite app_nil_r. reflexivity.
    - cbn [concat]. rewrite app_nil_r.
      destruct (stream_messages_no_newline _ H0) as (_ & ->). reflexivity. }
  induction script as [|outcome script IH]; intros s.
  - exists s. split; [reflexivity|].
    pose proof (Hstay s [] eq_refl) as H. cbv zeta in H.
    rewrite app_nil_r in H. destruct s. exact H.
  - destruct s as [t d r k j]. destruct r.
    2: { exists (mkServer t d false k j). split; [reflexivity|].
         pose proof (Hstay (mkServer t d false k j) [] eq_refl) as H.
         cbv zeta in H. cbn [tcp logger_debug running server_socket journal]
           in H. rewrite app_nil_r in H.
         repeat split; try apply H; intros; discriminate. }
    set (s := mkServer t d true k j).
    destruct outcome as [[|b data] now| |e].
    + eexists. split; [reflexivity|].
      exact (Hstay s [ Note DEBUG (PeerClosed client_id) ] eq_refl).
    + destruct (read_turn_effect client_id (b :: data) now (world_of s))
        as (w1 & evs & Hturn & Ht & Hf & Hb & Hh & Hd & Hk & Hent).
      cbn [read_loop]. unfold sbind at 1, sget. cbn [running negb s].
      unfold sbind at 1, lift. fold s. rewrite Hturn.
      set (s1 := mkServer (self w1) (logger_debug s) (running s)
                   (server_socket s) (journal s ++ map Inner (trace w1))).
      destruct (IH s1) as (s' & Hrun & R & SS & LD & HH & KK & OB & EE & CC).
      exists s'. split; [exact Hrun|].
      split; [rewrite R; reflexivity|]. split; [rewrite SS; reflexivity|].
      split; [rewrite LD; reflexivity|].
      split; [rewrite HH; exact Hh|]. split; [rewrite KK; exact Hk|].
      split.
      { intros c Hc. rewrite (OB c Hc). cbn. rewrite Hb.
        apply lookup_insert_ne. congruence. }
      split.
      { intros c info Hget.
        destruct (Hent c info Hget) as (i1 & G1 & S1 & A1 & N1).
        destruct (EE c i1 G1) as (i2 & G2 & S2 & A2 & N2).
        exists i2. split; [exact G2|]. split; [congruence|].
        split; [congruence|]. intros Hc. rewrite (N2 Hc), (N1 Hc).
        reflexivity. }
      intros _ Hnl.
      assert (Hbuf : buffer_of (world_of s1) client_id
                     = stream_residual
                         (buffer_of (world_of s) client_id ++ b :: data)).
      { unfold buffer_of at 1. cbn. rewrite Hb, lookup_insert_eq.
        reflexivity. }
      destruct CC as (C1 & C2);
        [reflexivity|rewrite Hbuf; apply stream_residual_no_newline|].
      rewrite Hbuf in C1, C2.
      cbn [delivered concat].
      rewrite (app_assoc (buffer_of (world_of s) client_id) (b :: data)).
      destruct (stream_app (buffer_of (world_of s) client_id ++ b :: data)
                  (concat (delivered script))) as (_ & Hres).
      split; [|rewrite Hres; exact C2].
      rewrite C1. subst s1. cbn [journal].
      rewrite journal_calls_app, journal_calls_inner.
      cbn in Ht. rewrite Ht.
      rewrite <- (calls_without_registrations evs), Hf.
      rewrite (stream_events_app (world_of s)
                 (buffer_of (world_of s) client_id ++ b :: data)
                 (concat (delivered script))).
      rewrite (stream_events_ext
                 (world_of
                    (mkServer (self w1) (logger_debug s) (running s)
                       (server_socket s) (journal s ++ map Inner evs)))
                 (world_of s)) by (try exact Hh; reflexivity).
      rewrite calls_app, <- app_assoc. reflexivity.
    + eexists. split; [reflexivity|].
      exact (Hstay s [ Note INFO (PeerReset client_id) ] eq_refl).
    + eexists. split; [reflexivity|].
      exact (Hstay s [ Inner (Log ERROR (ReceiveError client_id e)) ]
               eq_refl).
Qed.

Lemma lift_remove_client client_id s :
  lift (_remove_client client_id) s
  = (Ok tt,
     mkServer (self (after_remove client_id (world_of s))) (logger_debug s)
       (running s) (server_socket s)
       (journal s
        ++ map Inner (trace (after_remove client_id (world_of s))))).
Proof. unfold lift. rewrite remove_client_run. reflexivity. Qed.

Lemma after_remove_no_calls client_id w :
  calls (trace (after_remove client_id w)) = calls (trace w).
Proof.
  unfold after_remove.
  destruct (dict_get (clients (self w)) client_id) as [info|]; [|reflexivity].
  destruct (socket_close (socket info)).2; cbn; rewrite calls_app; cbn.
  - apply app_nil_r.
  - unfold disconnect_events. destruct (device_id info) as [[|c d]|]; cbn;
      apply app_nil_r.
Qed.

Lemma handle_client_data_known client_id script s :
  dict_in client_id (clients (tcp s)) = true ->
  _handle_client_data client_id script s
  = lift (_remove_client client_id) (read_loop client_id script s).2.
Proof.
  intros Hin. unfold _handle_client_data. unfold sbind at 1, stry.
  unfold sbind at 1, sget. rewrite Hin. cbn [negb].
  destruct (read_loop_effect client_id script s) as (s1 & -> & _).
  reflexivity.
Qed.

(** X20. However the read loop of a connection ends (the peer closes or
    resets, [recv] fails, the server stops), the connection is evicted on
    the way out: it is no longer in the table and its buffer is gone, the
    socket closing without error.  The other connections and their
    buffers are left as they were, and nothing is raised. *)
Theorem read_loop_ends_with_eviction
    (s : Server) (client_id : str) (script : list recv_outcome)
    (info : ClientInfo) :
  dict_get (clients (tcp s)) client_id = Some info ->
  close_raises info = false ->
  exists s',
    _handle_client_data client_id script s = (Ok tt, s') /\
    dict_get (clients (tcp s')) client_id = None /\
    message_buffers (tcp s') !! client_id = None /\
    running s' = running s /\
    forall c, c <> client_id ->
      dict_get (clients (tcp s')) c = dict_get (clients (tcp s)) c /\
      message_buffers (tcp s') !! c = message_buffers (tcp s) !! c.
Proof.
  intros Hget Hclose.
  assert (Hin : dict_in client_id (clients (tcp s)) = true)
    by (unfold dict_in; rewrite Hget; reflexivity).
  rewrite (handle_client_data_known _ _ _ Hin).
  destruct (read_loop_effect client_id script s)
    as (s1 & -> & R & _ & _ & _ & Hk & OB & EE & _).
  cbn [snd]. rewrite lift_remove_client. eexists. split; [reflexivity|].
  cbn [tcp running].
  destruct (EE client_id info Hget) as (info1 & G1 & S1 & _).
  assert (Hclose1 : close_raises info1 = false)
    by (unfold close_raises in *; rewrite S1; exact Hclose).
  destruct (remove_client_evicts client_id info1 (world_of s1) G1 Hclose1)
    as (H1 & H2 & _).
  split; [exact H1|]. split; [exact H2|]. split; [exact R|].
  intros c Hc.
  destruct (after_remove_other client_id c (world_of s1)) as [-> ->];
    [congruence|]. cbn. split; [|apply OB; exact Hc].
  destruct (dict_get (clients (tcp s)) c) as [i|] eqn:E.
  - destruct (EE c i E) as (i' & G & _ & _ & N). rewrite G, (N Hc).
    reflexivity.
  - destruct (dict_get (clients (tcp s1)) c) as [i1|] eqn:E1; [|reflexivity].
    exfalso.
    assert (H : dict_in c (clients (tcp s1)) = true)
      by (unfold dict_in; rewrite E1; reflexivity).
    rewrite (dict_in_keys _ _ c Hk) in H. unfold dict_in in H.
    rewrite E in H. discriminate.
Qed.

(** X21. Over the whole life of a read loop the callbacks made are those
    of the stream the peer sent, whatever the sizes of the reads: they are
    the callbacks of the messages of the buffer followed by all the data
    received before the loop ended, in order. *)
Theorem read_loop_dispatches_the_stream
    (s : Server) (client_id : str) (script : list recv_outcome) :
  running s = true ->
  dict_in client_id (clients (tcp s)) = true ->
  has_newline (buffer_of (world_of s) client_id) = false ->
  exists s',
    _handle_client_data client_id script s = (Ok tt, s') /\
    journal_calls (journal s')
    = journal_calls (journal s)
      ++ calls (stream_events (world_of s)
                  (buffer_of (world_of s) client_id
                   ++ concat (delivered script))).
Proof.
  intros Hr Hin Hnl.
  rewrite (handle_client_data_known _ _ _ Hin).
  destruct (read_loop_effect client_id script s)
    as (s1 & -> & _ & _ & _ & _ & _ & _ & _ & CC).
  destruct (CC Hr Hnl) as (C1 & _).
  cbn [snd]. rewrite lift_remove_client. eexists. split; [reflexivity|].
  cbn [journal]. rewrite journal_calls_app, journal_calls_inner.
  rewrite after_remove_no_calls. cbn. rewrite app_nil_r. exact C1.
Qed.

(** X22. A read loop started for a client id that is not in the table
    reads nothing: it logs that the id is unknown and returns, the tables
    untouched. *)
Theorem read_loop_unknown_client
    (s : Server) (client_id : str) (script : list recv_outcome) :
  dict_in client_id (clients (tcp s)) = false ->
  _handle_client_data client_id script s
  = (Ok tt,
     mkServer (tcp s) (logger_debug s) (running s) (server_socket s)
       (journal s ++ [ Note ERROR (UnknownClient client_id) ])).
Proof.
  intros Hin. unfold _handle_client_data. unfold sbind at 1, stry.
  unfold sbind at 1, sget. rewrite Hin. cbn [negb].
  unfold notify, record_entry. rewrite lift_remove_client.
  unfold after_remove. cbn. unfold dict_in in Hin.
  destruct (dict_get (clients (tcp s)) client_id); [discriminate|].
  cbn. rewrite app_nil_r. destruct (tcp s). reflexivity.
Qed.

(** ** The health check loop *)

Lemma inactive_clients_iff (w : World) now c info :
  dict_wf (clients (self w)) ->
  dict_get (clients (self w)) c = Some info ->
  In c (inactive_clients (clients (self w)) now DEFAULT_TIMEOUT)
  <-> (600 < now - last_activity info)%Q.
Proof.
  intros Hwf Hget. rewrite inactive_clients_In. split.
  - intros (info' & Hin & He).
    apply (dict_wf_In_get _ _ _ Hwf) in Hin.
    assert (info' = info) as -> by congruence.
    apply idle_exceeds_true in He. exact He.
  - intros Hlt. exists info. split; [apply dict_get_In, Hget|].
    apply idle_exceeds_true. exact Hlt.
Qed.

Lemma sweep_wf l : forall w,
  dict_wf (clients (self w)) ->
  dict_wf (clients (self (fold_left sweep_step l w))).
Proof.
  induction l as [|x l IH]; intros w Hwf; [exact Hwf|].
  cbn [fold_left]. apply IH. unfold sweep_step. apply after_remove_wf.
  exact Hwf.
Qed.

Lemma sweep_closes_cleanly l w :
  closes_cleanly w -> closes_cleanly (fold_left sweep_step l w).
Proof.
  intros Hclean c i Hin.
  apply (sweep_In l w c i Hclean) in Hin as [Hin _].
  apply (Hclean c i Hin).
Qed.

Lemma health_check_loop_effect times : forall s,
  running s = true ->
  dict_wf (clients (tcp s)) ->
  closes_cleanly (world_of s) ->
  exists s',
    _health_check_loop times s = (Ok tt, s') /\
    running s' = true /\
    (forall c,
       dict_get (clients (tcp s)) c = None ->
       message_buffers (tcp s) !! c = None ->
       dict_get (clients (tcp s')) c = None /\
       message_buffers (tcp s') !! c = None) /\
    (forall c info,
       dict_get (clients (tcp s)) c = Some info ->
       (Forall (fun t => t - last_activity info <= 600)%Q times ->
        dict_get (clients (tcp s')) c = Some info /\
        message_buffers (tcp s') !! c = message_buffers (tcp s) !! c) /\
       (Exists (fun t => 600 < t - last_activity info)%Q times ->
        dict_get (clients (tcp s')) c = None /\
        message_buffers (tcp s') !! c = None)).
Proof.
  induction times as [|t times IH]; intros s Hr Hwf Hclean.
  - exists s. split; [reflexivity|]. split; [exact Hr|].
    split; [auto|]. intros c info Hget. split; [auto|].
    intros H. inversion H.
  - cbn [_health_check_loop]. unfold sbind at 1, sget. rewrite Hr.
    cbn [negb]. unfold sbind at 1, stry, lift. rewrite cleanup_run.
    set (w1 := after_sweep t DEFAULT_TIMEOUT (world_of s)).
    set (s1 := mkServer (self w1) (logger_debug s) (running s)
                 (server_socket s) (journal s ++ map Inner (trace w1))).
    assert (Hwf1 : dict_wf (clients (tcp s1))).
    { cbn. apply sweep_wf. exact Hwf. }
    assert (Hclean1 : closes_cleanly (world_of s1)).
    { intros c i Hin. cbn in Hin.
      apply (sweep_closes_cleanly _ _ Hclean c i Hin). }
    destruct (IH s1 Hr Hwf1 Hclean1) as (s' & Hrun & Hr' & Hgone & Hcases).
    exists s'. split; [exact Hrun|]. split; [exact Hr'|]. split.
    + intros c Hc Hb. apply Hgone; cbn; apply sweep_gone; assumption.
    + intros c info Hget.
      pose proof (inactive_clients_iff (world_of s) t c info Hwf Hget)
        as Hiff.
      destruct (Qlt_le_dec 600 (t - last_activity info)) as [Hlt|Hle].
      * assert (G : dict_get (clients (tcp s1)) c = None /\
                    message_buffers (tcp s1) !! c = None).
        { cbn. apply (sweep_removes _ _ info).
          - apply Hiff, Hlt.
          - exact Hget.
          - apply (Hclean c info). apply dict_get_In. exact Hget. }
        destruct G as [G1 G2]. split.
        -- intros Hall. apply Forall_inv in Hall.
           apply Qlt_not_le in Hlt. contradiction.
        -- intros _. apply Hgone; assumption.
      * assert (K : dict_get (clients (tcp s1)) c = Some info /\
                    message_buffers (tcp s1) !! c
                    = message_buffers (tcp s) !! c).
        { assert (Hnotin : ~ In c (inactive_clients
                                     (clients (self (world_of s))) t
                                     DEFAULT_TIMEOUT)).
          { intros Hin. apply Hiff in Hin. apply Qlt_not_le in Hin.
            contradiction. }
          destruct (sweep_keeps _ c (world_of s) Hnotin) as [E1 E2].
          split; [exact (eq_trans E1 Hget)|exact E2]. }
        destruct K as [K1 K2].
        destruct (Hcases c info K1) as [Hkeep Hdrop]. split.
        -- intros Hall. apply Forall_inv_tail in Hall.
           destruct (Hkeep Hall) as [-> ->]. auto.
        -- intros Hex. apply Exists_cons in Hex as [Hlt|Hex].
           ++ apply Qlt_not_le in Hlt. contradiction.
           ++ apply Hdrop, Hex.
Qed.


(** ** The theorems of this part at concrete inputs *)

Lemma process_data_buffers_partial_line_witness :
  has_newline (buffer_of world_two_clients sorter_id ++ ascii_bytes "1")
  = false /\
  _process_data sorter_id (ascii_bytes "1") world_two_clients
  = (Ok tt,
     with_buffers world_two_clients
       (<[sorter_id := buffer_of world_two_clients sorter_id
                       ++ ascii_bytes "1"]>
          (message_buffers (self world_two_clients)))).
Proof.
  assert (H : has_newline (buffer_of world_two_clients sorter_id
                           ++ ascii_bytes "1") = false)
    by (vm_compute; reflexivity).
  split; [exact H|].
  exact (process_data_buffers_partial_line world_two_clients sorter_id
           (ascii_bytes "1") H).
Defined.

Lemma undecodable_message_dropped_witness :
  stream_messages (buffer_of world_two_clients gate_id ++ example_undecodable)
  = [] ++ [xff] :: [ ascii_bytes "GE1" ] /\
  utf8_decode [xff] = None /\
  exists w',
    _process_data gate_id example_undecodable world_two_clients
    = (Ok tt, w') /\
    In (Log ERROR (ProcessingError UnicodeDecodeError)) (trace w').
Proof.
  assert (H1 : stream_messages
                 (buffer_of world_two_clients gate_id ++ example_undecodable)
               = [] ++ [xff] :: [ ascii_bytes "GE1" ])
    by (vm_compute; reflexivity).
  assert (H2 : utf8_decode [xff] = None) by (vm_compute; reflexivity).
  split; [exact H1|]. split; [exact H2|].
  pose proof (undecodable_message_dropped world_two_clients gate_id
                example_undecodable [] [xff] [ ascii_bytes "GE1" ] H1 H2)
    as H.
  cbv zeta in H. destruct H as (_ & _ & _ & Hrun).
  eexists. split; [exact Hrun|]. vm_compute. tauto.
Defined.

Lemma dispatch_follows_the_stream_witness :
  example_chunks <> [] /\
  exists w',
    receive_from sorter_id example_chunks world_two_clients = (Ok tt, w') /\
    buffer_of w' sorter_id = ascii_bytes "X".
Proof.
  assert (H : example_chunks <> []) by discriminate.
  split; [exact H|].
  pose proof (dispatch_follows_the_stream world_two_clients sorter_id
                example_chunks H) as H'.
  cbv zeta in H'. destruct H' as (w' & evs & Hrun & _ & _ & _ & _ & Hb).
  exists w'. split; [exact Hrun|]. rewrite Hb. vm_compute. reflexivity.
Defined.

Lemma learnt_identity_is_the_raw_tag_witness :
  dict_in sorter_id (clients (self world_handlers)) = true /\
  identity world_handlers sorter_id = None /\
  utf8_decode (ascii_bytes "SE1") = Some (83 :: 69 :: py "1")%N /\
  exists w',
    handle_message sorter_id (ascii_bytes "SE1") world_handlers
    = (Ok tt, w') /\
    identity w' sorter_id = Some (py "S") /\
    is_device_connected (py "sort_controller") w' = (Ok false, w').
Proof.
  assert (H1 : dict_in sorter_id (clients (self world_handlers)) = true)
    by (vm_compute; reflexivity).
  assert (H2 : identity world_handlers sorter_id = None)
    by (vm_compute; reflexivity).
  assert (H3 : utf8_decode (ascii_bytes "SE1") = Some (83 :: 69 :: py "1")%N)
    by (vm_compute; reflexivity).
  split; [exact H1|]. split; [exact H2|]. split; [exact H3|].
  destruct (learnt_identity_is_the_raw_tag world_handlers sorter_id
              (ascii_bytes "SE1") 83%N 69%N (py "1") H1 H2 H3)
    as (w' & Hrun & Hid & _ & Hcanon).
  exists w'. split; [exact Hrun|]. split; [exact Hid|].
  apply Hcanon.
  - vm_compute. discriminate.
  - vm_compute. reflexivity.
Defined.

Lemma accept_then_remove_restores_witness :
  dict_in (client_id_of stranger_address) (clients (self world_two_clients))
  = false /\
  message_buffers (self world_two_clients) !! client_id_of stranger_address
  = None /\
  sock_open healthy_socket && sock_close_error healthy_socket = false /\
  exists w1 w2,
    accept_connection healthy_socket stranger_address 5 world_two_clients
    = (Ok stranger_id, w1) /\
    _remove_client stranger_id w1 = (Ok tt, w2) /\
    self w2 = self world_two_clients.
Proof.
  assert (H1 : dict_in (client_id_of stranger_address)
                 (clients (self world_two_clients)) = false)
    by (vm_compute; reflexivity).
  assert (H2 : message_buffers (self world_two_clients)
               !! client_id_of stranger_address = None)
    by (vm_compute; reflexivity).
  assert (H3 : sock_open healthy_socket && sock_close_error healthy_socket
               = false) by reflexivity.
  split; [exact H1|]. split; [exact H2|]. split; [exact H3|].
  exact (accept_then_remove_restores world_two_clients healthy_socket
           stranger_address 5 H1 H2 H3).
Defined.

Lemma registered_handler_is_called_witness :
  utf8_decode (ascii_bytes "SE1") = Some (83 :: 69 :: py "1")%N /\
  exists w1 w2,
    register_device_handler (py "sort_controller") (py "E")
      (handler_named "on_event") world_two_clients = (Ok tt, w1) /\
    handle_message sorter_id (ascii_bytes "SE1") w1 = (Ok tt, w2) /\
    called w2
    = [ ("on_event"%string,
         mkArg (py "S") (py "E") (py "1") (Some (py "SE1"))) ].
Proof.
  assert (H : utf8_decode (ascii_bytes "SE1") = Some (83 :: 69 :: py "1")%N)
    by (vm_compute; reflexivity).
  split; [exact H|].
  destruct (registered_handler_is_called world_two_clients sorter_id
              (handler_named "on_event") (ascii_bytes "SE1") 83%N 69%N
              (py "1") H) as (w1 & w2 & Hreg & Hrun & Hcalls).
  exists w1, w2. split; [exact Hreg|]. split; [exact Hrun|].
  unfold called. rewrite Hcalls. reflexivity.
Defined.

Lemma send_message_failure_evicts_witness :
  find_client (clients (self world_two_clients)) (py "S") = Some sorter_id /\
  sorter_id <> [] /\
  write_error
    (mkClient healthy_socket (py "10.0.0.5", 5000%N) (Some (py "S")) 0)
    unencodable_command = Some UnicodeEncodeError /\
  exists w',
    send_message (py "S") unencodable_command 5 world_two_clients
    = (Ok false, w') /\
    dict_get (clients (self w')) sorter_id = None /\
    message_buffers (self w') !! sorter_id = None.
Proof.
  assert (Hf : find_client (clients (self world_two_clients)) (py "S")
               = Some sorter_id) by (vm_compute; reflexivity).
  assert (Hn : sorter_id <> []) by discriminate.
  assert (He : write_error
                 (mkClient healthy_socket (py "10.0.0.5", 5000%N)
                    (Some (py "S")) 0)
                 unencodable_command = Some UnicodeEncodeError)
    by (vm_compute; reflexivity).
  split; [exact Hf|]. split; [exact Hn|]. split; [exact He|].
  destruct (send_message_failure_evicts world_two_clients (py "S")
              unencodable_command 5 sorter_id
              (mkClient healthy_socket (py "10.0.0.5", 5000%N)
                 (Some (py "S")) 0)
              UnicodeEncodeError Hf Hn eq_refl He)
    as (w' & Hrun & _ & Hgone & _).
  exists w'. split; [exact Hrun|].
  destruct (Hgone eq_refl) as (G1 & G2 & _). split; [exact G1|exact G2].
Defined.

Lemma send_message_is_local_witness :
  find_client (clients (self world_two_clients)) (py "S") = Some sorter_id /\
  sorter_id <> [] /\
  utf8_encode (terminated (py "CMD")) = Some (ascii_bytes "CMD" ++ [NL]) /\
  exists w',
    send_message (py "S") (py "CMD") 5 world_two_clients = (Ok true, w') /\
    dict_get (clients (self w')) gate_id
    = dict_get (clients (self world_two_clients)) gate_id /\
    message_buffers (self w') = message_buffers (self world_two_clients).
Proof.
  assert (Hf : find_client (clients (self world_two_clients)) (py "S")
               = Some sorter_id) by (vm_compute; reflexivity).
  assert (Hn : sorter_id <> []) by discriminate.
  assert (He : utf8_encode (terminated (py "CMD"))
               = Some (ascii_bytes "CMD" ++ [NL]))
    by (vm_compute; reflexivity).
  split; [exact Hf|]. split; [exact Hn|]. split; [exact He|].
  destruct (send_message_is_local world_two_clients (py "S") (py "CMD") 5
              sorter_id
              (mkClient healthy_socket (py "10.0.0.5", 5000%N)
                 (Some (py "S")) 0)
              (ascii_bytes "CMD" ++ [NL]) Hf Hn eq_refl eq_refl eq_refl He)
    as (w' & info' & Hrun & _ & _ & _ & Hother & _ & Hb & _).
  exists w'. split; [exact Hrun|]. split; [|exact Hb].
  apply Hother. vm_compute. discriminate.
Defined.


Lemma read_turn_postpones_eviction_witness :
  dict_wf (clients (self world_two_clients)) /\
  dict_in sorter_id (clients (self world_two_clients)) = true /\
  (1000 - 700 <= 600)%Q /\
  exists w1 w2 info,
    read_turn sorter_id (ascii_bytes "1") 700 world_two_clients
    = (Ok true, w1) /\
    _cleanup_inactive_clients 1000 DEFAULT_TIMEOUT w1 = (Ok tt, w2) /\
    dict_get (clients (self w2)) sorter_id = Some info /\
    last_activity info = 700%Q.
Proof.
  assert (H1 : dict_wf (clients (self world_two_clients))).
  { apply (bool_decide_unpack _). vm_compute. exact I. }
  assert (H2 : dict_in sorter_id (clients (self world_two_clients)) = true)
    by (vm_compute; reflexivity).
  assert (H3 : (1000 - 700 <= 600)%Q) by (vm_compute; discriminate).
  split; [exact H1|]. split; [exact H2|]. split; [exact H3|].
  exact (read_turn_postpones_eviction world_two_clients sorter_id
           (ascii_bytes "1") 700 1000 H1 H2 H3).
Defined.


Lemma read_loop_ends_with_eviction_witness :
  dict_get (clients (tcp server_two_clients)) sorter_id
  = Some (mkClient healthy_socket (py "10.0.0.5", 5000%N) (Some (py "S")) 0) /\
  close_raises
    (mkClient healthy_socket (py "10.0.0.5", 5000%N) (Some (py "S")) 0)
  = false /\
  exists s',
    _handle_client_data sorter_id example_script server_two_clients
    = (Ok tt, s') /\
    dict_get (clients (tcp s')) sorter_id = None /\
    dict_get (clients (tcp s')) gate_id
    = Some (mkClient healthy_socket (py "10.0.0.7", 5001%N) None 2).
Proof.
  assert (H1 : dict_get (clients (tcp server_two_clients)) sorter_id
               = Some (mkClient healthy_socket (py "10.0.0.5", 5000%N)
                         (Some (py "S")) 0)) by reflexivity.
  assert (H2 : close_raises
                 (mkClient healthy_socket (py "10.0.0.5", 5000%N)
                    (Some (py "S")) 0) = false) by reflexivity.
  split; [exact H1|]. split; [exact H2|].
  destruct (read_loop_ends_with_eviction server_two_clients sorter_id
              example_script _ H1 H2) as (s' & Hrun & Hgone & _ & _ & Hother).
  exists s'. split; [exact Hrun|]. split; [exact Hgone|].
  destruct (Hother gate_id) as [-> _]; [vm_compute; discriminate|].
  reflexivity.
Defined.

Lemma read_loop_dispatches_the_stream_witness :
  running server_two_clients = true /\
  dict_in sorter_id (clients (tcp server_two_clients)) = true /\
  has_newline (buffer_of (world_of server_two_clients) sorter_id) = false /\
  exists s',
    _handle_client_data sorter_id example_script server_two_clients
    = (Ok tt, s') /\
    journal_calls (journal s')
    = calls (stream_events (world_of server_two_clients)
               (ascii_bytes "SE01" ++ [NL] ++ ascii_bytes "GR")).
Proof.
  assert (H1 : running server_two_clients = true) by reflexivity.
  assert (H2 : dict_in sorter_id (clients (tcp server_two_clients)) = true)
    by (vm_compute; reflexivity).
  assert (H3 : has_newline (buffer_of (world_of server_two_clients) sorter_id)
               = false) by (vm_compute; reflexivity).
  split; [exact H1|]. split; [exact H2|]. split; [exact H3|].
  destruct (read_loop_dispatches_the_stream server_two_clients sorter_id
              example_script H1 H2 H3) as (s' & Hrun & Hcalls).
  exists s'. split; [exact Hrun|]. rewrite Hcalls. vm_compute. reflexivity.
Defined.

Lemma read_loop_unknown_client_witness :
  dict_in stranger_id (clients (tcp server_two_clients)) = false /\
  _handle_client_data stranger_id example_script server_two_clients
  = (Ok tt,
     mkServer (tcp server_two_clients) false true None
       [ Note ERROR (UnknownClient stranger_id) ]).
Proof.
  assert (H : dict_in stranger_id (clients (tcp server_two_clients)) = false)
    by (vm_compute; reflexivity).
  split; [exact H|].
  exact (read_loop_unknown_client server_two_clients stranger_id
           example_script H).
Defined.

